(** * roboflow.util.prediction: Prediction and PredictionGroup

    A shallow embedding of [roboflow/util/prediction.py] and the
    properties of its data model.

    Python values are modelled by the inductive [value] (None, bool, int,
    float, str, list, tuple, dict with str keys).  A float is a binary64
    number, a primitive float of Rocq; the arithmetic of
    [plot_annotation] is kept abstract.  A str is a Rocq [string] that
    holds the UTF-8 form of the text, as a string literal of this file
    does.  A dict is an association list in insertion order, as Python
    keeps it.

    Exceptions are values of [exn]; methods of a PredictionGroup run in a
    state-and-exception monad whose state is the object itself together
    with the warnings emitted so far, so that the state reached when an
    exception is raised can be observed.

    [Prediction.__init__] updates the mapping it is given in place and
    keeps a reference to it; here a Prediction carries the updated
    mapping, and the caller's alias of that mapping is not represented.

    The image and figure functions ([exception_check], [plot_image] and
    the [plot] methods) work on files, the network and the display: they
    are modelled by the calls they make, with what the libraries answer
    as parameters; [plot_annotation] is modelled as the calls it makes
    on the axes. *)

From Stdlib Require Import String Ascii List ZArith NArith Bool Lia.
From Stdlib Require Import Floats.PrimFloat.
From Stdlib Require Floats.FloatOps Floats.SpecFloat Floats.FloatAxioms.
From Stdlib Require DecimalString DecimalFacts DecimalPos DecimalN DecimalZ.
Import ListNotations.

Local Open Scope list_scope.
Local Open Scope string_scope.

(** ** Python strs

    A str is the [string] of the bytes of its UTF-8 form; a surrogate
    code point, which a str may hold, is written in three bytes like any
    other code point of its size.  Concatenation and equality of strs
    are those of the byte strings. *)

(** The six low bits of a continuation byte. *)
Definition continuation (b : ascii) : option N :=
  let n := N_of_ascii b in
  if ((128 <=? n) && (n <? 192))%N then Some (n - 128)%N else None.

(** The code points of a str, [map(ord, s)].  A byte that starts no
    sequence (in a [string] that is the form of no str) counts for
    itself. *)
Fixpoint code_points (s : string) : list N :=
  match s with
  | "" => []
  | String b0 s1 =>
      let n0 := N_of_ascii b0 in
      let alone := n0 :: code_points s1 in
      if (n0 <? 192)%N then alone
      else
        match s1 with
        | "" => alone
        | String b1 s2 =>
            match continuation b1 with
            | None => alone
            | Some c1 =>
                if (n0 <? 224)%N
                then ((n0 - 192) * 64 + c1)%N :: code_points s2
                else
                  match s2 with
                  | "" => alone
                  | String b2 s3 =>
                      match continuation b2 with
                      | None => alone
                      | Some c2 =>
                          if (n0 <? 240)%N
                          then (((n0 - 224) * 64 + c1) * 64 + c2)%N
                               :: code_points s3
                          else
                            match s3 with
                            | "" => alone
                            | String b3 s4 =>
                                match continuation b3 with
                                | None => alone
                                | Some c3 =>
                                    if (n0 <? 248)%N
                                    then ((((n0 - 240) * 64 + c1) * 64 + c2)
                                          * 64 + c3)%N :: code_points s4
                                    else alone
                                end
                            end
                      end
                  end
            end
        end
  end.

(** [chr(n)] *)
Definition chr (n : N) : string :=
  if (n <? 128)%N then String (ascii_of_N n) ""
  else if (n <? 2048)%N then
    String (ascii_of_N (192 + n / 64))
      (String (ascii_of_N (128 + n mod 64)) "")
  else if (n <? 65536)%N then
    String (ascii_of_N (224 + n / 4096))
      (String (ascii_of_N (128 + n / 64 mod 64))
         (String (ascii_of_N (128 + n mod 64)) ""))
  else
    String (ascii_of_N (240 + n / 262144))
      (String (ascii_of_N (128 + n / 4096 mod 64))
         (String (ascii_of_N (128 + n / 64 mod 64))
            (String (ascii_of_N (128 + n mod 64)) ""))).

(** [''.join(map(chr, l))] *)
Fixpoint text (l : list N) : string :=
  match l with
  | [] => ""
  | n :: l' => chr n ++ text l'
  end.

(** ** Python floats *)

(** [f == n] for a float and an int: the comparison is exact. *)
Definition float_eq_int (f : float) (n : Z) : bool :=
  match FloatOps.Prim2SF f with
  | SpecFloat.S754_zero _ => (n =? 0)%Z
  | SpecFloat.S754_finite negative m e =>
      let v := if negative then Zneg m else Zpos m in
      if (0 <=? e)%Z then (v * 2 ^ e =? n)%Z else (v =? n * 2 ^ (- e))%Z
  | _ => false
  end.

(** ** Python values *)

Unset Elimination Schemes.

Inductive value : Type :=
| VNone
| VBool (b : bool)
| VInt (n : Z)
| VFloat (f : float)
| VStr (s : string)
| VList (l : list value)
| VTuple (l : list value)
| VDict (d : list (string * value)).

Set Elimination Schemes.

(** A dict with str keys, in insertion order. *)
Definition dict : Type := list (string * value).

(** [d.get(k)]: the value bound to [k], if any. *)
Fixpoint dict_get {A : Type} (d : list (string * A)) (k : string) : option A :=
  match d with
  | [] => None
  | (k', v) :: d' => if String.eqb k' k then Some v else dict_get d' k
  end.

(** [d[k] = v]: an existing key keeps its position, a new key goes last. *)
Fixpoint dict_set {A : Type} (d : list (string * A)) (k : string) (v : A)
  : list (string * A) :=
  match d with
  | [] => [(k, v)]
  | (k', v') :: d' =>
      if String.eqb k' k then (k', v) :: d' else (k', v') :: dict_set d' k v
  end.

(** Python's [==] on the modelled values: bool is a subclass of int, an
    int and a float are compared by value, a NaN equals nothing, a
    list never equals a tuple, and two dicts are equal when they have
    the same number of keys and agree on each of them, in any order. *)
Fixpoint py_eq (a b : value) {struct a} : bool :=
  match a, b with
  | VNone, VNone => true
  | VBool x, VBool y => Bool.eqb x y
  | VBool x, VInt n => Z.eqb (Z.b2z x) n
  | VInt m, VBool y => Z.eqb m (Z.b2z y)
  | VInt m, VInt n => Z.eqb m n
  | VFloat x, VFloat y => PrimFloat.eqb x y
  | VFloat x, VInt n => float_eq_int x n
  | VInt m, VFloat y => float_eq_int y m
  | VFloat x, VBool y => float_eq_int x (Z.b2z y)
  | VBool x, VFloat y => float_eq_int y (Z.b2z x)
  | VStr s, VStr t => String.eqb s t
  | VList l, VList m =>
      (fix seq_eq (l m : list value) {struct l} : bool :=
         match l, m with
         | [], [] => true
         | x :: l', y :: m' => py_eq x y && seq_eq l' m'
         | _, _ => false
         end) l m
  | VTuple l, VTuple m =>
      (fix seq_eq (l m : list value) {struct l} : bool :=
         match l, m with
         | [], [] => true
         | x :: l', y :: m' => py_eq x y && seq_eq l' m'
         | _, _ => false
         end) l m
  | VDict d, VDict e =>
      Nat.eqb (length d) (length e) &&
      (fix items_eq (d : list (string * value)) {struct d} : bool :=
         match d with
         | [] => true
         | (k, v) :: d' =>
             match dict_get e k with
             | Some w => py_eq v w
             | None => false
             end && items_eq d'
         end) d
  | _, _ => false
  end.

Definition py_ne (a b : value) : bool := negb (py_eq a b).

(** [x is None] *)
Definition is_None (v : value) : bool :=
  match v with VNone => true | _ => false end.

(** ** Exceptions and results *)

Inductive exn : Type :=
| TypeError
| KeyError (key : string)
| IndexError
| JSONDecodeError
| Exception_ (msg : string).

Inductive result (A : Type) : Type :=
| Ok (a : A)
| Raise (e : exn).

Arguments Ok {A} a.
Arguments Raise {A} e.

(** Sequencing in [result]: the first exception ends the computation. *)
Definition rbind {A B : Type} (r : result A) (f : A -> result B) : result B :=
  match r with
  | Ok a => f a
  | Raise e => Raise e
  end.

Declare Scope py_scope.
Delimit Scope py_scope with py.
Notation "x <-? r ;; k" := (rbind r (fun x => k))
  (at level 61, r at next level, right associativity) : py_scope.

(** [s + v] for a str [s]: concatenation when [v] is a str, TypeError
    otherwise. *)
Definition str_add (s : string) (v : value) : result string :=
  match v with
  | VStr t => Ok (s ++ t)
  | _ => Raise TypeError
  end.

(** ** Prediction *)

(** An instance of class Prediction: its only attribute is the field
    mapping. *)
Record Prediction : Type := { json_prediction : dict }.

(** What a variable of the program may hold here: a plain value or a
    Prediction instance. *)
Inductive pyobj : Type :=
| OVal (v : value)
| OPrediction (p : Prediction).

(** [type(o).__name__] *)
Definition type_name (o : pyobj) : string :=
  match o with
  | OPrediction _ => "Prediction"
  | OVal VNone => "NoneType"
  | OVal (VBool _) => "bool"
  | OVal (VInt _) => "int"
  | OVal (VFloat _) => "float"
  | OVal (VStr _) => "str"
  | OVal (VList _) => "list"
  | OVal (VTuple _) => "tuple"
  | OVal (VDict _) => "dict"
  end.

(** Modelled from the spec: [roboflow.config] is not among the sources.
    [PREDICTION_OBJECT] is the name that [type(x).__name__] is compared
    with to recognise a Prediction instance, that is the name of the
    class. *)
Definition PREDICTION_OBJECT : string := "Prediction".

(** [Prediction(json_prediction, image_path, prediction_type)]: the two
    item assignments need a mapping; on any other modelled value they
    raise TypeError. *)
Definition Prediction__init__ (json_prediction : value)
    (image_path prediction_type : value) : result Prediction :=
  match json_prediction with
  | VDict d =>
      let d := dict_set d "image_path" image_path in
      let d := dict_set d "prediction_type" prediction_type in
      Ok {| json_prediction := d |}
  | _ => Raise TypeError
  end.

Definition Prediction_json (self : Prediction) : dict :=
  json_prediction self.

(** [self[key]] on a Prediction: [self.json_prediction[key]]. *)
Definition Prediction__getitem__ (self : Prediction) (key : string)
  : result value :=
  match dict_get (json_prediction self) key with
  | Some v => Ok v
  | None => Raise (KeyError key)
  end.

(** [o[key]] for a str [key]: a Prediction and a dict look the key up;
    a list, tuple or str wants an integer index and None, bool, int and
    float are not subscriptable, which is a TypeError either way. *)
Definition getitem_str (o : pyobj) (key : string) : result value :=
  match o with
  | OPrediction p => Prediction__getitem__ p key
  | OVal (VDict d) =>
      match dict_get d key with
      | Some v => Ok v
      | None => Raise (KeyError key)
      end
  | OVal _ => Raise TypeError
  end.

(** [l[index]] on a list: an int (or bool) index, negative ones counted
    from the end; IndexError out of range; any other index is a
    TypeError (slices are not modelled). *)
Definition list_getitem {A : Type} (l : list A) (index : value) : result A :=
  let at_ (i : Z) : result A :=
    let n := Z.of_nat (length l) in
    let j := (if i <? 0 then i + n else i)%Z in
    if ((j <? 0) || (n <=? j))%Z then Raise IndexError
    else match nth_error l (Z.to_nat j) with
         | Some x => Ok x
         | None => Raise IndexError
         end in
  match index with
  | VInt i => at_ i
  | VBool b => at_ (Z.b2z b)
  | _ => Raise TypeError
  end.

(** ** PredictionGroup *)

Record PredictionGroup : Type := {
  predictions : list pyobj;
  base_image_path : value;
  base_prediction_type : value
}.

(** The state a method runs in: the object and the warnings emitted so
    far by [warnings.warn], oldest first. *)
Record state : Type := {
  self : PredictionGroup;
  warned : list string
}.

(** State and exceptions: a computation returns a result together with
    the state at the point where it returned or raised. *)
Definition M (A : Type) : Type := state -> result A * state.

Definition ret {A : Type} (a : A) : M A := fun st => (Ok a, st).

Definition raise {A : Type} (e : exn) : M A := fun st => (Raise e, st).

Definition bind {A B : Type} (m : M A) (f : A -> M B) : M B :=
  fun st =>
    match m st with
    | (Ok a, st') => f a st'
    | (Raise e, st') => (Raise e, st')
    end.

Definition lift {A : Type} (r : result A) : M A := fun st => (r, st).

Definition get_self : M PredictionGroup := fun st => (Ok (self st), st).

Definition set_self (g : PredictionGroup) : M unit :=
  fun st => (Ok tt, {| self := g; warned := warned st |}).

(** [warnings.warn(msg)] with the default filters: the message is
    recorded and execution goes on. *)
Definition warnings_warn (msg : string) : M unit :=
  fun st => (Ok tt, {| self := self st; warned := (warned st ++ [msg])%list |}).

Notation "x <- m ;; k" := (bind m (fun x => k))
  (at level 61, m at next level, right associativity) : py_scope.
Notation "m ;; k" := (bind m (fun _ => k))
  (at level 61, right associativity) : py_scope.
Local Open Scope py_scope.

(** [self.__len__()] *)
Definition PredictionGroup__len__ (g : PredictionGroup) : nat :=
  length (predictions g).

(** [self[index]] *)
Definition PredictionGroup__getitem__ (g : PredictionGroup) (index : value)
  : result pyobj :=
  list_getitem (predictions g) index.

(** [self.__exception_check(is_prediction_check, image_path_check,
    prediction_type_check)]; an argument left out is None, and so is an
    argument that is passed as None.  The test [is not] on the name of
    the type compares two strings that the interpreter keeps once each
    (a class name and a constant that is an identifier), so it is the
    comparison of the names. *)
Definition PredictionGroup__exception_check
    (is_prediction_check : pyobj)
    (image_path_check prediction_type_check : value) : M unit :=
  (* Ensures only predictions can be added to a prediction group *)
  (match is_prediction_check with
   | OVal VNone => ret tt
   | o =>
       if negb (String.eqb (type_name o) PREDICTION_OBJECT)
       then raise (Exception_
                     ("Cannot add type " ++ type_name o ++ " to PredictionGroup"))
       else ret tt
   end) ;;
  (* Warns user if predictions have different prediction types *)
  (if is_None prediction_type_check then ret tt
   else
     g <- get_self ;;
     if Nat.ltb 0 (PredictionGroup__len__ g)
        && py_ne prediction_type_check (base_prediction_type g)
     then
       m <- lift (str_add "This prediction is a different type ("
                          prediction_type_check) ;;
       m <- lift (str_add (m ++ ") than the prediction group base type (")
                          (base_prediction_type g)) ;;
       warnings_warn (m ++ ")")
     else ret tt) ;;
  (* Gives user warning that base path is not equal to image path *)
  (if is_None image_path_check then ret tt
   else
     g <- get_self ;;
     if py_ne (base_image_path g) image_path_check
     then
       m <- lift (str_add "This prediction has a different image path ("
                          image_path_check) ;;
       m <- lift (str_add
                    (m ++ ") than the prediction group base image path (")
                    (base_image_path g)) ;;
       warnings_warn (m ++ ")")
     else ret tt).

(** [self.predictions.append(prediction)] *)
Definition predictions_append (prediction : pyobj) : M unit :=
  g <- get_self ;;
  set_self {| predictions := (predictions g ++ [prediction])%list;
              base_image_path := base_image_path g;
              base_prediction_type := base_prediction_type g |}.

Definition set_base_image_path (v : value) : M unit :=
  g <- get_self ;;
  set_self {| predictions := predictions g;
              base_image_path := v;
              base_prediction_type := base_prediction_type g |}.

Definition set_base_prediction_type (v : value) : M unit :=
  g <- get_self ;;
  set_self {| predictions := predictions g;
              base_image_path := base_image_path g;
              base_prediction_type := v |}.

(** The body of the loop of [__init__], for the argument at [index]. *)
Definition PredictionGroup__init__step (index : nat) (prediction : pyobj)
  : M unit :=
  (* Set base image path based on first prediction *)
  (if Nat.eqb index 0 then
     v <- lift (getitem_str prediction "image_path") ;;
     set_base_image_path v ;;
     v <- lift (getitem_str prediction "prediction_type") ;;
     set_base_prediction_type v
   else ret tt) ;;
  (* If not a Prediction object then do not allow into the prediction group *)
  PredictionGroup__exception_check prediction VNone VNone ;;
  (* Add prediction to prediction group otherwise *)
  predictions_append prediction.

(** [for index, prediction in enumerate(args)], from [index] on. *)
Fixpoint PredictionGroup__init__loop (index : nat) (args : list pyobj)
  : M unit :=
  match args with
  | [] => ret tt
  | prediction :: rest =>
      PredictionGroup__init__step index prediction ;;
      PredictionGroup__init__loop (S index) rest
  end.

(** The attributes as the first three assignments of [__init__] leave
    them. *)
Definition empty_group : PredictionGroup :=
  {| predictions := [];
     base_image_path := VStr "";
     base_prediction_type := VStr "" |}.

(** [__init__(self, *args)] *)
Definition PredictionGroup__init__ (args : list pyobj) : M unit :=
  set_self empty_group ;;
  PredictionGroup__init__loop 0 args.

(** The call [PredictionGroup] applied to the arguments [args] when [w] has been warned so far:
    the new object if [__init__] returns, and the warnings after it. *)
Definition PredictionGroup_new (args : list pyobj) (w : list string)
  : result PredictionGroup * list string :=
  match PredictionGroup__init__ args {| self := empty_group; warned := w |} with
  | (Ok _, st) => (Ok (self st), warned st)
  | (Raise e, st) => (Raise e, warned st)
  end.

(** [self.add_prediction(prediction)] *)
Definition PredictionGroup_add_prediction (prediction : pyobj) : M unit :=
  (* If not a Prediction object then do not allow into the prediction group.
     Also checks if prediction types are the same *)
  t <- lift (getitem_str prediction "prediction_type") ;;
  PredictionGroup__exception_check prediction VNone t ;;
  g <- get_self ;;
  (if Nat.ltb 0 (PredictionGroup__len__ g) then
     p <- lift (getitem_str prediction "image_path") ;;
     PredictionGroup__exception_check (OVal VNone) p VNone
   else if Nat.eqb (PredictionGroup__len__ g) 0 then
     p <- lift (getitem_str prediction "image_path") ;;
     set_base_image_path p
   else ret tt) ;;
  (* Append prediction to group *)
  predictions_append prediction.

(** [for x in v]: the items a value yields when iterated; a str yields
    its characters, a dict its keys, and None, bool, int and float are
    not iterable. *)
Definition py_iter (v : value) : result (list value) :=
  match v with
  | VList l | VTuple l => Ok l
  | VStr s => Ok (map (fun n => VStr (chr n)) (code_points s))
  | VDict d => Ok (map (fun kv => VStr (fst kv)) d)
  | _ => Raise TypeError
  end.

(** The loop of [create_prediction_group]: one Prediction per entry,
    appended to [prediction_list]. *)
Fixpoint create_prediction_list (entries : list value)
    (image_path prediction_type : value) (prediction_list : list Prediction)
  : result (list Prediction) :=
  match entries with
  | [] => Ok prediction_list
  | prediction :: rest =>
      p <-? Prediction__init__ prediction image_path prediction_type ;;
      create_prediction_list rest image_path prediction_type
        (prediction_list ++ [p])%list
  end.

(** [PredictionGroup.create_prediction_group(json_response, image_path,
    prediction_type)] when [w] has been warned so far. *)
Definition create_prediction_group (json_response : value)
    (image_path prediction_type : value) (w : list string)
  : result PredictionGroup * list string :=
  match
    (ps <-? getitem_str (OVal json_response) "predictions" ;;
     entries <-? py_iter ps ;;
     create_prediction_list entries image_path prediction_type [])
  with
  | Raise e => (Raise e, w)
  | Ok prediction_list =>
      PredictionGroup_new (map OPrediction prediction_list) w
  end.

(** [a == b] when [a] may be a Prediction: the class defines no
    [__eq__], so an instance equals no plain value. *)
Definition obj_eq (a : pyobj) (b : value) : bool :=
  match a with
  | OVal v => py_eq v b
  | OPrediction _ => false
  end.

(** ** Code that depends on [roboflow.config] and on arithmetic *)

Section Config.

(** The two discriminants of [roboflow.config], which is not among the
    sources: two strings. *)
Variable OBJECT_DETECTION_MODEL : string.
Variable CLASSIFICATION_MODEL : string.

(** [Prediction(json_prediction, image_path)], with the default
    [prediction_type]. *)
Definition Prediction__init__default (json_prediction image_path : value)
  : result Prediction :=
  Prediction__init__ json_prediction image_path (VStr OBJECT_DETECTION_MODEL).

(** [Prediction.save(self, path)] *)
Definition Prediction_save (self : Prediction) (path : value) : result unit :=
  t <-? Prediction__getitem__ self "prediction_type" ;;
  if py_eq t (VStr OBJECT_DETECTION_MODEL) then Ok tt
  else
    t' <-? Prediction__getitem__ self "prediction_type" ;;
    if py_eq t' (VStr CLASSIFICATION_MODEL) then Ok tt else Ok tt.

(** [PredictionGroup.save(self, path)]: [self['prediction_type']] is
    [PredictionGroup.__getitem__], an index into the list of members. *)
Definition PredictionGroup_save (path : value) : M unit :=
  g <- get_self ;;
  t <- lift (PredictionGroup__getitem__ g (VStr "prediction_type")) ;;
  if obj_eq t (VStr OBJECT_DETECTION_MODEL) then ret tt
  else
    g <- get_self ;;
    t' <- lift (PredictionGroup__getitem__ g (VStr "prediction_type")) ;;
    if obj_eq t' (VStr CLASSIFICATION_MODEL) then ret tt else ret tt.

(** Python's arithmetic on numbers is the host language's (int and IEEE
    float) and is kept abstract: [number] is what [/] and [-] return,
    [truediv a b] is [a / b] and [sub a b] is [a - b]; both may raise. *)
Variable number : Type.
Variable truediv : value -> value -> result number.
Variable sub : value -> number -> result number.

(** [patches.Rectangle(xy, width, height, linewidth=, edgecolor=,
    facecolor=)] *)
Record Rectangle : Type := {
  xy : number * number;
  width : value;
  height : value;
  linewidth : value;
  edgecolor : string;
  facecolor : string
}.

(** The calls made on an axes object, which is what it shows. *)
Inductive artist : Type :=
| add_patch (rect : Rectangle)
| set_title (label : string).

Definition Axes : Type := list artist.

(** [plot_annotation(axes, prediction, stroke)]: the axes after the
    call. *)
Definition plot_annotation (axes : Axes) (prediction : pyobj) (stroke : value)
  : result Axes :=
  t <-? getitem_str prediction "prediction_type" ;;
  (* Object Detection annotation *)
  if py_eq t (VStr OBJECT_DETECTION_MODEL) then
    match prediction with
    | OVal VNone => Ok axes
    | _ =>
        (* Get height, width, and center coordinates of prediction *)
        height <-? getitem_str prediction "height" ;;
        width <-? getitem_str prediction "width" ;;
        x <-? getitem_str prediction "x" ;;
        y <-? getitem_str prediction "y" ;;
        half_width <-? truediv width (VInt 2) ;;
        x0 <-? sub x half_width ;;
        half_height <-? truediv height (VInt 2) ;;
        y0 <-? sub y half_height ;;
        let rect := {| xy := (x0, y0);
                       width := width;
                       height := height;
                       linewidth := stroke;
                       edgecolor := "r";
                       facecolor := "none" |} in
        (* Plot Rectangle *)
        Ok (axes ++ [add_patch rect])%list
    end
  else
    t' <-? getitem_str prediction "prediction_type" ;;
    if py_eq t' (VStr CLASSIFICATION_MODEL) then
      top <-? getitem_str prediction "top" ;;
      s <-? str_add "Class: " top ;;
      confidence <-? getitem_str prediction "confidence" ;;
      title <-? str_add (s ++ " | Confidence: ") confidence ;;
      Ok (axes ++ [set_title title])%list
    else Ok axes.

End Config.

Arguments xy {number} _.
Arguments width {number} _.
Arguments height {number} _.
Arguments linewidth {number} _.
Arguments edgecolor {number} _.
Arguments facecolor {number} _.
Arguments add_patch {number} rect.
Arguments set_title {number} label.


(** ** Numbers as text

    The form of a number in JSON text, [NUMBER_RE] of [json.scanner]: a
    sign or none, [0] or digits that do not start with [0], then a
    fraction or none, then an exponent or none.  It is also the form in
    which [float.__repr__] writes a finite float. *)

Definition is_digit (c : ascii) : bool :=
  let n := nat_of_ascii c in Nat.leb 48 n && Nat.leb n 57.

(** The longest prefix of digits, as a decimal number, and the rest. *)
Fixpoint read_digits (s : string) : Decimal.uint * string :=
  match s with
  | "" => (Decimal.Nil, "")
  | String c s' =>
      if is_digit c then
        let (d, r) := read_digits s' in
        match DecimalString.uint_of_char c (Some d) with
        | Some d' => (d', r)
        | None => (Decimal.Nil, s)
        end
      else (Decimal.Nil, s)
  end.

(** The sign of a number. *)
Definition sign_part (s : string) : bool * string :=
  match s with
  | String c r => if Ascii.eqb c "-" then (true, r) else (false, s)
  | "" => (false, s)
  end.

(** The integer part, after the sign: [0] alone, or digits that do not
    start with [0]. *)
Definition integer_part (s : string) : option (Decimal.uint * string) :=
  match s with
  | String "0" r => Some (Decimal.D0 Decimal.Nil, r)
  | _ =>
      match read_digits s with
      | (Decimal.Nil, _) => None
      | (d, r) => Some (d, r)
      end
  end.

(** The longest prefix of digits and the rest. *)
Fixpoint span_digits (s : string) : string * string :=
  match s with
  | "" => ("", "")
  | String c s' =>
      if is_digit c then
        let (ds, r) := span_digits s' in (String c ds, r)
      else ("", s)
  end.

(** The fraction, a point and digits, when there is one at the start of
    [r]. *)
Definition fraction_part (r : string) : string * string :=
  match r with
  | String p (String c r') =>
      if Ascii.eqb p "." && is_digit c then
        let (ds, rest) := span_digits (String c r') in (String p ds, rest)
      else ("", r)
  | _ => ("", r)
  end.

(** The exponent: [e] or [E], a sign or none, digits. *)
Definition exponent_part (r : string) : string * string :=
  match r with
  | String e r1 =>
      if Ascii.eqb e "e" || Ascii.eqb e "E" then
        match r1 with
        | "" => ("", r)
        | String c r2 =>
            if is_digit c then
              let (ds, rest) := span_digits r1 in (String e ds, rest)
            else if Ascii.eqb c "+" || Ascii.eqb c "-" then
              match r2 with
              | "" => ("", r)
              | String c' _ =>
                  if is_digit c' then
                    let (ds, rest) := span_digits r2 in
                    (String e (String c ds), rest)
                  else ("", r)
              end
            else ("", r)
        end
      else ("", r)
  | "" => ("", r)
  end.

(** The number at the start of [s]: whether it has the sign, the digits
    of its integer part, its fraction, its exponent, and the rest of
    [s]. *)
Definition number_re (s : string)
  : option (bool * Decimal.uint * string * string * string) :=
  let (negative, s1) := sign_part s in
  match integer_part s1 with
  | Some (d, r) =>
      let (frac, r1) := fraction_part r in
      let (exp, r2) := exponent_part r1 in
      Some (negative, d, frac, exp, r2)
  | None => None
  end.

(** ** [float(text)] and [float.__repr__]

    Both are the interpreter's; they are written out here from what
    they compute: the float nearest to a decimal, and the shortest
    decimal that is read back as the float. *)

(** The float nearest to [num / den], for [num] and [den] positive:
    round to nearest, ties to even; infinity past the largest float. *)
Definition nearest (negative : bool) (num den : Z) : float :=
  let l := (Z.log2 num - Z.log2 den)%Z in
  let above := (if 0 <=? l then den * 2 ^ l <=? num
                else den <=? num * 2 ^ (- l))%Z in
  let lq := (if above then l else l - 1)%Z in
  let e := Z.max (lq - 52) (-1074) in
  let a := (if 0 <=? e then num else num * 2 ^ (- e))%Z in
  let b := (if 0 <=? e then den * 2 ^ e else den)%Z in
  let m0 := (a / b)%Z in
  let r := (a mod b)%Z in
  let m := (if 2 * r <? b then m0
            else if b <? 2 * r then m0 + 1
            else if Z.even m0 then m0 else m0 + 1)%Z in
  match m with
  | Zpos p => FloatOps.SF2Prim (SpecFloat.S754_finite negative p e)
  | _ => FloatOps.SF2Prim (SpecFloat.S754_zero negative)
  end.

(** The float nearest to [d * 10 ^ k], for [d] not negative. *)
Definition of_decimal (negative : bool) (d k : Z) : float :=
  if (d =? 0)%Z then FloatOps.SF2Prim (SpecFloat.S754_zero negative)
  else if (0 <=? k)%Z then nearest negative (d * 10 ^ k) 1
  else nearest negative d (10 ^ (- k)).

(** The number that digits stand for. *)
Definition digits_value (ds : string) : Z := Z.of_uint (fst (read_digits ds)).

Definition tail (s : string) : string :=
  match s with
  | "" => ""
  | String _ s' => s'
  end.

(** The number that an exponent, or none, stands for. *)
Definition exponent_value (exp : string) : Z :=
  match tail exp with
  | String c ds =>
      if Ascii.eqb c "-" then (- digits_value ds)%Z
      else if Ascii.eqb c "+" then digits_value ds
      else digits_value (String c ds)
  | "" => 0%Z
  end.

(** [float] of a number, from its parts. *)
Definition float_of_parts (negative : bool) (d : Decimal.uint)
    (frac exp : string) : float :=
  let places := Z.of_nat (String.length (tail frac)) in
  of_decimal negative
    (Z.of_uint d * 10 ^ places + digits_value (tail frac))
    (exponent_value exp - places).

(** [float(s)] for a text [s] that is a number with a fraction or an
    exponent; [None] stands for any other text, on which [float] is not
    modelled. *)
Definition float_of_string (s : string) : option float :=
  match number_re s with
  | Some (negative, d, frac, exp, "") =>
      match frac ++ exp with
      | "" => None
      | _ => Some (float_of_parts negative d frac exp)
      end
  | _ => None
  end.

(** Whether [10 ^ x <= num / den]. *)
Definition pow10_le (x num den : Z) : bool :=
  (if 0 <=? x then den * 10 ^ x <=? num else den <=? num * 10 ^ (- x))%Z.

Fixpoint pow10_down (fuel : nat) (x num den : Z) : Z :=
  match fuel with
  | 0 => x
  | S fuel => if pow10_le x num den then x else pow10_down fuel (x - 1) num den
  end.

Fixpoint pow10_up (fuel : nat) (x num den : Z) : Z :=
  match fuel with
  | 0 => x
  | S fuel =>
      if pow10_le (x + 1) num den then pow10_up fuel (x + 1) num den else x
  end.

(** The [x] with [10 ^ x <= num / den < 10 ^ (x + 1)]: an estimate from
    the binary logarithms, off by two at most, then corrected. *)
Definition log10_floor (num den : Z) : Z :=
  let x := ((Z.log2 num - Z.log2 den) * 30103 / 100000)%Z in
  pow10_up 4 (pow10_down 4 x num den) num den.

Fixpoint strip_zeros (fuel : nat) (d k : Z) : Z * Z :=
  match fuel with
  | 0 => (d, k)
  | S fuel =>
      if ((d mod 10 =? 0) && negb (d =? 0))%Z
      then strip_zeros fuel (d / 10) (k + 1)
      else (d, k)
  end.

(** [int.__repr__(n)] for [n] not negative. *)
Definition decimal (n : Z) : string :=
  DecimalString.NilZero.string_of_uint (N.to_uint (Z.to_N n)).

Fixpoint zeros (n : nat) : string :=
  match n with
  | 0 => ""
  | S n' => String "0" (zeros n')
  end.

Fixpoint take (n : nat) (s : string) : string :=
  match n, s with
  | S n', String c s' => String c (take n' s')
  | _, _ => ""
  end.

Fixpoint skip (n : nat) (s : string) : string :=
  match n, s with
  | S n', String _ s' => skip n' s'
  | _, _ => s
  end.

(** The digits [ds], read as [0.ds * 10 ^ decpt], the way [repr] writes
    them: with an exponent when [decpt] is above 16 or below -3. *)
Definition format_repr (ds : string) (decpt : Z) : string :=
  let n := Z.of_nat (String.length ds) in
  if ((-4 <? decpt) && (decpt <=? 16))%Z then
    if (decpt <=? 0)%Z then "0." ++ zeros (Z.to_nat (- decpt)) ++ ds
    else if (n <=? decpt)%Z then ds ++ zeros (Z.to_nat (decpt - n)) ++ ".0"
    else take (Z.to_nat decpt) ds ++ "." ++ skip (Z.to_nat decpt) ds
  else
    let e := (decpt - 1)%Z in
    take 1 ds ++ (if (1 <? n)%Z then "." ++ skip 1 ds else "") ++ "e"
    ++ (if (e <? 0)%Z then "-" else "+")
    ++ (if (Z.abs e <? 10)%Z then "0" else "") ++ decimal (Z.abs e).

(** The text of the decimal [d * 10 ^ k], without the zeros at the end
    of [d]. *)
Definition repr_text (negative : bool) (d k : Z) : string :=
  let (d, k) := strip_zeros 17 d k in
  let ds := decimal d in
  (if negative then "-" else "")
  ++ format_repr ds (Z.of_nat (String.length ds) + k).

(** Whether [float] reads the text as [f]. *)
Definition reads_as (f : float) (s : string) : bool :=
  match float_of_string s with
  | Some g => Leibniz.eqb g f
  | None => false
  end.

(** Of the two decimals [d * 10 ^ k] of [n] digits next to [num / den],
    the text of the one that is read as [f], and of the nearer one
    (ties to the even [d]) when both are. *)
Definition digits_at (f : float) (negative : bool) (num den x n : Z)
  : option string :=
  let k := (x - n + 1)%Z in
  let a := (if 0 <=? k then num else num * 10 ^ (- k))%Z in
  let b := (if 0 <=? k then den * 10 ^ k else den)%Z in
  let lo := (a / b)%Z in
  let r := (a mod b)%Z in
  let lo_text := repr_text negative lo k in
  let hi_text := repr_text negative (lo + 1) k in
  let lo_nearer :=
    (if 2 * r <? b then true else if b <? 2 * r then false else Z.even lo)%Z in
  if (r =? 0)%Z then
    if reads_as f lo_text then Some lo_text else None
  else
    match reads_as f lo_text, reads_as f hi_text with
    | true, true => Some (if lo_nearer then lo_text else hi_text)
    | true, false => Some lo_text
    | false, true => Some hi_text
    | false, false => None
    end.

(** The shortest digits that are read as [f], from [n] digits on. *)
Fixpoint shortest (fuel : nat) (f : float) (negative : bool)
    (num den x n : Z) : option string :=
  match fuel with
  | 0 => None
  | S fuel =>
      match digits_at f negative num den x n with
      | Some s => Some s
      | None => shortest fuel f negative num den x (n + 1)
      end
  end.

(** The value [m * 2 ^ e] of a float, with all its digits and an
    exponent. *)
Definition exact_text (negative : bool) (m : positive) (e : Z) : string :=
  (if negative then "-" else "")
  ++ decimal (if (0 <=? e)%Z then Zpos m * 2 ^ e else Zpos m * 5 ^ (- e))
  ++ "e-" ++ decimal (if (0 <=? e)%Z then 0 else - e).

(** [float.__repr__(f)]: for a finite float the shortest digits, 17 at
    most, that [float] reads back as [f].  Every float has such digits;
    the text of the exact value stands where there would be none, which
    makes the definition total. *)
Definition float_repr (f : float) : string :=
  match FloatOps.Prim2SF f with
  | SpecFloat.S754_nan => "nan"
  | SpecFloat.S754_infinity negative => if negative then "-inf" else "inf"
  | SpecFloat.S754_zero negative => if negative then "-0.0" else "0.0"
  | SpecFloat.S754_finite negative m e =>
      let num := (if 0 <=? e then Zpos m * 2 ^ e else Zpos m)%Z in
      let den := (if 0 <=? e then 1 else 2 ^ (- e))%Z in
      match shortest 17 f negative num den (log10_floor num den) 1 with
      | Some s => s
      | None => exact_text negative m e
      end
  end.

(** ** The json module of the standard library

    [Prediction.__str__] is [json.dumps(self.json_prediction, indent=2)],
    and reading the text back is [json.loads].  Both belong to Python's
    standard library; they are modelled here on the values of [value]:
    [dumps] as the encoder writes its output with an indent, [loads] as
    the grammar that the scanner accepts. *)

Module json.

Definition newline : ascii := "010"%char.
Definition dquote : ascii := "034"%char.
Definition backslash : ascii := "092"%char.

(** *** Encoder *)

(** One lower-case hexadecimal digit. *)
Definition hex_digit (n : N) : ascii :=
  match n with
  | 0 => "0" | 1 => "1" | 2 => "2" | 3 => "3" | 4 => "4" | 5 => "5"
  | 6 => "6" | 7 => "7" | 8 => "8" | 9 => "9" | 10 => "a" | 11 => "b"
  | 12 => "c" | 13 => "d" | 14 => "e" | _ => "f"
  end%N%char.

(** ['\\u{0:04x}'.format(n)] *)
Definition u_escape (n : N) : string :=
  String backslash
    (String "u"
       (String (hex_digit (n / 4096))
          (String (hex_digit (n / 256 mod 16))
             (String (hex_digit (n / 16 mod 16))
                (String (hex_digit (n mod 16)) ""))))).

(** The replacement of one character by [encode_basestring_ascii]:
    the quote, the backslash and the five short escapes, the character
    itself in [' '..'~'], [\uxxxx] for any other character below 65536
    and the two escapes of its surrogates for a character above. *)
Definition escape_code_point (n : N) : string :=
  if (n =? 34)%N then String backslash (String dquote "")
  else if (n =? 92)%N then String backslash (String backslash "")
  else if (n =? 8)%N then String backslash "b"
  else if (n =? 12)%N then String backslash "f"
  else if (n =? 10)%N then String backslash "n"
  else if (n =? 13)%N then String backslash "r"
  else if (n =? 9)%N then String backslash "t"
  else if ((32 <=? n) && (n <=? 126))%N then String (ascii_of_N n) ""
  else if (n <? 65536)%N then u_escape n
  else
    let v := (n - 65536)%N in
    u_escape (55296 + v / 1024 mod 1024) ++ u_escape (56320 + v mod 1024).

Fixpoint escape_text (l : list N) : string :=
  match l with
  | [] => ""
  | n :: l' => escape_code_point n ++ escape_text l'
  end.

Definition escape (s : string) : string := escape_text (code_points s).

(** [encode_basestring_ascii(s)] *)
Definition encode_basestring_ascii (s : string) : string :=
  String dquote (escape s ++ String dquote "").

(** [int.__repr__(n)]: decimal digits, with a minus sign when negative. *)
Definition intstr (n : Z) : string :=
  DecimalString.NilZero.string_of_int (Z.to_int n).

Fixpoint spaces (n : nat) : string :=
  match n with
  | 0 => ""
  | S n' => String " " (spaces n')
  end.

(** [floatstr(f)]: the names of the three floats that are no numbers,
    [float.__repr__] otherwise. *)
Definition floatstr (f : float) : string :=
  if negb (PrimFloat.eqb f f) then "NaN"
  else if PrimFloat.eqb f infinity then "Infinity"
  else if PrimFloat.eqb f neg_infinity then "-Infinity"
  else float_repr f.

(** ['\n' + ' ' * (2 * level)] *)
Definition newline_indent (level : nat) : string :=
  String newline (spaces (2 * level)).

(** [_iterencode(v, level)] with [indent=2]: the chunks, concatenated.
    An empty list or dict is written without a line break; otherwise
    every item goes on a line of its own, one level deeper, items are
    separated by [","] and the closing bracket is on a line of its own.
    A tuple is written as a list. *)
Fixpoint encode (level : nat) (v : value) {struct v} : string :=
  match v with
  | VNone => "null"
  | VBool true => "true"
  | VBool false => "false"
  | VInt n => intstr n
  | VFloat f => floatstr f
  | VStr s => encode_basestring_ascii s
  | VList [] | VTuple [] => "[]"
  | VList (x :: l) | VTuple (x :: l) =>
      "[" ++ newline_indent (S level) ++ encode (S level) x ++
      (fix more (l : list value) : string :=
         match l with
         | [] => newline_indent level ++ "]"
         | y :: l' =>
             "," ++ newline_indent (S level) ++ encode (S level) y ++ more l'
         end) l
  | VDict [] => "{}"
  | VDict ((k, x) :: d) =>
      "{" ++ newline_indent (S level) ++
      encode_basestring_ascii k ++ ": " ++ encode (S level) x ++
      (fix more (d : list (string * value)) : string :=
         match d with
         | [] => newline_indent level ++ "}"
         | (k', y) :: d' =>
             "," ++ newline_indent (S level) ++
             encode_basestring_ascii k' ++ ": " ++ encode (S level) y ++
             more d'
         end) d
  end.

(** [json.dumps(v, indent=2)].  Every value of [value] is serializable. *)
Definition dumps (v : value) : string := encode 0 v.

(** *** Decoder *)

(** What scanning a prefix of a text gives: a result and the rest of
    the text, or a text that is not JSON, or no answer (the scanner ran
    out of fuel). *)
Inductive parsed (A : Type) : Type :=
| Parsed (a : A) (rest : string)
| Malformed
| Unmodelled.

Arguments Parsed {A} a rest.
Arguments Malformed {A}.
Arguments Unmodelled {A}.

Definition parsed_map {A B : Type} (f : A -> B) (r : parsed A) : parsed B :=
  match r with
  | Parsed a rest => Parsed (f a) rest
  | Malformed => Malformed
  | Unmodelled => Unmodelled
  end.

Definition is_ws (c : ascii) : bool :=
  let n := nat_of_ascii c in
  Nat.eqb n 32 || Nat.eqb n 9 || Nat.eqb n 10 || Nat.eqb n 13.

(** [WHITESPACE.match(s, end).end()] *)
Fixpoint skip_ws (s : string) : string :=
  match s with
  | "" => ""
  | String c s' => if is_ws c then skip_ws s' else s
  end.

(** The value of a hexadecimal digit, in either case. *)
Definition hex_value (c : ascii) : option N :=
  let n := N_of_ascii c in
  if ((48 <=? n) && (n <=? 57))%N then Some (n - 48)%N
  else if ((97 <=? n) && (n <=? 102))%N then Some (n - 87)%N
  else if ((65 <=? n) && (n <=? 70))%N then Some (n - 55)%N
  else None.

Definition hex4 (a b c d : ascii) : option N :=
  match hex_value a, hex_value b, hex_value c, hex_value d with
  | Some x, Some y, Some z, Some t =>
      Some (((x * 16 + y) * 16 + z) * 16 + t)%N
  | _, _, _, _ => None
  end.

Definition is_high_surrogate (n : N) : bool :=
  ((55296 <=? n) && (n <=? 56319))%N.

Definition is_low_surrogate (n : N) : bool :=
  ((56320 <=? n) && (n <=? 57343))%N.

(** The character that a surrogate pair stands for. *)
Definition join_surrogates (uni uni2 : N) : N :=
  (65536 + ((uni - 55296) * 1024 + (uni2 - 56320)))%N.

(** The table [BACKSLASH] of the short escapes. *)
Definition unescape (c : ascii) : option ascii :=
  if Ascii.eqb c dquote then Some dquote
  else if Ascii.eqb c backslash then Some backslash
  else if Ascii.eqb c "/" then Some "/"%char
  else if Ascii.eqb c "b" then Some "008"%char
  else if Ascii.eqb c "f" then Some "012"%char
  else if Ascii.eqb c "n" then Some "010"%char
  else if Ascii.eqb c "r" then Some "013"%char
  else if Ascii.eqb c "t" then Some "009"%char
  else None.

(** [scanstring(s, end)], from the character after the opening quote, in
    strict mode: up to the closing quote, with the escapes replaced; a
    control character is not allowed.  The escape of a high surrogate
    that is followed by the escape of a low one gives one character. *)
Fixpoint scanstring (s : string) : parsed string :=
  match s with
  | "" => Malformed
  | String c s' =>
      if Ascii.eqb c dquote then Parsed "" s'
      else if Ascii.eqb c backslash then
        match s' with
        | "" => Malformed
        | String e s'' =>
            if Ascii.eqb e "u" then
              match s'' with
              | String h1 (String h2 (String h3 (String h4 s3))) =>
                  match hex4 h1 h2 h3 h4 with
                  | None => Malformed
                  | Some uni =>
                      if is_high_surrogate uni then
                        match s3 with
                        | String b (String u s5) =>
                            if Ascii.eqb b backslash && Ascii.eqb u "u" then
                              match s5 with
                              | String g1 (String g2 (String g3
                                  (String g4 s4))) =>
                                  match hex4 g1 g2 g3 g4 with
                                  | None => Malformed
                                  | Some uni2 =>
                                      if is_low_surrogate uni2 then
                                        parsed_map
                                          (append
                                             (chr (join_surrogates uni uni2)))
                                          (scanstring s4)
                                      else
                                        parsed_map (append (chr uni))
                                          (scanstring s3)
                                  end
                              | _ => Malformed
                              end
                            else parsed_map (append (chr uni)) (scanstring s3)
                        | _ => parsed_map (append (chr uni)) (scanstring s3)
                        end
                      else parsed_map (append (chr uni)) (scanstring s3)
                  end
              | _ => Malformed
              end
            else
              match unescape e with
              | Some ch => parsed_map (String ch) (scanstring s'')
              | None => Malformed
              end
        end
      else if Nat.ltb (nat_of_ascii c) 32 then Malformed
      else parsed_map (String c) (scanstring s')
  end.

(** [s.startswith(p)] *)
Fixpoint startswith (s p : string) {struct p} : bool :=
  match p with
  | "" => true
  | String a p' =>
      match s with
      | "" => false
      | String b s' => Ascii.eqb a b && startswith s' p'
      end
  end.

Fixpoint drop (n : nat) (s : string) : string :=
  match n, s with
  | S n', String _ s' => drop n' s'
  | _, _ => s
  end.

(** The number at the start of [s], if there is one: a float when it
    has a fraction or an exponent, which is [float] of the text
    matched, and an int when it has none; else the floats [NaN],
    [Infinity] and [-Infinity]; else nothing that is a value. *)
Definition match_number (s : string) : parsed value :=
  match number_re s with
  | Some (negative, d, frac, exp, r) =>
      match frac ++ exp with
      | "" => Parsed (VInt (Z.of_int (if negative then Decimal.Neg d
                                      else Decimal.Pos d))) r
      | _ => Parsed (VFloat (float_of_parts negative d frac exp)) r
      end
  | None =>
      if startswith s "NaN" then Parsed (VFloat nan) (drop 3 s)
      else if startswith s "Infinity" then Parsed (VFloat infinity) (drop 8 s)
      else if startswith s "-Infinity"
      then Parsed (VFloat neg_infinity) (drop 9 s)
      else Malformed
  end.

(** The constants, then the numbers. *)
Definition scan_literal (s : string) : parsed value :=
  if startswith s "null" then Parsed VNone (drop 4 s)
  else if startswith s "true" then Parsed (VBool true) (drop 4 s)
  else if startswith s "false" then Parsed (VBool false) (drop 5 s)
  else match_number s.

(** [dict(pairs)]: a key that comes again keeps its place and takes the
    later value. *)
Definition dict_of_pairs (pairs : list (string * value)) : dict :=
  fold_left (fun d kv => dict_set d (fst kv) (snd kv)) pairs [].

(** [scan_once], [JSONArray] and [JSONObject].  [fuel] bounds the number
    of nested calls ([loads] gives the length of the text); when it runs
    out there is no answer.  [JSONArray] starts at the first value of a
    non-empty array and [JSONObject] after the opening quote of a
    key. *)
Fixpoint scan_once (fuel : nat) (s : string) : parsed value :=
  match fuel with
  | 0 => Unmodelled
  | S fuel =>
      match s with
      | "" => Malformed
      | String c s' =>
          if Ascii.eqb c dquote then parsed_map VStr (scanstring s')
          else if Ascii.eqb c "{" then
            match skip_ws s' with
            | "" => Malformed
            | String c1 r =>
                if Ascii.eqb c1 "}" then Parsed (VDict []) r
                else if Ascii.eqb c1 dquote then JSONObject fuel r []
                else Malformed
            end
          else if Ascii.eqb c "[" then
            match skip_ws s' with
            | "" => Malformed
            | String c1 r =>
                if Ascii.eqb c1 "]" then Parsed (VList []) r
                else JSONArray fuel (String c1 r) []
            end
          else scan_literal s
      end
  end
with JSONArray (fuel : nat) (s : string) (values : list value)
  : parsed value :=
  match fuel with
  | 0 => Unmodelled
  | S fuel =>
      match scan_once fuel s with
      | Parsed v r =>
          match skip_ws r with
          | "" => Malformed
          | String c r' =>
              if Ascii.eqb c "]" then Parsed (VList (values ++ [v])) r'
              else if Ascii.eqb c ","
              then JSONArray fuel (skip_ws r') (values ++ [v])
              else Malformed
          end
      | Malformed => Malformed
      | Unmodelled => Unmodelled
      end
  end
with JSONObject (fuel : nat) (s : string) (pairs : list (string * value))
  : parsed value :=
  match fuel with
  | 0 => Unmodelled
  | S fuel =>
      match scanstring s with
      | Parsed key r =>
          match skip_ws r with
          | "" => Malformed
          | String c r1 =>
              if Ascii.eqb c ":" then
                match scan_once fuel (skip_ws r1) with
                | Parsed v r2 =>
                    match skip_ws r2 with
                    | "" => Malformed
                    | String c2 r3 =>
                        if Ascii.eqb c2 "}"
                        then Parsed (VDict (dict_of_pairs (pairs ++ [(key, v)]))) r3
                        else if Ascii.eqb c2 "," then
                          match skip_ws r3 with
                          | "" => Malformed
                          | String q r4 =>
                              if Ascii.eqb q dquote
                              then JSONObject fuel r4 (pairs ++ [(key, v)])
                              else Malformed
                          end
                        else Malformed
                    end
                | Malformed => Malformed
                | Unmodelled => Unmodelled
                end
              else Malformed
          end
      | Malformed => Malformed
      | Unmodelled => Unmodelled
      end
  end.

(** [json.loads(s)]: one value, with white space around it and nothing
    else.  [None] stands for no answer: the fuel, which is the length of
    the text, ran out.  The limits of the interpreter (depth of
    recursion, digits of an int) are not modelled. *)
Definition loads (s : string) : option (result value) :=
  match scan_once (S (String.length s)) (skip_ws s) with
  | Parsed v r =>
      match skip_ws r with
      | "" => Some (Ok v)
      | _ => Some (Raise JSONDecodeError)
      end
  | Malformed => Some (Raise JSONDecodeError)
  | Unmodelled => None
  end.

End json.

(** [Prediction.__str__(self)]: the field mapping as JSON text, indented
    by 2. *)
Definition Prediction__str__ (self : Prediction) : string :=
  json.dumps (VDict (json_prediction self)).

(** ** Values that JSON text can give back *)

Fixpoint distinct (l : list string) : bool :=
  match l with
  | [] => true
  | k :: l' => negb (existsb (String.eqb k) l') && distinct l'
  end.

(** The invariant of the representation of dicts: no key comes twice,
    at any depth. *)
Fixpoint unique_keys (v : value) : bool :=
  match v with
  | VList l | VTuple l => forallb unique_keys l
  | VDict d =>
      distinct (map fst d) &&
      forallb (fun kv => let (_, x) := kv : string * value in unique_keys x) d
  | _ => true
  end.

(** No tuple at any depth. *)
Fixpoint tuple_free (v : value) : bool :=
  match v with
  | VTuple _ => false
  | VList l => forallb tuple_free l
  | VDict d =>
      forallb (fun kv => let (_, x) := kv : string * value in tuple_free x) d
  | _ => true
  end.


(** A [string] that is the form of a str: it is the text of its code
    points, none of which is above 0x10FFFF. *)
Definition well_formed (s : string) : bool :=
  String.eqb (text (code_points s)) s
  && forallb (fun n => (n <=? 1114111)%N) (code_points s).

(** The invariant of the representation of strs: every str, key or
    value, is well formed. *)
Fixpoint well_formed_strs (v : value) : bool :=
  match v with
  | VStr s => well_formed s
  | VList l | VTuple l => forallb well_formed_strs l
  | VDict d =>
      forallb (fun kv => let (k, x) := kv : string * value in
                         well_formed k && well_formed_strs x) d
  | _ => true
  end.

(** No high surrogate with a low surrogate right after it. *)
Fixpoint pair_free (l : list N) : bool :=
  match l with
  | [] => true
  | n :: l' =>
      match l' with
      | [] => true
      | n' :: _ =>
          negb (json.is_high_surrogate n && json.is_low_surrogate n')
      end && pair_free l'
  end.

(** No str, key or value, holds such a pair. *)
Fixpoint pair_free_strs (v : value) : bool :=
  match v with
  | VStr s => pair_free (code_points s)
  | VList l | VTuple l => forallb pair_free_strs l
  | VDict d =>
      forallb (fun kv => let (k, x) := kv : string * value in
                         pair_free (code_points k) && pair_free_strs x) d
  | _ => true
  end.

(** No NaN at any depth. *)
Fixpoint nan_free (v : value) : bool :=
  match v with
  | VFloat f => PrimFloat.eqb f f
  | VList l | VTuple l => forallb nan_free l
  | VDict d =>
      forallb (fun kv => let (_, x) := kv : string * value in nan_free x) d
  | _ => true
  end.
(** ** Iterating a group *)

(** [for x in g]: PredictionGroup has [__getitem__] and no [__iter__],
    so it is iterated by indexing from 0 upwards until IndexError; any
    other exception goes through.  [fuel] bounds the number of indices
    tried; [None] when it runs out. *)
Fixpoint iter_getitem (fuel : nat) (g : PredictionGroup) (i : nat)
  : option (result (list pyobj)) :=
  match fuel with
  | 0 => None
  | S fuel =>
      match PredictionGroup__getitem__ g (VInt (Z.of_nat i)) with
      | Ok x =>
          match iter_getitem fuel g (S i) with
          | Some (Ok xs) => Some (Ok (x :: xs))
          | r => r
          end
      | Raise IndexError => Some (Ok [])
      | Raise e => Some (Raise e)
      end
  end.

(** [list(g)] *)
Definition PredictionGroup_iter (g : PredictionGroup)
  : option (result (list pyobj)) :=
  iter_getitem (S (PredictionGroup__len__ g)) g 0.

(** ** What JSON text gives back for any value *)


(** [k in d] *)
Definition dict_has {A : Type} (d : list (string * A)) (k : string) : bool :=
  match dict_get d k with
  | Some _ => true
  | None => false
  end.

(** [isinstance(v, dict)] *)
Definition is_dict (v : value) : bool :=
  match v with
  | VDict _ => true
  | _ => false
  end.

(** ** Plotting: the calls made on the libraries

    [exception_check], [plot_image] and the two [plot] methods work
    through [os.path], PIL, requests and matplotlib.  What these
    libraries answer is given by parameters (the file system and the
    network do not change during a call), and a function is modelled by
    its outcome together with the calls it makes on them, in order.
    The calls that draw on the axes are those of [plot_annotation];
    [plt.subplots], [imshow] and [plt.show] are taken to return. *)

Section Plot.

Variable OBJECT_DETECTION_MODEL : string.
Variable CLASSIFICATION_MODEL : string.
Variable number : Type.
Variable truediv : value -> value -> result number.
Variable sub : value -> number -> result number.

(** An image of PIL, a response of requests, and the exceptions that
    the libraries raise. *)
Variable image : Type.
Variable response : Type.
Variable lib_exn : Type.
Variable is_OSError : lib_exn -> bool.

(** [os.path.exists(path)] *)
Variable os_path_exists : value -> bool + lib_exn.
(** [check_image_url(url)] of [roboflow.util.image_utils], which is not
    among the sources. *)
Variable check_image_url : value -> bool + lib_exn.
(** [Image.open(path)] *)
Variable Image_open : value -> image + lib_exn.
(** [requests.get(url)] *)
Variable requests_get : value -> response + lib_exn.
(** [Image.open(io.BytesIO(response.content))] *)
Variable Image_open_content : response -> image + lib_exn.

Inductive event : Type :=
| os_path_exists_ (path : value)
| check_image_url_ (url : value)
| Image_open_ (path : value)
| requests_get_ (url : value)
| Image_open_content_ (r : response)
| plt_subplots_
| imshow_ (img : image)
| draw_ (a : artist number)
| plt_show_.

(** An exception of the program or of a library. *)
Inductive raised : Type :=
| Py (e : exn)
| Lib (x : lib_exn).

Inductive outcome (A : Type) : Type :=
| Returns (a : A)
| Raises (e : raised)
| NoFuel.

Arguments Returns {A} a.
Arguments Raises {A} e.
Arguments NoFuel {A}.

(** The outcome of a computation and the calls it made. *)
Definition IO (A : Type) : Type := outcome A * list event.

Definition io_ret {A : Type} (a : A) : IO A := (Returns a, []).

Definition io_raise {A : Type} (e : raised) : IO A := (Raises e, []).

Definition io_bind {A B : Type} (m : IO A) (f : A -> IO B) : IO B :=
  match m with
  | (Returns a, evs) => let (r, evs') := f a in (r, evs ++ evs')%list
  | (Raises e, evs) => (Raises e, evs)
  | (NoFuel, evs) => (NoFuel, evs)
  end.

(** A call on a library: it is recorded, and returns or raises. *)
Definition call {A : Type} (e : event) (answer : A + lib_exn) : IO A :=
  (match answer with
   | inl a => Returns a
   | inr x => Raises (Lib x)
   end, [e]).

(** A step of the program itself, which makes no call. *)
Definition io_lift {A : Type} (r : result A) : IO A :=
  (match r with
   | Ok a => Returns a
   | Raise e => Raises (Py e)
   end, []).

(** [try: m  except OSError: handler] *)
Definition try_except_OSError {A : Type} (m : IO A) (handler : IO A) : IO A :=
  match m with
  | (Raises (Lib x), evs) =>
      if is_OSError x
      then let (r, evs') := handler in (r, evs ++ evs')%list
      else (Raises (Lib x), evs)
  | _ => m
  end.

(** No call of [plt.show] among the calls made. *)
Definition quiet {A : Type} (m : IO A) : Prop := ~ In plt_show_ (snd m).

(** [plt.show] is the last call and the only one of its kind when the
    computation returns, and is not called otherwise. *)
Definition shows_last {A : Type} (m : IO A) : Prop :=
  match m with
  | (Returns _, evs) =>
      exists evs', evs = (evs' ++ [plt_show_])%list /\ ~ In plt_show_ evs'
  | (_, evs) => ~ In plt_show_ evs
  end.

Notation "x <-! m ;; k" := (io_bind m (fun x => k))
  (at level 61, m at next level, right associativity).
Notation "m ;;! k" := (io_bind m (fun _ => k))
  (at level 61, right associativity).

(** [exception_check(image_path_check)] *)
Definition exception_check (image_path_check : value) : IO unit :=
  (* Check if Image path exists (for both hosted URL and local image) *)
  if is_None image_path_check then io_ret tt
  else
    found <-! call (os_path_exists_ image_path_check)
                   (os_path_exists image_path_check) ;;
    if negb found then
      reachable <-! call (check_image_url_ image_path_check)
                         (check_image_url image_path_check) ;;
      if negb reachable then
        m <-! io_lift (str_add "Image does not exist at " image_path_check) ;;
        io_raise (Py (Exception_ (m ++ "!")))
      else io_ret tt
    else io_ret tt.

(** [plot_image(image_path)]; the axes it returns have nothing drawn on
    them but the image. *)
Definition plot_image (image_path : value) : IO unit :=
  (* Exception to check if image path exists *)
  exception_check image_path ;;!
  img <-! try_except_OSError
            (* Try opening local image *)
            (call (Image_open_ image_path) (Image_open image_path))
            (* Try opening Hosted image *)
            (r <-! call (requests_get_ image_path) (requests_get image_path) ;;
             call (Image_open_content_ r) (Image_open_content r)) ;;
  (* Plot image axes *)
  call plt_subplots_ (inl tt) ;;!
  call (imshow_ img) (inl tt).

(** [plot_annotation(axes, prediction, stroke)] on the axes of the
    figure: the artists it adds are the calls it makes. *)
Definition annotate (prediction : pyobj) (stroke : value) : IO unit :=
  match plot_annotation OBJECT_DETECTION_MODEL CLASSIFICATION_MODEL number
          truediv sub [] prediction stroke with
  | Ok new => (Returns tt, map draw_ new)
  | Raise e => (Raises (Py e), [])
  end.

(** [Prediction.plot(self, stroke)] *)
Definition Prediction_plot (self : Prediction) (stroke : value) : IO unit :=
  (* Exception to check if image path exists *)
  p <-! io_lift (Prediction__getitem__ self "image_path") ;;
  exception_check p ;;!
  p <-! io_lift (Prediction__getitem__ self "image_path") ;;
  plot_image p ;;!
  annotate (OPrediction self) stroke ;;!
  call plt_show_ (inl tt).

(** [for single_prediction in self: plot_annotation(axes,
    single_prediction, stroke)], from index [i] on: the group is
    indexed until IndexError. *)
Fixpoint plot_members (fuel : nat) (g : PredictionGroup) (i : nat)
    (stroke : value) : IO unit :=
  match fuel with
  | 0 => (NoFuel, [])
  | S fuel =>
      match PredictionGroup__getitem__ g (VInt (Z.of_nat i)) with
      | Ok single_prediction =>
          annotate single_prediction stroke ;;!
          plot_members fuel g (S i) stroke
      | Raise IndexError => io_ret tt
      | Raise e => io_raise (Py e)
      end
  end.

(** [PredictionGroup.plot(self, stroke)] *)
Definition PredictionGroup_plot (g : PredictionGroup) (stroke : value)
  : IO unit :=
  (if Nat.ltb 0 (PredictionGroup__len__ g) then
     (* Check if image path exists *)
     exception_check (base_image_path g) ;;!
     (* Plot image if image path exists *)
     plot_image (base_image_path g) ;;!
     (* Plot annotations in prediction group *)
     plot_members (S (PredictionGroup__len__ g)) g 0 stroke
   else io_ret tt) ;;!
  call plt_show_ (inl tt).

(** The artists that the members of a list get, one after the other on
    the same axes. *)
Fixpoint annotations (axes : Axes number) (members : list pyobj)
    (stroke : value) : result (Axes number) :=
  match members with
  | [] => Ok axes
  | x :: rest =>
      axes' <-? plot_annotation OBJECT_DETECTION_MODEL CLASSIFICATION_MODEL
                  number truediv sub axes x stroke ;;
      annotations axes' rest stroke
  end.

End Plot.

Arguments Returns {lib_exn A} a.
Arguments Raises {lib_exn A} e.
Arguments NoFuel {lib_exn A}.
Arguments Py {lib_exn} e.
Arguments Lib {lib_exn} x.
Arguments os_path_exists_ {number image response} path.
Arguments check_image_url_ {number image response} url.
Arguments Image_open_ {number image response} path.
Arguments requests_get_ {number image response} url.
Arguments Image_open_content_ {number image response} r.
Arguments plt_subplots_ {number image response}.
Arguments imshow_ {number image response} img.
Arguments draw_ {number image response} a.
Arguments plt_show_ {number image response}.

(** A world for examples: one local file, [img.jpg], and one hosted
    image; images, responses and the exceptions of the libraries are
    named by strings. *)
Definition sample_is_OSError (x : string) : bool := String.eqb x "OSError".

Definition sample_exists (p : value) : bool + string :=
  inl (py_eq p (VStr "img.jpg")).

Definition sample_url (p : value) : bool + string :=
  inl (py_eq p (VStr "http://host/img.jpg")).

Definition sample_open (p : value) : string + string :=
  if py_eq p (VStr "img.jpg") then inl "img.jpg" else inr "OSError".

Definition sample_get (u : value) : string + string :=
  if py_eq u (VStr "http://host/img.jpg") then inl "content"
  else inr "ConnectionError".

Definition sample_open_content (r : string) : string + string := inl r.

(** ** The string form of a group *)

(** [str(o)] for what a member of a group can be, a Prediction or None,
    and for the scalars; the [repr] of a list, tuple or dict is not
    modelled. *)
Definition py_str (o : pyobj) : option string :=
  match o with
  | OPrediction p => Some (Prediction__str__ p)
  | OVal VNone => Some "None"
  | OVal (VBool true) => Some "True"
  | OVal (VBool false) => Some "False"
  | OVal (VInt n) => Some (json.intstr n)
  | OVal (VFloat f) => Some (float_repr f)
  | OVal (VStr s) => Some s
  | OVal _ => None
  end.

(** The loop of [PredictionGroup.__str__]. *)
Fixpoint PredictionGroup__str__loop (members : list pyobj)
    (prediction_group_string : string) : option string :=
  match members with
  | [] => Some prediction_group_string
  | prediction :: rest =>
      match py_str prediction with
      | Some s =>
          PredictionGroup__str__loop rest
            (prediction_group_string ++ s
             ++ String json.newline (String json.newline ""))
      | None => None
      end
  end.

(** [PredictionGroup.__str__(self)] *)
Definition PredictionGroup__str__ (g : PredictionGroup) : option string :=
  PredictionGroup__str__loop (predictions g) "".

(** * Vocabulary of the statements and proofs *)

(** Induction on values, with the induction hypothesis for every member
    of a list, tuple or dict. *)
Definition value_ind (P : value -> Prop)
    (HNone : P VNone)
    (HBool : forall b, P (VBool b))
    (HInt : forall n, P (VInt n))
    (HFloat : forall f, P (VFloat f))
    (HStr : forall s, P (VStr s))
    (HList : forall l, Forall P l -> P (VList l))
    (HTuple : forall l, Forall P l -> P (VTuple l))
    (HDict : forall d, Forall (fun kv => P (snd kv)) d -> P (VDict d)) :
  forall v, P v :=
  fix IH (v : value) : P v :=
    match v with
    | VNone => HNone
    | VBool b => HBool b
    | VInt n => HInt n
    | VFloat f => HFloat f
    | VStr s => HStr s
    | VList l =>
        HList l
          ((fix all (l : list value) : Forall P l :=
              match l with
              | [] => Forall_nil P
              | x :: l' => Forall_cons x (IH x) (all l')
              end) l)
    | VTuple l =>
        HTuple l
          ((fix all (l : list value) : Forall P l :=
              match l with
              | [] => Forall_nil P
              | x :: l' => Forall_cons x (IH x) (all l')
              end) l)
    | VDict d =>
        HDict d
          ((fix all (d : list (string * value))
              : Forall (fun kv => P (snd kv)) d :=
              match d with
              | [] => Forall_nil _
              | kv :: d' => Forall_cons kv (IH (snd kv)) (all d')
              end) d)
    end.

(** The type warning and the image path warning of [__exception_check]. *)
Definition type_warning (t base : string) : string :=
  "This prediction is a different type (" ++ t ++
  ") than the prediction group base type (" ++ base ++ ")".

Definition image_path_warning (p base : string) : string :=
  "This prediction has a different image path (" ++ p ++
  ") than the prediction group base image path (" ++ base ++ ")".

(** After the first argument, Predictions and None are appended without
    any check. *)
Definition is_prediction_or_None (o : pyobj) : bool :=
  match o with
  | OPrediction _ | OVal VNone => true
  | _ => false
  end.

(** The Prediction made from the entry [e] of a response. *)
Definition tagged (image_path prediction_type : value) (e : dict) : Prediction :=
  {| json_prediction :=
       dict_set (dict_set e "image_path" image_path)
         "prediction_type" prediction_type |}.

(** An instance of the arithmetic for int operands which is exact: a
    [number] counts halves, so that [w / 2] is [w] halves and [x - h] is
    [2 * x - h] halves. *)
Definition halves_truediv (a b : value) : result Z :=
  match a, b with
  | VInt w, VInt 2 => Ok w
  | _, _ => Raise TypeError
  end.

Definition halves_sub (a : value) (h : Z) : result Z :=
  match a with
  | VInt x => Ok (2 * x - h)%Z
  | _ => Raise TypeError
  end.

(** What may follow a number in a text for the number to end there and
    to be an int. *)
Definition number_end (rest : string) : bool :=
  match rest with
  | "" => true
  | String c _ =>
      negb (is_digit c || Ascii.eqb c "." || Ascii.eqb c "e"
            || Ascii.eqb c "E")
  end.

(** A text that starts with a character which is neither white space nor
    a closing bracket, as every encoded value does. *)
Definition value_head (s : string) : Prop :=
  match s with
  | "" => False
  | String c _ => json.is_ws c = false /\ Ascii.eqb c "]" = false
  end.

(** The encoder's text after the first item of a list: the other items
    and the closing bracket. *)
Definition encode_more (level : nat) : list value -> string :=
  fix more (l : list value) : string :=
    match l with
    | [] => json.newline_indent level ++ "]"
    | y :: l' =>
        "," ++ json.newline_indent (S level) ++ json.encode (S level) y
        ++ more l'
    end.

Definition encode_more_items (level : nat) : list (string * value) -> string :=
  fix more (d : list (string * value)) : string :=
    match d with
    | [] => json.newline_indent level ++ "}"
    | (k', y) :: d' =>
        "," ++ json.newline_indent (S level) ++
        json.encode_basestring_ascii k' ++ ": " ++ json.encode (S level) y ++
        more d'
    end.

(** The text of an item of a dict, after the opening quote of its key. *)
Definition item_text (level : nat) (k : string) (x : value) : string :=
  json.escape k ++ String json.dquote (": " ++ json.encode (S level) x).

(** The number of nested calls that scanning the text of a value
    takes. *)
Fixpoint size (v : value) : nat :=
  match v with
  | VList l | VTuple l =>
      S ((fix sum (l : list value) : nat :=
            match l with
            | [] => 0
            | x :: l' => S (size x) + sum l'
            end) l)
  | VDict d =>
      S ((fix sum (d : list (string * value)) : nat :=
            match d with
            | [] => 0
            | (_, x) :: d' => S (size x) + sum d'
            end) d)
  | _ => 1
  end.

Definition size_list : list value -> nat :=
  fix sum (l : list value) : nat :=
    match l with
    | [] => 0
    | x :: l' => S (size x) + sum l'
    end.

Definition size_items : list (string * value) -> nat :=
  fix sum (d : list (string * value)) : nat :=
    match d with
    | [] => 0
    | (_, x) :: d' => S (size x) + sum d'
    end.

(** The property of one value that the induction is about: its text
    starts like a value, and is scanned back to the value whatever comes
    after it. *)
Definition reads_back (v : value) : Prop :=
  (forall (level : nat) (rest : string),
      value_head (json.encode level v ++ rest)) /\
  forall (level fuel : nat) (rest : string),
    size v <= fuel -> number_end rest = true ->
    json.scan_once fuel (json.encode level v ++ rest) = json.Parsed v rest.

Definition fits (v : value) : Prop :=
  forall level, size v <= String.length (json.encode level v).

(** Whether a text starts with the escape of a low surrogate, or with
    what the scanner refuses in its place. *)
Definition low_escape_follows (s : string) : bool :=
  match s with
  | String b (String u s5) =>
      Ascii.eqb b json.backslash && Ascii.eqb u "u" &&
      match s5 with
      | String g1 (String g2 (String g3 (String g4 _))) =>
          match json.hex4 g1 g2 g3 g4 with
          | Some uni2 => json.is_low_surrogate uni2
          | None => true
          end
      | _ => true
      end
  | _ => false
  end.


(** The escape of a key is read back as the key. *)
Definition key_reads_back (k : string) : Prop :=
  forall rest : string,
    json.scanstring (json.escape k ++ String json.dquote rest)
    = json.Parsed k rest.

(** The conditions on a value under which its text is read back: the
    two invariants of the representation and no surrogate pair in a
    str. *)
Definition readable (v : value) : Prop :=
  unique_keys v = true /\ well_formed_strs v = true /\
  pair_free_strs v = true.
(** * Properties *)

(** ** Dicts *)

Lemma dict_get_set_same {A : Type} (d : list (string * A)) k v :
  dict_get (dict_set d k v) k = Some v.
Proof.
  induction d as [|[k' v'] d IH]; simpl.
  - now rewrite String.eqb_refl.
  - destruct (String.eqb k' k) eqn:E; simpl; rewrite E; auto.
Qed.

Lemma dict_get_set_other {A : Type} (d : list (string * A)) k k' v :
  k <> k' -> dict_get (dict_set d k v) k' = dict_get d k'.
Proof.
  intros Hk. induction d as [|[k0 v0] d IH]; simpl.
  - destruct (String.eqb_spec k k'); congruence.
  - destruct (String.eqb_spec k0 k) as [->|]; simpl.
    + destruct (String.eqb_spec k k'); congruence.
    + destruct (String.eqb_spec k0 k'); auto.
Qed.

(** ** The monad *)

Ltac run := unfold bind, lift, ret, raise, get_self, set_self, warnings_warn.

(** [__exception_check] never assigns to the object. *)
Lemma exception_check_self o ip pt st :
  self (snd (PredictionGroup__exception_check o ip pt st)) = self st.
Proof.
  unfold PredictionGroup__exception_check. run.
  destruct st as [g w]; simpl.
  destruct o as [[]|]; simpl;
    destruct (is_None pt); simpl;
    repeat match goal with
    | |- context [if ?b then _ else _] => destruct b; simpl
    | |- context [str_add ?s ?v] => destruct (str_add s v); simpl
    end; reflexivity.
Qed.

(** With only its first argument, and that a Prediction,
    [__exception_check] does nothing. *)
Lemma exception_check_prediction p st :
  PredictionGroup__exception_check (OPrediction p) VNone VNone st = (Ok tt, st).
Proof. reflexivity. Qed.

(** With only its first argument, [__exception_check] never warns. *)
Lemma exception_check_type_only o st :
  snd (PredictionGroup__exception_check o VNone VNone st) = st.
Proof. destruct o as [[]|]; reflexivity. Qed.

(** ** add_prediction *)

(** C10. If [g.add_prediction(v)] raises, for any object [v] whatsoever,
    the group is as it was before the call: same members (hence same
    length and same [g[i]]), same [base_image_path], same
    [base_prediction_type]. *)
Theorem add_prediction_atomic (v : pyobj) (st st' : state) (e : exn) :
  PredictionGroup_add_prediction v st = (Raise e, st') ->
  self st' = self st.
Proof.
  unfold PredictionGroup_add_prediction, predictions_append, set_base_image_path.
  unfold bind at 1. unfold lift at 1.
  destruct (getitem_str v "prediction_type") as [t|e1];
    [|intros H; injection H as _ <-; reflexivity].
  unfold bind at 1.
  pose proof (exception_check_self v VNone t st) as Hc.
  destruct (PredictionGroup__exception_check v VNone t st) as [[[]|e1] st1];
    simpl in Hc; [|intros H; injection H as _ <-; exact Hc].
  run.
  destruct (Nat.ltb 0 (PredictionGroup__len__ (self st1))).
  - destruct (getitem_str v "image_path") as [p|e1];
      [|intros H; injection H as _ <-; exact Hc].
    pose proof (exception_check_self (OVal VNone) p VNone st1) as Hc'.
    destruct (PredictionGroup__exception_check (OVal VNone) p VNone st1)
      as [[[]|e1] st2]; simpl in Hc'.
    + discriminate.
    + intros H; injection H as _ <-. congruence.
  - destruct (Nat.eqb (PredictionGroup__len__ (self st1)) 0).
    + destruct (getitem_str v "image_path") as [p|e1];
        [discriminate|intros H; injection H as _ <-; exact Hc].
    + discriminate.
Qed.

Lemma add_prediction_atomic_witness :
  let g := {| predictions := [OVal (VInt 1)];
              base_image_path := VStr "a.jpg";
              base_prediction_type := VStr "t" |} in
  self (snd (PredictionGroup_add_prediction (OVal (VInt 5))
               {| self := g; warned := [] |})) = g.
Proof.
  intros g.
  exact (add_prediction_atomic (OVal (VInt 5)) {| self := g; warned := [] |}
           _ TypeError eq_refl).
Defined.

(** A value that is not an instance of a class named Prediction is
    never added by [add_prediction]: the call raises and leaves the
    state as it was. *)
Lemma add_prediction_rejects_value (v : value) (st : state) :
  exists e, PredictionGroup_add_prediction (OVal v) st = (Raise e, st).
Proof.
  unfold PredictionGroup_add_prediction. run.
  destruct v; simpl; try (eexists; reflexivity).
  destruct (dict_get d "prediction_type"); simpl; eexists; reflexivity.
Qed.

(** The state after [add_prediction] on an empty group. *)
Lemma add_prediction_empty (p : Prediction) (t ip : value) (g : PredictionGroup)
    (w : list string) :
  predictions g = [] ->
  dict_get (json_prediction p) "prediction_type" = Some t ->
  dict_get (json_prediction p) "image_path" = Some ip ->
  PredictionGroup_add_prediction (OPrediction p) {| self := g; warned := w |}
  = (Ok tt, {| self := {| predictions := [OPrediction p];
                          base_image_path := ip;
                          base_prediction_type := base_prediction_type g |};
               warned := w |}).
Proof.
  intros Hg Ht Hp. destruct g as [ps bp bt]; simpl in Hg; subst ps.
  unfold PredictionGroup_add_prediction, PredictionGroup__exception_check.
  run. unfold getitem_str, Prediction__getitem__. rewrite Ht, Hp. simpl.
  destruct (is_None t); reflexivity.
Qed.

(** C1. [add_prediction] on an empty group adopts the image path of the
    prediction but not its type: a group made by [PredictionGroup()]
    still has the default [''] as [base_prediction_type] after its first
    member was added, whatever the [prediction_type] of that member. *)
Theorem add_prediction_empty_base_prediction_type (p : Prediction)
    (t ip : value) (w : list string) :
  dict_get (json_prediction p) "prediction_type" = Some t ->
  dict_get (json_prediction p) "image_path" = Some ip ->
  PredictionGroup_add_prediction (OPrediction p)
    {| self := empty_group; warned := w |}
  = (Ok tt, {| self := {| predictions := [OPrediction p];
                          base_image_path := ip;
                          base_prediction_type := VStr "" |};
               warned := w |}).
Proof.
  intros Ht Hp.
  exact (add_prediction_empty p t ip empty_group w eq_refl Ht Hp).
Qed.

Lemma add_prediction_empty_base_prediction_type_witness :
  let p := {| json_prediction :=
                [("image_path", VStr "a.jpg");
                 ("prediction_type", VStr "ObjectDetectionModel")] |} in
  base_prediction_type
    (self (snd (PredictionGroup_add_prediction (OPrediction p)
                  {| self := empty_group; warned := [] |}))) = VStr "".
Proof.
  intros p.
  rewrite (add_prediction_empty_base_prediction_type p
             (VStr "ObjectDetectionModel") (VStr "a.jpg") [] eq_refl eq_refl).
  reflexivity.
Defined.

Lemma append_assoc (a b c : string) : (a ++ b) ++ c = a ++ (b ++ c).
Proof. induction a; simpl; congruence. Qed.

(** C6. On a non-empty group, adding a Prediction whose
    [prediction_type] differs from [base_prediction_type] succeeds: the
    prediction is appended, so the length grows by exactly 1, the base
    attributes stay, and the type warning is emitted (followed by the
    image path warning when the image path differs as well).  The tags
    and the base attributes are strings, as in the data model. *)
Theorem add_prediction_mixed_type (g : PredictionGroup) (p : Prediction)
    (t bt ip bp : string) (w : list string) :
  predictions g <> [] ->
  dict_get (json_prediction p) "prediction_type" = Some (VStr t) ->
  dict_get (json_prediction p) "image_path" = Some (VStr ip) ->
  base_prediction_type g = VStr bt ->
  base_image_path g = VStr bp ->
  t <> bt ->
  let g' := {| predictions := predictions g ++ [OPrediction p];
               base_image_path := base_image_path g;
               base_prediction_type := base_prediction_type g |} in
  PredictionGroup_add_prediction (OPrediction p) {| self := g; warned := w |}
  = (Ok tt,
     {| self := g';
        warned := w ++ type_warning t bt ::
                    (if String.eqb bp ip then []
                     else [image_path_warning ip bp]) |})
  /\ PredictionGroup__len__ g' = S (PredictionGroup__len__ g).
Proof.
  intros Hne Ht Hp Hbt Hbp Hd g'. split.
  - subst g'. destruct g as [ps gp gt]; simpl in *. subst gp gt.
    destruct ps as [|o ps]; [congruence|].
    unfold PredictionGroup_add_prediction, PredictionGroup__exception_check,
      predictions_append.
    run. unfold getitem_str, Prediction__getitem__. rewrite Ht, Hp. simpl.
    unfold py_ne; simpl.
    destruct (String.eqb_spec t bt) as [|_]; [contradiction|]; simpl.
    unfold type_warning, image_path_warning.
    destruct (String.eqb bp ip); simpl;
      rewrite <- ?app_assoc; simpl; rewrite ?append_assoc; reflexivity.
  - subst g'. unfold PredictionGroup__len__; simpl.
    rewrite length_app; simpl. lia.
Qed.

Lemma add_prediction_mixed_type_witness :
  let p0 := {| json_prediction :=
                 [("image_path", VStr "a.jpg");
                  ("prediction_type", VStr "ObjectDetectionModel")] |} in
  let p := {| json_prediction :=
                [("top", VStr "cat"); ("image_path", VStr "a.jpg");
                 ("prediction_type", VStr "ClassificationModel")] |} in
  let g := {| predictions := [OPrediction p0];
              base_image_path := VStr "a.jpg";
              base_prediction_type := VStr "ObjectDetectionModel" |} in
  PredictionGroup_add_prediction (OPrediction p) {| self := g; warned := [] |}
  = (Ok tt,
     {| self := {| predictions := [OPrediction p0; OPrediction p];
                   base_image_path := VStr "a.jpg";
                   base_prediction_type := VStr "ObjectDetectionModel" |};
        warned := [type_warning "ClassificationModel" "ObjectDetectionModel"] |}).
Proof.
  intros p0 p g.
  refine (proj1 (add_prediction_mixed_type g p "ClassificationModel"
                   "ObjectDetectionModel" "a.jpg" "a.jpg" [] _ eq_refl eq_refl
                   eq_refl eq_refl _)); discriminate.
Defined.

(** ** The constructor *)

(** One round of the loop of [__init__] emits no warning. *)
Lemma init_step_warned index o st :
  warned (snd (PredictionGroup__init__step index o st)) = warned st.
Proof.
  unfold PredictionGroup__init__step, predictions_append,
    set_base_image_path, set_base_prediction_type.
  destruct st as [g w].
  destruct (Nat.eqb index 0); run; simpl.
  - destruct (getitem_str o "image_path"); simpl; [|reflexivity].
    destruct (getitem_str o "prediction_type"); simpl; [|reflexivity].
    destruct o as [[]|]; reflexivity.
  - destruct o as [[]|]; reflexivity.
Qed.

Lemma init_loop_warned args : forall index st,
  warned (snd (PredictionGroup__init__loop index args st)) = warned st.
Proof.
  induction args as [|o args IH]; intros index st; simpl; [reflexivity|].
  unfold bind.
  pose proof (init_step_warned index o st) as Hs.
  destruct (PredictionGroup__init__step index o st) as [[[]|e] st1];
    simpl in Hs; [|exact Hs].
  rewrite IH. exact Hs.
Qed.

(** The constructor emits no warning, whether it returns or raises. *)
Lemma PredictionGroup_new_warned args w :
  snd (PredictionGroup_new args w) = w.
Proof.
  unfold PredictionGroup_new, PredictionGroup__init__. unfold bind at 1.
  simpl.
  pose proof (init_loop_warned args 0
                {| self := empty_group; warned := w |}) as H.
  destruct (PredictionGroup__init__loop 0 args _) as [[[]|e] st]; exact H.
Qed.

Lemma init_loop_rest args : forall index g w,
  forallb is_prediction_or_None args = true ->
  PredictionGroup__init__loop (S index) args {| self := g; warned := w |}
  = (Ok tt, {| self := {| predictions := predictions g ++ args;
                          base_image_path := base_image_path g;
                          base_prediction_type := base_prediction_type g |};
               warned := w |}).
Proof.
  induction args as [|o args IH]; intros index g w Hall; simpl.
  - rewrite app_nil_r. destruct g; reflexivity.
  - simpl in Hall. apply andb_prop in Hall as [Ho Hall].
    unfold bind at 1.
    assert (Hstep : PredictionGroup__init__step (S index) o
                      {| self := g; warned := w |}
                    = (Ok tt, {| self := {| predictions := predictions g ++ [o];
                                   base_image_path := base_image_path g;
                                   base_prediction_type := base_prediction_type g |};
                                 warned := w |})).
    { destruct o as [[]|]; try discriminate; reflexivity. }
    rewrite Hstep, IH by assumption. simpl.
    now rewrite <- app_assoc.
Qed.

(** The group built from a Prediction followed by Predictions and Nones:
    all of them are members, and the base attributes are the tags of the
    first. *)
Lemma PredictionGroup_new_members (p : Prediction) (rest : list pyobj)
    (t ip : value) (w : list string) :
  dict_get (json_prediction p) "prediction_type" = Some t ->
  dict_get (json_prediction p) "image_path" = Some ip ->
  forallb is_prediction_or_None rest = true ->
  PredictionGroup_new (OPrediction p :: rest) w
  = (Ok {| predictions := OPrediction p :: rest;
           base_image_path := ip;
           base_prediction_type := t |}, w).
Proof.
  intros Ht Hp Hall.
  unfold PredictionGroup_new, PredictionGroup__init__. unfold bind at 1.
  simpl. unfold bind at 1.
  assert (Hstep : PredictionGroup__init__step 0 (OPrediction p)
                    {| self := empty_group; warned := w |}
                  = (Ok tt, {| self := {| predictions := [OPrediction p];
                                 base_image_path := ip;
                                 base_prediction_type := t |};
                               warned := w |})).
  { unfold PredictionGroup__init__step, set_base_image_path,
      set_base_prediction_type, predictions_append. run. simpl.
    unfold Prediction__getitem__. rewrite Hp. simpl. rewrite Ht. reflexivity. }
  rewrite Hstep, init_loop_rest by assumption. reflexivity.
Qed.

Lemma PredictionGroup_new_nil w :
  PredictionGroup_new [] w = (Ok empty_group, w).
Proof. reflexivity. Qed.

(** As its first argument, a value that is not an instance of a class
    named Prediction makes the constructor raise. *)
Lemma PredictionGroup_new_rejects_first_value (v : value) (rest : list pyobj)
    (w : list string) :
  exists e, PredictionGroup_new (OVal v :: rest) w = (Raise e, w).
Proof.
  unfold PredictionGroup_new, PredictionGroup__init__,
    PredictionGroup__init__loop, PredictionGroup__init__step,
    set_base_image_path, set_base_prediction_type.
  run. simpl.
  destruct v; simpl; try (eexists; reflexivity).
  destruct (dict_get d "image_path"); simpl; [|eexists; reflexivity].
  destruct (dict_get d "prediction_type"); simpl; eexists; reflexivity.
Qed.

(** C2. The constructor lets None into the group: after a first
    Prediction, a None argument passes [__exception_check] (which takes
    None for an argument left out) and is appended, without any
    exception. *)
Theorem PredictionGroup_new_accepts_None (p : Prediction) (t ip : value)
    (w : list string) :
  dict_get (json_prediction p) "prediction_type" = Some t ->
  dict_get (json_prediction p) "image_path" = Some ip ->
  PredictionGroup_new [OPrediction p; OVal VNone] w
  = (Ok {| predictions := [OPrediction p; OVal VNone];
           base_image_path := ip;
           base_prediction_type := t |}, w).
Proof.
  intros Ht Hp. now apply PredictionGroup_new_members.
Qed.

Lemma PredictionGroup_new_accepts_None_witness :
  let p := {| json_prediction :=
                [("image_path", VStr "a.jpg");
                 ("prediction_type", VStr "ObjectDetectionModel")] |} in
  type_name (OVal VNone) <> PREDICTION_OBJECT /\
  PredictionGroup_new [OPrediction p; OVal VNone] []
  = (Ok {| predictions := [OPrediction p; OVal VNone];
           base_image_path := VStr "a.jpg";
           base_prediction_type := VStr "ObjectDetectionModel" |}, []).
Proof.
  intros p. split; [discriminate|].
  exact (PredictionGroup_new_accepts_None p _ _ [] eq_refl eq_refl).
Defined.

(** C4. Two Predictions of different types and of different images make
    a group without any warning. *)
Lemma PredictionGroup_new_mixed_silent :
  let p1 := {| json_prediction :=
                 [("image_path", VStr "a.jpg");
                  ("prediction_type", VStr "ObjectDetectionModel")] |} in
  let p2 := {| json_prediction :=
                 [("image_path", VStr "b.jpg");
                  ("prediction_type", VStr "ClassificationModel")] |} in
  py_ne (VStr "ObjectDetectionModel") (VStr "ClassificationModel") = true /\
  py_ne (VStr "a.jpg") (VStr "b.jpg") = true /\
  PredictionGroup_new [OPrediction p1; OPrediction p2] []
  = (Ok {| predictions := [OPrediction p1; OPrediction p2];
           base_image_path := VStr "a.jpg";
           base_prediction_type := VStr "ObjectDetectionModel" |}, []).
Proof. repeat split. Qed.

(** C4, as the code has it.  The constructor never warns: whatever its
    arguments, the warnings after the call are the warnings before it;
    and Predictions are all accepted as members, whatever their
    [prediction_type] and [image_path], the first one giving the base
    attributes. *)
Theorem PredictionGroup_new_silent :
  (forall (args : list pyobj) (w : list string),
      snd (PredictionGroup_new args w) = w) /\
  (forall (p : Prediction) (ps : list Prediction) (t ip : value)
          (w : list string),
      dict_get (json_prediction p) "prediction_type" = Some t ->
      dict_get (json_prediction p) "image_path" = Some ip ->
      PredictionGroup_new (map OPrediction (p :: ps)) w
      = (Ok {| predictions := map OPrediction (p :: ps);
               base_image_path := ip;
               base_prediction_type := t |}, w)).
Proof.
  split.
  - apply PredictionGroup_new_warned.
  - intros p ps t ip w Ht Hp. simpl.
    apply PredictionGroup_new_members; auto.
    induction ps; simpl; auto.
Qed.

Lemma PredictionGroup_new_silent_witness :
  let p1 := {| json_prediction :=
                 [("image_path", VStr "a.jpg");
                  ("prediction_type", VStr "ObjectDetectionModel")] |} in
  let p2 := {| json_prediction :=
                 [("image_path", VStr "b.jpg");
                  ("prediction_type", VStr "ClassificationModel")] |} in
  PredictionGroup_new (map OPrediction [p1; p2]) ["earlier"]
  = (Ok {| predictions := map OPrediction [p1; p2];
           base_image_path := VStr "a.jpg";
           base_prediction_type := VStr "ObjectDetectionModel" |}, ["earlier"]).
Proof.
  intros p1 p2.
  exact (proj2 PredictionGroup_new_silent p1 [p2] _ _ ["earlier"]
           eq_refl eq_refl).
Defined.

(** ** save *)

(** [Prediction.save] on a Prediction that has its [prediction_type]
    does nothing and returns. *)
Lemma Prediction_save_returns (OD CLS : string) (p : Prediction) (t path : value) :
  dict_get (json_prediction p) "prediction_type" = Some t ->
  Prediction_save OD CLS p path = Ok tt.
Proof.
  intros Ht. unfold Prediction_save, Prediction__getitem__. rewrite Ht.
  simpl. destruct (py_eq t (VStr OD)); [reflexivity|].
  destruct (py_eq t (VStr CLS)); reflexivity.
Qed.

(** C3. [PredictionGroup.save] raises TypeError on every group, empty or
    not: it indexes the list of members with the string
    ['prediction_type'].  The group is left as it was. *)
Theorem PredictionGroup_save_raises (OD CLS : string) (path : value)
    (st : state) :
  PredictionGroup_save OD CLS path st = (Raise TypeError, st).
Proof. reflexivity. Qed.

(** ** Prediction *)

(** C7. Whatever keys the mapping given to the constructor has, the
    Prediction made from it has the given [image_path] and
    [prediction_type] under these two keys of [p.json()]. *)
Theorem Prediction_init_tags (fields : dict) (image_path prediction_type : value) :
  exists p : Prediction,
    Prediction__init__ (VDict fields) image_path prediction_type = Ok p /\
    dict_get (Prediction_json p) "image_path" = Some image_path /\
    dict_get (Prediction_json p) "prediction_type" = Some prediction_type.
Proof.
  eexists. split; [reflexivity|]. unfold Prediction_json; simpl. split.
  - rewrite dict_get_set_other by discriminate. apply dict_get_set_same.
  - apply dict_get_set_same.
Qed.

(** The other fields are those of the mapping given. *)
Lemma Prediction_init_fields (fields : dict) (image_path prediction_type : value)
    (p : Prediction) (k : string) :
  Prediction__init__ (VDict fields) image_path prediction_type = Ok p ->
  k <> "image_path" -> k <> "prediction_type" ->
  dict_get (Prediction_json p) k = dict_get fields k.
Proof.
  intros H H1 H2. injection H as <-. unfold Prediction_json; simpl.
  rewrite !dict_get_set_other by congruence. reflexivity.
Qed.

(** ** create_prediction_group *)

Lemma create_prediction_list_dicts image_path prediction_type entries :
  forall acc,
    create_prediction_list (map VDict entries) image_path prediction_type acc
    = Ok (acc ++ map (tagged image_path prediction_type) entries)%list.
Proof.
  induction entries as [|e entries IH]; intros acc; simpl.
  - now rewrite app_nil_r.
  - rewrite IH, <- app_assoc. reflexivity.
Qed.

Lemma list_getitem_nth {A : Type} (l : list A) (i : nat) (x : A) :
  nth_error l i = Some x ->
  list_getitem l (VInt (Z.of_nat i)) = Ok x.
Proof.
  intros H. unfold list_getitem.
  assert (i < length l) as Hi by (apply nth_error_Some; congruence).
  destruct (Z.ltb_spec (Z.of_nat i) 0); [lia|].
  destruct (Z.ltb_spec (Z.of_nat i) 0); [lia|].
  destruct (Z.leb_spec (Z.of_nat (length l)) (Z.of_nat i)); [lia|]. simpl.
  now rewrite Nat2Z.id, H.
Qed.

Lemma forallb_is_prediction (ps : list Prediction) :
  forallb is_prediction_or_None (map OPrediction ps) = true.
Proof. induction ps; simpl; auto. Qed.

(** The group that the factory builds from entries that are mappings. *)
Lemma create_prediction_group_dicts (json_response : dict)
    (entries : list dict) (image_path prediction_type : value)
    (w : list string) :
  dict_get json_response "predictions" = Some (VList (map VDict entries)) ->
  exists g,
    create_prediction_group (VDict json_response) image_path prediction_type w
    = (Ok g, w) /\
    predictions g
    = map OPrediction (map (tagged image_path prediction_type) entries).
Proof.
  intros H. unfold create_prediction_group. simpl. rewrite H. simpl.
  rewrite create_prediction_list_dicts. simpl.
  destruct entries as [|e entries]; simpl.
  - eexists. split; reflexivity.
  - eexists. split.
    + apply PredictionGroup_new_members with
        (t := prediction_type) (ip := image_path).
      * apply dict_get_set_same.
      * simpl. rewrite dict_get_set_other by discriminate.
        apply dict_get_set_same.
      * apply forallb_is_prediction.
    + reflexivity.
Qed.

(** C5. For a response whose ['predictions'] is a list of field
    mappings, the factory returns a group (and warns of nothing) whose
    length is that of the list and whose member at index [i] is the
    Prediction made from entry [i]: it has the given [image_path] and
    [prediction_type], and every other field as in the entry. *)
Theorem create_prediction_group_order (json_response : dict)
    (entries : list dict) (image_path prediction_type : value)
    (w : list string) :
  dict_get json_response "predictions" = Some (VList (map VDict entries)) ->
  exists g,
    create_prediction_group (VDict json_response) image_path prediction_type w
    = (Ok g, w) /\
    PredictionGroup__len__ g = length entries /\
    forall (i : nat) (e : dict),
      nth_error entries i = Some e ->
      exists p,
        PredictionGroup__getitem__ g (VInt (Z.of_nat i)) = Ok (OPrediction p) /\
        Prediction__init__ (VDict e) image_path prediction_type = Ok p /\
        Prediction__getitem__ p "image_path" = Ok image_path /\
        Prediction__getitem__ p "prediction_type" = Ok prediction_type /\
        forall k, k <> "image_path" -> k <> "prediction_type" ->
                  dict_get (Prediction_json p) k = dict_get e k.
Proof.
  intros H.
  destruct (create_prediction_group_dicts json_response entries image_path
              prediction_type w H) as (g & Hg & Hps).
  exists g. split; [exact Hg|]. split.
  - unfold PredictionGroup__len__. now rewrite Hps, !length_map.
  - intros i e Hi. exists (tagged image_path prediction_type e).
    split; [|split; [reflexivity|]].
    + unfold PredictionGroup__getitem__. apply list_getitem_nth.
      rewrite Hps, !nth_error_map, Hi. reflexivity.
    + unfold Prediction__getitem__, Prediction_json, tagged; simpl.
      split; [|split].
      * rewrite dict_get_set_other by discriminate.
        now rewrite dict_get_set_same.
      * now rewrite dict_get_set_same.
      * intros k H1 H2. rewrite !dict_get_set_other by congruence.
        reflexivity.
Qed.

Lemma create_prediction_group_order_witness :
  let response :=
    [("predictions",
      VList (map VDict [[("top", VStr "cat"); ("confidence", VStr "0.9")];
                        [("top", VStr "dog"); ("confidence", VStr "0.1")]]))] in
  exists g,
    create_prediction_group (VDict response) (VStr "img.jpg")
      (VStr "ClassificationModel") []
    = (Ok g, []) /\
    PredictionGroup__len__ g = 2 /\
    forall (i : nat) (e : dict),
      nth_error [[("top", VStr "cat"); ("confidence", VStr "0.9")];
                 [("top", VStr "dog"); ("confidence", VStr "0.1")]] i = Some e ->
      exists p,
        PredictionGroup__getitem__ g (VInt (Z.of_nat i)) = Ok (OPrediction p) /\
        Prediction__init__ (VDict e) (VStr "img.jpg")
          (VStr "ClassificationModel") = Ok p /\
        Prediction__getitem__ p "image_path" = Ok (VStr "img.jpg") /\
        Prediction__getitem__ p "prediction_type"
        = Ok (VStr "ClassificationModel") /\
        forall k, k <> "image_path" -> k <> "prediction_type" ->
                  dict_get (Prediction_json p) k = dict_get e k.
Proof.
  intros response.
  exact (create_prediction_group_order response
           [[("top", VStr "cat"); ("confidence", VStr "0.9")];
            [("top", VStr "dog"); ("confidence", VStr "0.1")]]
           (VStr "img.jpg") (VStr "ClassificationModel") [] eq_refl).
Defined.

(** ** plot_annotation *)

Lemma py_eq_str (t : value) (s : string) :
  py_eq t (VStr s) = true <-> t = VStr s.
Proof.
  destruct t; simpl; try (split; [discriminate|congruence]).
  split.
  - intros H. apply String.eqb_eq in H. congruence.
  - intros [= ->]. apply String.eqb_refl.
Qed.

(** C9. A classification prediction whose [confidence] is a number (and
    not a string) gets no title: building the title raises TypeError. *)
Lemma plot_annotation_numeric_confidence :
  let p := {| json_prediction :=
                [("top", VStr "cat"); ("confidence", VInt 1);
                 ("image_path", VStr "img.jpg");
                 ("prediction_type", VStr "ClassificationModel")] |} in
  getitem_str (OPrediction p) "prediction_type"
  = Ok (VStr "ClassificationModel") /\
  plot_annotation "ObjectDetectionModel" "ClassificationModel"
    Z halves_truediv halves_sub [] (OPrediction p) (VInt 1)
  = Raise TypeError.
Proof. split; reflexivity. Qed.

(** C9, as the code has it.  Let [prediction] have the
    [prediction_type] [t].
    - If [t] is the object-detection discriminant and the fields [x],
      [y], [width], [height] are such that [width / 2], [x - width / 2],
      [height / 2] and [y - height / 2] are defined, one patch is added
      to the axes and nothing else: the rectangle with corner
      [(x - width / 2, y - height / 2)], the width and height of the
      prediction, [stroke] as line width, edge colour ['r'] and no face
      colour.
    - If [t] is the classification discriminant (the two discriminants
      being different) and [top] and [confidence] are strings, the title
      is set to ['Class: ' + top + ' | Confidence: ' + confidence] and
      nothing else is done.
    - If [t] equals neither discriminant, the axes are left as they
      were. *)
Theorem plot_annotation_cases (OD CLS : string) (number : Type)
    (truediv : value -> value -> result number)
    (sub : value -> number -> result number)
    (axes : Axes number) (prediction : pyobj) (stroke t : value) :
  getitem_str prediction "prediction_type" = Ok t ->
  (t = VStr OD ->
   forall (x y w h : value) (half_w half_h x0 y0 : number),
     getitem_str prediction "x" = Ok x ->
     getitem_str prediction "y" = Ok y ->
     getitem_str prediction "width" = Ok w ->
     getitem_str prediction "height" = Ok h ->
     truediv w (VInt 2) = Ok half_w -> sub x half_w = Ok x0 ->
     truediv h (VInt 2) = Ok half_h -> sub y half_h = Ok y0 ->
     plot_annotation OD CLS number truediv sub axes prediction stroke
     = Ok (axes ++ [add_patch {| xy := (x0, y0);
                                 width := w;
                                 height := h;
                                 linewidth := stroke;
                                 edgecolor := "r";
                                 facecolor := "none" |}])%list) /\
  (t = VStr CLS -> OD <> CLS ->
   forall top confidence : string,
     getitem_str prediction "top" = Ok (VStr top) ->
     getitem_str prediction "confidence" = Ok (VStr confidence) ->
     plot_annotation OD CLS number truediv sub axes prediction stroke
     = Ok (axes ++ [set_title ("Class: " ++ top ++ " | Confidence: "
                                ++ confidence)])%list) /\
  (py_eq t (VStr OD) = false -> py_eq t (VStr CLS) = false ->
   plot_annotation OD CLS number truediv sub axes prediction stroke = Ok axes).
Proof.
  intros Ht. split; [|split].
  - intros -> x y w h half_w half_h x0 y0 Hx Hy Hw Hh Hd1 Hs1 Hd2 Hs2.
    unfold plot_annotation. rewrite Ht. cbn [rbind py_eq].
    rewrite String.eqb_refl.
    assert (Hn : prediction <> OVal VNone) by (intros ->; discriminate).
    rewrite Hh, Hw, Hx, Hy. cbn [rbind]. rewrite Hd1. cbn [rbind].
    rewrite Hs1. cbn [rbind]. rewrite Hd2. cbn [rbind]. rewrite Hs2.
    cbn [rbind].
    destruct prediction as [[]|]; try reflexivity. congruence.
  - intros -> Hd top confidence Htop Hconf.
    unfold plot_annotation. rewrite Ht. cbn [rbind py_eq].
    destruct (String.eqb_spec CLS OD) as [E|_]; [congruence|].
    cbn [rbind py_eq]. rewrite String.eqb_refl, Htop.
    cbn [rbind str_add]. rewrite Hconf. cbn [rbind str_add].
    now rewrite append_assoc.
  - intros H1 H2. unfold plot_annotation. rewrite Ht. cbn [rbind].
    rewrite H1. cbn [rbind]. now rewrite H2.
Qed.

Lemma plot_annotation_cases_witness :
  let box := {| json_prediction :=
                  [("x", VInt 10); ("y", VInt 10); ("width", VInt 4);
                   ("height", VInt 6); ("image_path", VStr "img.jpg");
                   ("prediction_type", VStr "ObjectDetectionModel")] |} in
  let cls := {| json_prediction :=
                  [("top", VStr "cat"); ("confidence", VStr "0.9");
                   ("image_path", VStr "img.jpg");
                   ("prediction_type", VStr "ClassificationModel")] |} in
  let other := {| json_prediction :=
                    [("image_path", VStr "img.jpg");
                     ("prediction_type", VStr "Segmentation")] |} in
  let plot := plot_annotation "ObjectDetectionModel" "ClassificationModel"
                Z halves_truediv halves_sub [] in
  plot (OPrediction box) (VInt 1)
  = Ok [add_patch {| xy := (16, 14)%Z;
                     width := VInt 4;
                     height := VInt 6;
                     linewidth := VInt 1;
                     edgecolor := "r";
                     facecolor := "none" |}] /\
  plot (OPrediction cls) (VInt 1)
  = Ok [set_title "Class: cat | Confidence: 0.9"] /\
  plot (OPrediction other) (VInt 1) = Ok [].
Proof.
  intros box cls other plot. split; [|split].
  - refine (proj1 (plot_annotation_cases "ObjectDetectionModel"
                     "ClassificationModel" Z halves_truediv halves_sub []
                     (OPrediction box) (VInt 1) _ eq_refl)
              eq_refl (VInt 10) (VInt 10) (VInt 4) (VInt 6) 4%Z 6%Z 16%Z 14%Z
              eq_refl eq_refl eq_refl eq_refl eq_refl eq_refl eq_refl eq_refl).
  - refine (proj1 (proj2 (plot_annotation_cases "ObjectDetectionModel"
                     "ClassificationModel" Z halves_truediv halves_sub []
                     (OPrediction cls) (VInt 1) _ eq_refl))
              eq_refl _ "cat" "0.9" eq_refl eq_refl). discriminate.
  - exact (proj2 (proj2 (plot_annotation_cases "ObjectDetectionModel"
                     "ClassificationModel" Z halves_truediv halves_sub []
                     (OPrediction other) (VInt 1) _ eq_refl))
              eq_refl eq_refl).
Defined.

(** ** JSON text and back *)

(** *** Strings *)

(** Linear arithmetic with divisions by constants. *)
Ltac dlia := zify; Z.to_euclidean_division_equations; lia.

Lemma hex_value_digit (k : N) :
  (k < 16)%N -> json.hex_value (json.hex_digit k) = Some k.
Proof.
  intros H. rewrite <- (N2Nat.id k).
  assert (Hn : N.to_nat k < 16) by lia.
  destruct (N.to_nat k) as [|n]; [reflexivity|].
  do 15 (destruct n as [|n]; [reflexivity|]). lia.
Qed.

Lemma hex4_digits (n : N) :
  (n < 65536)%N ->
  json.hex4 (json.hex_digit (n / 4096)) (json.hex_digit (n / 256 mod 16))
    (json.hex_digit (n / 16 mod 16)) (json.hex_digit (n mod 16))
  = Some n.
Proof.
  intros H. unfold json.hex4.
  rewrite !hex_value_digit;
    try (apply N.mod_lt; discriminate);
    [|apply N.Div0.div_lt_upper_bound; lia].
  f_equal. dlia.
Qed.

(** The scanner on the escape [\uxxxx]. *)
Lemma scanstring_u (h1 h2 h3 h4 : ascii) (s3 : string) :
  json.scanstring
    (String json.backslash
       (String "u" (String h1 (String h2 (String h3 (String h4 s3))))))
  = match json.hex4 h1 h2 h3 h4 with
    | None => json.Malformed
    | Some uni =>
        if json.is_high_surrogate uni then
          match s3 with
          | String b (String u s5) =>
              if Ascii.eqb b json.backslash && Ascii.eqb u "u" then
                match s5 with
                | String g1 (String g2 (String g3 (String g4 s4))) =>
                    match json.hex4 g1 g2 g3 g4 with
                    | None => json.Malformed
                    | Some uni2 =>
                        if json.is_low_surrogate uni2 then
                          json.parsed_map
                            (append (chr (json.join_surrogates uni uni2)))
                            (json.scanstring s4)
                        else
                          json.parsed_map (append (chr uni))
                            (json.scanstring s3)
                    end
                | _ => json.Malformed
                end
              else json.parsed_map (append (chr uni)) (json.scanstring s3)
          | _ => json.parsed_map (append (chr uni)) (json.scanstring s3)
          end
        else json.parsed_map (append (chr uni)) (json.scanstring s3)
    end.
Proof. reflexivity. Qed.

(** An escape that stands for itself: it is not a high surrogate, or no
    low surrogate comes after it. *)
Lemma scanstring_u_single (h1 h2 h3 h4 : ascii) (s3 : string) (uni : N) :
  json.hex4 h1 h2 h3 h4 = Some uni ->
  json.is_high_surrogate uni && low_escape_follows s3 = false ->
  json.scanstring
    (String json.backslash
       (String "u" (String h1 (String h2 (String h3 (String h4 s3))))))
  = json.parsed_map (append (chr uni)) (json.scanstring s3).
Proof.
  intros Hh Hs. rewrite scanstring_u, Hh.
  destruct (json.is_high_surrogate uni); [|reflexivity].
  simpl in Hs. destruct s3 as [|b [|u s5]]; try reflexivity.
  unfold low_escape_follows in Hs.
  destruct (Ascii.eqb b json.backslash && Ascii.eqb u "u"); [|reflexivity].
  simpl in Hs. destruct s5 as [|g1 [|g2 [|g3 [|g4 s4]]]]; try discriminate.
  destruct (json.hex4 g1 g2 g3 g4); [|discriminate].
  rewrite Hs. reflexivity.
Qed.

(** The two escapes of a surrogate pair give one character. *)
Lemma scanstring_u_pair (h1 h2 h3 h4 g1 g2 g3 g4 : ascii) (s4 : string)
    (uni uni2 : N) :
  json.hex4 h1 h2 h3 h4 = Some uni ->
  json.is_high_surrogate uni = true ->
  json.hex4 g1 g2 g3 g4 = Some uni2 ->
  json.is_low_surrogate uni2 = true ->
  json.scanstring
    (String json.backslash
       (String "u" (String h1 (String h2 (String h3 (String h4
          (String json.backslash
             (String "u" (String g1 (String g2 (String g3
                (String g4 s4))))))))))))
  = json.parsed_map (append (chr (json.join_surrogates uni uni2)))
      (json.scanstring s4).
Proof.
  intros Hh Hu Hg Hl. rewrite scanstring_u, Hh, Hu.
  change (Ascii.eqb json.backslash json.backslash && Ascii.eqb "u" "u")
    with true.
  cbv iota. rewrite Hg, Hl. reflexivity.
Qed.

Lemma u_escape_app (n : N) (X : string) :
  json.u_escape n ++ X
  = String json.backslash
      (String "u"
         (String (json.hex_digit (n / 4096))
            (String (json.hex_digit (n / 256 mod 16))
               (String (json.hex_digit (n / 16 mod 16))
                  (String (json.hex_digit (n mod 16)) X))))).
Proof. reflexivity. Qed.

(** The characters below 128, one by one. *)
Lemma scanstring_escape_ascii (c : ascii) (X : string) :
  (N_of_ascii c < 128)%N ->
  json.scanstring (json.escape_code_point (N_of_ascii c) ++ X)
  = json.parsed_map (append (chr (N_of_ascii c))) (json.scanstring X).
Proof.
  destruct c as [[] [] [] [] [] [] [] []]; intros H;
    try (cbv in H; discriminate H); reflexivity.
Qed.

Lemma low_escape_follows_ascii (c : ascii) (X : string) :
  (N_of_ascii c < 128)%N ->
  low_escape_follows (json.escape_code_point (N_of_ascii c) ++ X) = false.
Proof.
  destruct c as [[] [] [] [] [] [] [] []]; intros H;
    try (cbv in H; discriminate H);
    try reflexivity; destruct X; reflexivity.
Qed.

Lemma escape_code_point_u (n : N) :
  (128 <= n < 65536)%N -> json.escape_code_point n = json.u_escape n.
Proof.
  intros H. unfold json.escape_code_point.
  repeat match goal with
         | |- context [(n =? ?k)%N] =>
             destruct (N.eqb_spec n k); [lia|]
         end.
  destruct (N.leb_spec n 126); [lia|]. rewrite andb_false_r.
  destruct (N.ltb_spec n 65536); [reflexivity|lia].
Qed.

Lemma escape_code_point_pair (n : N) :
  (65536 <= n)%N ->
  json.escape_code_point n
  = json.u_escape (55296 + (n - 65536) / 1024 mod 1024)
    ++ json.u_escape (56320 + (n - 65536) mod 1024).
Proof.
  intros H. unfold json.escape_code_point.
  repeat match goal with
         | |- context [(n =? ?k)%N] =>
             destruct (N.eqb_spec n k); [lia|]
         end.
  destruct (N.leb_spec n 126); [lia|]. rewrite andb_false_r.
  destruct (N.ltb_spec n 65536); [lia|reflexivity].
Qed.

Lemma ascii_of_code_point (n : N) :
  (n < 128)%N -> N_of_ascii (ascii_of_N n) = n.
Proof. intros H. apply N_ascii_embedding. lia. Qed.

(** What comes first in the escape of a character is the escape of a
    low surrogate only when the character is one. *)
Lemma low_escape_follows_escape (n : N) (X : string) :
  low_escape_follows (json.escape_code_point n ++ X)
  = json.is_low_surrogate n.
Proof.
  destruct (N.ltb_spec n 128) as [H|H].
  - rewrite <- (ascii_of_code_point n H) at 1.
    rewrite low_escape_follows_ascii
      by (rewrite ascii_of_code_point; assumption).
    unfold json.is_low_surrogate. symmetry.
    destruct (N.leb_spec 56320 n); [lia|reflexivity].
  - destruct (N.ltb_spec n 65536) as [H'|H'].
    + rewrite escape_code_point_u, u_escape_app by lia.
      unfold low_escape_follows.
      change (Ascii.eqb json.backslash json.backslash && Ascii.eqb "u" "u")
        with true.
      rewrite hex4_digits by assumption. reflexivity.
    + rewrite escape_code_point_pair, append_assoc, u_escape_app by lia.
      unfold low_escape_follows.
      change (Ascii.eqb json.backslash json.backslash && Ascii.eqb "u" "u")
        with true.
      assert (Hm : ((n - 65536) / 1024 mod 1024 < 1024)%N)
        by (apply N.mod_lt; discriminate).
      rewrite hex4_digits by lia.
      unfold json.is_low_surrogate. cbv [andb].
      destruct (N.leb_spec 56320 (55296 + (n - 65536) / 1024 mod 1024));
        [lia|].
      destruct (N.leb_spec 56320 n); [|lia].
      destruct (N.leb_spec n 57343); [lia|reflexivity].
Qed.

(** The escape of one character is read as that character, unless it is
    a high surrogate and the escape of a low one follows. *)
Lemma scanstring_escape_code_point (n : N) (X : string) :
  (n <= 1114111)%N ->
  json.is_high_surrogate n && low_escape_follows X = false ->
  json.scanstring (json.escape_code_point n ++ X)
  = json.parsed_map (append (chr n)) (json.scanstring X).
Proof.
  intros Hn Hs. destruct (N.ltb_spec n 128) as [H|H].
  - rewrite <- (ascii_of_code_point n H).
    apply scanstring_escape_ascii. now rewrite ascii_of_code_point.
  - destruct (N.ltb_spec n 65536) as [H'|H'].
    + rewrite escape_code_point_u, u_escape_app by lia.
      apply scanstring_u_single; [now apply hex4_digits|assumption].
    + rewrite escape_code_point_pair, append_assoc, !u_escape_app by lia.
      assert (Hd : ((n - 65536) / 1024 < 1024)%N)
        by (apply N.Div0.div_lt_upper_bound; lia).
      assert (Hm : ((n - 65536) mod 1024 < 1024)%N)
        by (apply N.mod_lt; discriminate).
      rewrite (N.mod_small _ _ Hd).
      rewrite (scanstring_u_pair _ _ _ _ _ _ _ _ _
                 (55296 + (n - 65536) / 1024)
                 (56320 + (n - 65536) mod 1024)).
      * f_equal. f_equal. f_equal. unfold json.join_surrogates.
        dlia.
      * apply hex4_digits. dlia.
      * unfold json.is_high_surrogate.
        apply andb_true_iff. split; apply N.leb_le; dlia.
      * apply hex4_digits. dlia.
      * unfold json.is_low_surrogate.
        apply andb_true_iff. split; apply N.leb_le; dlia.
Qed.

(** The escape of a text is read as the text, up to the closing
    quote. *)
Lemma scanstring_escape_text (l : list N) (rest : string) :
  forallb (fun n => (n <=? 1114111)%N) l = true ->
  pair_free l = true ->
  json.scanstring (json.escape_text l ++ String json.dquote rest)
  = json.Parsed (text l) rest.
Proof.
  induction l as [|n l IH]; intros Hb Hp; [reflexivity|].
  simpl in Hb. apply andb_true_iff in Hb as [Hn Hb]. apply N.leb_le in Hn.
  change (pair_free (n :: l))
    with (match l with
          | [] => true
          | n' :: _ =>
              negb (json.is_high_surrogate n && json.is_low_surrogate n')
          end && pair_free l) in Hp.
  apply andb_true_iff in Hp as [Hnl Hp].
  change (json.escape_text (n :: l))
    with (json.escape_code_point n ++ json.escape_text l).
  rewrite append_assoc, scanstring_escape_code_point.
  - rewrite IH by assumption. reflexivity.
  - assumption.
  - destruct l as [|n' l].
    + simpl. destruct rest; apply andb_false_r.
    + change (json.escape_text (n' :: l))
        with (json.escape_code_point n' ++ json.escape_text l).
      rewrite append_assoc, low_escape_follows_escape.
      now apply negb_true_iff in Hnl.
Qed.

Lemma scanstring_escape (s rest : string) :
  well_formed s = true -> pair_free (code_points s) = true ->
  json.scanstring (json.escape s ++ String json.dquote rest)
  = json.Parsed s rest.
Proof.
  intros Hw Hp. unfold well_formed in Hw.
  apply andb_true_iff in Hw as [He Hb]. apply String.eqb_eq in He.
  unfold json.escape. rewrite scanstring_escape_text by assumption.
  now rewrite He.
Qed.

(** *** Numbers *)

Lemma number_end_cons (c : ascii) (rest : string) :
  number_end (String c rest) = true ->
  is_digit c = false /\ Ascii.eqb c "." = false /\
  Ascii.eqb c "e" = false /\ Ascii.eqb c "E" = false.
Proof.
  simpl. intros H. apply negb_true_iff in H.
  apply orb_false_iff in H as [H HE]. apply orb_false_iff in H as [H He].
  apply orb_false_iff in H as [Hd Hdot]. auto.
Qed.

Lemma number_end_fraction (rest : string) :
  number_end rest = true -> fraction_part rest = ("", rest).
Proof.
  destruct rest as [|c rest]; [reflexivity|]. intros H.
  apply number_end_cons in H as (_ & Hdot & _).
  unfold fraction_part. destruct rest; [reflexivity|].
  now rewrite Hdot.
Qed.

Lemma number_end_exponent (rest : string) :
  number_end rest = true -> exponent_part rest = ("", rest).
Proof.
  destruct rest as [|c rest]; [reflexivity|]. intros H.
  apply number_end_cons in H as (_ & _ & He & HE).
  unfold exponent_part. now rewrite He, HE.
Qed.

Lemma span_digits_app (s rest : string) :
  number_end rest = true ->
  span_digits (s ++ rest)
  = (fst (span_digits s), snd (span_digits s) ++ rest).
Proof.
  intros H. induction s as [|a s IH]; simpl.
  - destruct rest as [|c rest]; [reflexivity|].
    apply number_end_cons in H as (Hd & _). simpl. now rewrite Hd.
  - destruct (is_digit a); [|reflexivity].
    rewrite IH. now destruct (span_digits s).
Qed.

Lemma fraction_part_app (r rest : string) :
  number_end rest = true ->
  fraction_part (r ++ rest)
  = (fst (fraction_part r), snd (fraction_part r) ++ rest).
Proof.
  intros H. destruct r as [|p [|c r]].
  - now rewrite number_end_fraction.
  - simpl. destruct rest as [|c rest]; [reflexivity|].
    apply number_end_cons in H as (Hd & _). rewrite Hd, andb_false_r.
    reflexivity.
  - change ((String p (String c r)) ++ rest)
      with (String p (String c r ++ rest)).
    unfold fraction_part.
    change (String c r ++ rest) with (String c (r ++ rest)). cbv iota.
    destruct (Ascii.eqb p "." && is_digit c); [|reflexivity].
    change (String c (r ++ rest)) with (String c r ++ rest).
    rewrite span_digits_app by assumption.
    now destruct (span_digits (String c r)).
Qed.

Lemma exponent_part_app (r rest : string) :
  number_end rest = true ->
  snd (exponent_part r) = "" ->
  exponent_part (r ++ rest) = (fst (exponent_part r), rest).
Proof.
  intros H. destruct r as [|e r1].
  - intros _. now rewrite number_end_exponent.
  - change (String e r1 ++ rest) with (String e (r1 ++ rest)).
    unfold exponent_part.
    destruct (Ascii.eqb e "e" || Ascii.eqb e "E"); [|discriminate].
    destruct r1 as [|c r2]; [discriminate|].
    change (String c r2 ++ rest) with (String c (r2 ++ rest)).
    cbv iota. destruct (is_digit c).
    + change (String c (r2 ++ rest)) with (String c r2 ++ rest).
      rewrite span_digits_app by assumption.
      destruct (span_digits (String c r2)). simpl. now intros ->.
    + destruct (Ascii.eqb c "+" || Ascii.eqb c "-"); [|discriminate].
      destruct r2 as [|c' r3]; [discriminate|].
      change (String c' r3 ++ rest) with (String c' (r3 ++ rest)).
      cbv iota. destruct (is_digit c'); [|discriminate].
      change (String c' (r3 ++ rest)) with (String c' r3 ++ rest).
      rewrite span_digits_app by assumption.
      destruct (span_digits (String c' r3)). simpl. now intros ->.
Qed.

Lemma read_digits_cons (c : ascii) (s : string) :
  read_digits (String c s)
  = if is_digit c then
      let (d, r) := read_digits s in
      match DecimalString.uint_of_char c (Some d) with
      | Some d' => (d', r)
      | None => (Decimal.Nil, String c s)
      end
    else (Decimal.Nil, String c s).
Proof. reflexivity. Qed.

Lemma read_digits_app (s rest : string) :
  number_end rest = true ->
  read_digits (s ++ rest)
  = (fst (read_digits s), snd (read_digits s) ++ rest).
Proof.
  intros H. induction s as [|a s IH].
  - destruct rest as [|c rest]; [reflexivity|].
    apply number_end_cons in H as (Hd & _).
    change ("" ++ String c rest) with (String c rest).
    rewrite read_digits_cons, Hd. reflexivity.
  - change (String a s ++ rest) with (String a (s ++ rest)).
    rewrite !read_digits_cons.
    destruct (is_digit a); [|reflexivity].
    rewrite IH. destruct (read_digits s) as [d r]. cbn [fst snd].
    now destruct (DecimalString.uint_of_char a (Some d)).
Qed.

Lemma integer_part_cons (c : ascii) (X : string) :
  integer_part (String c X)
  = if Ascii.eqb c "0" then Some (Decimal.D0 Decimal.Nil, X)
    else match read_digits (String c X) with
         | (Decimal.Nil, _) => None
         | (d, r) => Some (d, r)
         end.
Proof. destruct c as [[] [] [] [] [] [] [] []]; reflexivity. Qed.

Lemma integer_part_app (s rest : string) (d : Decimal.uint) (r : string) :
  number_end rest = true ->
  integer_part s = Some (d, r) ->
  integer_part (s ++ rest) = Some (d, r ++ rest).
Proof.
  intros H. destruct s as [|c s]; [discriminate|].
  change (String c s ++ rest) with (String c (s ++ rest)).
  rewrite !integer_part_cons.
  destruct (Ascii.eqb c "0"); [now intros [= <- <-]|].
  change (String c (s ++ rest)) with (String c s ++ rest).
  rewrite read_digits_app by assumption.
  destruct (read_digits (String c s)) as [d' r']. simpl.
  destruct d'; try discriminate; now intros [= <- <-].
Qed.

Lemma number_re_eq (s : string) :
  number_re s
  = match integer_part (snd (sign_part s)) with
    | Some (d, r) =>
        Some (fst (sign_part s), d, fst (fraction_part r),
              fst (exponent_part (snd (fraction_part r))),
              snd (exponent_part (snd (fraction_part r))))
    | None => None
    end.
Proof.
  unfold number_re. destruct (sign_part s) as [negative s1]. cbn [fst snd].
  destruct (integer_part s1) as [[d r]|]; [|reflexivity].
  destruct (fraction_part r) as [frac r1]. cbn [fst snd].
  destruct (exponent_part r1); reflexivity.
Qed.

Lemma sign_part_app (s rest : string) :
  integer_part (snd (sign_part s)) <> None ->
  sign_part (s ++ rest) = (fst (sign_part s), snd (sign_part s) ++ rest).
Proof.
  destruct s as [|c s].
  - intros H. contradiction H. reflexivity.
  - intros _. change (String c s ++ rest) with (String c (s ++ rest)).
    unfold sign_part. destruct (Ascii.eqb c "-"); reflexivity.
Qed.

Lemma number_re_app (s rest : string) (negative : bool) (d : Decimal.uint)
    (frac exp : string) :
  number_end rest = true ->
  number_re s = Some (negative, d, frac, exp, "") ->
  number_re (s ++ rest) = Some (negative, d, frac, exp, rest).
Proof.
  intros H. rewrite !number_re_eq.
  destruct (integer_part (snd (sign_part s))) as [[d' r]|] eqn:Ei;
    [|discriminate].
  intros E. rewrite sign_part_app by (rewrite Ei; discriminate).
  cbn [fst snd]. rewrite (integer_part_app _ _ _ _ H Ei).
  rewrite fraction_part_app by assumption. cbn [fst snd].
  injection E as <- <- <- <- E.
  rewrite exponent_part_app by assumption. reflexivity.
Qed.

Lemma startswith_drop (s p : string) :
  json.startswith s p = true -> s = p ++ json.drop (String.length p) s.
Proof.
  revert s. induction p as [|a p IH]; intros s; [reflexivity|].
  destruct s as [|b s]; [discriminate|]. simpl.
  intros H. apply andb_true_iff in H as [Hab H].
  apply Ascii.eqb_eq in Hab as ->. f_equal. now apply IH.
Qed.

Lemma append_nil_r (s : string) : s ++ "" = s.
Proof. induction s; simpl; congruence. Qed.

(** A constant that is the whole text. *)
Lemma startswith_whole (s p : string) :
  json.startswith s p = true -> json.drop (String.length p) s = "" -> s = p.
Proof.
  intros H E. apply startswith_drop in H. rewrite E, append_nil_r in H.
  exact H.
Qed.

(** A number that is the whole text is scanned the same when a text
    that cannot go on the number comes after it. *)
Lemma match_number_app (s rest : string) (v : value) :
  number_end rest = true ->
  json.match_number s = json.Parsed v "" ->
  json.match_number (s ++ rest) = json.Parsed v rest.
Proof.
  intros H. unfold json.match_number.
  destruct (number_re s) as [[[[[negative d] frac] exp] r]|] eqn:E.
  - intros Hv.
    assert (Hr : r = "") by (destruct (frac ++ exp); congruence).
    subst r. rewrite (number_re_app _ _ _ _ _ _ H E).
    destruct (frac ++ exp); congruence.
  - destruct (json.startswith s "NaN") eqn:E1.
    { intros [= <- E']. apply (startswith_whole _ _ E1) in E'.
      subst s. reflexivity. }
    destruct (json.startswith s "Infinity") eqn:E2.
    { intros [= <- E']. apply (startswith_whole _ _ E2) in E'.
      subst s. reflexivity. }
    destruct (json.startswith s "-Infinity") eqn:E3; [|discriminate].
    intros [= <- E']. apply (startswith_whole _ _ E3) in E'.
    subst s. reflexivity.
Qed.

Lemma startswith_head (c a : ascii) (X p : string) :
  Ascii.eqb c a = false -> json.startswith (String c X) (String a p) = false.
Proof. intros H. simpl. now rewrite Ascii.eqb_sym, H. Qed.

(** A constant or a number that is the whole text is scanned the same
    when a text that cannot go on a number comes after it. *)
Lemma scan_literal_app (s rest : string) (v : value) :
  number_end rest = true ->
  json.scan_literal s = json.Parsed v "" ->
  json.scan_literal (s ++ rest) = json.Parsed v rest.
Proof.
  intros H. destruct s as [|c s]; [discriminate|].
  unfold json.scan_literal.
  destruct (json.startswith (String c s) "null") eqn:E1.
  { intros [= <- E]. apply (startswith_whole _ _ E1) in E.
    injection E as -> ->. reflexivity. }
  destruct (json.startswith (String c s) "true") eqn:E2.
  { intros [= <- E]. apply (startswith_whole _ _ E2) in E.
    injection E as -> ->. reflexivity. }
  destruct (json.startswith (String c s) "false") eqn:E3.
  { intros [= <- E]. apply (startswith_whole _ _ E3) in E.
    injection E as -> ->. reflexivity. }
  intros Hm. change (String c s ++ rest) with (String c (s ++ rest)).
  destruct (Ascii.eqb c "n") eqn:En;
    [apply Ascii.eqb_eq in En as ->; discriminate Hm|].
  destruct (Ascii.eqb c "t") eqn:Et;
    [apply Ascii.eqb_eq in Et as ->; discriminate Hm|].
  destruct (Ascii.eqb c "f") eqn:Ef;
    [apply Ascii.eqb_eq in Ef as ->; discriminate Hm|].
  rewrite !startswith_head by assumption.
  now apply (match_number_app (String c s)).
Qed.

(** A text that a literal starts is scanned as a literal. *)
Lemma scan_once_literal (fuel : nat) (c : ascii) (X : string) :
  Ascii.eqb c json.dquote = false -> Ascii.eqb c "{" = false ->
  Ascii.eqb c "[" = false ->
  json.scan_once (S fuel) (String c X) = json.scan_literal (String c X).
Proof. intros H1 H2 H3. simpl. now rewrite H1, H2, H3. Qed.

(** The first character of a literal. *)
Lemma scan_literal_head (c : ascii) (s : string) (v : value) (r : string) :
  json.scan_literal (String c s) = json.Parsed v r ->
  Ascii.eqb c json.dquote = false /\ Ascii.eqb c "{" = false /\
  Ascii.eqb c "[" = false /\ json.is_ws c = false /\ Ascii.eqb c "]" = false.
Proof.
  destruct c as [[] [] [] [] [] [] [] []]; intros H;
    try (repeat split; reflexivity); discriminate H.
Qed.

(** *** Integers *)

Lemma read_digits_uint (d : Decimal.uint) (rest : string) :
  number_end rest = true ->
  read_digits (DecimalString.NilEmpty.string_of_uint d ++ rest) = (d, rest).
Proof.
  intros H. induction d; simpl; try (rewrite IHd; reflexivity).
  destruct rest as [|c rest]; [reflexivity|]. simpl in *.
  destruct (is_digit c); [discriminate|reflexivity].
Qed.

Lemma nzhead_not_D0 (d d' : Decimal.uint) :
  Decimal.nzhead d <> Decimal.D0 d'.
Proof. induction d; simpl; auto; discriminate. Qed.

Lemma to_uint_head (p : positive) :
  match Pos.to_uint p with
  | Decimal.Nil | Decimal.D0 _ => False
  | _ => True
  end.
Proof.
  pose proof (DecimalPos.Unsigned.to_of (Pos.to_uint p)) as H.
  rewrite DecimalPos.Unsigned.of_to in H. simpl in H.
  pose proof (DecimalPos.Unsigned.to_uint_nonnil p) as Hn.
  pose proof (DecimalPos.Unsigned.to_uint_nonzero p) as Hz.
  destruct (Pos.to_uint p) as [|d| | | | | | | | |] eqn:E; auto.
  unfold Decimal.unorm in H. simpl in H.
  destruct (Decimal.nzhead d) eqn:En; try discriminate.
  - apply Hz. rewrite H. reflexivity.
  - injection H as <-. now apply nzhead_not_D0 in En.
Qed.

(** The encoder's text of an int is read back as that int, and
    [scan_once] takes it for a number. *)
Lemma scan_once_intstr (n : Z) (fuel : nat) (rest : string) :
  number_end rest = true ->
  json.scan_once (S fuel) (json.intstr n ++ rest) = json.Parsed (VInt n) rest.
Proof.
  intros H. unfold json.intstr. destruct n as [|p|p]; simpl.
  - unfold json.scan_literal, json.match_number, number_re; simpl.
    now rewrite number_end_fraction, number_end_exponent.
  - pose proof (to_uint_head p) as Hh.
    pose proof (DecimalZ.of_to (Z.pos p)) as Hz. simpl in Hz.
    unfold DecimalString.NilZero.string_of_uint.
    destruct (Pos.to_uint p) eqn:E; try contradiction;
      simpl; unfold json.scan_literal, json.match_number, number_re,
               integer_part;
      simpl; rewrite read_digits_uint by assumption;
      rewrite number_end_fraction, number_end_exponent by assumption;
      simpl; rewrite Hz; reflexivity.
  - pose proof (to_uint_head p) as Hh.
    pose proof (DecimalZ.of_to (Z.neg p)) as Hz. simpl in Hz.
    unfold DecimalString.NilZero.string_of_uint.
    destruct (Pos.to_uint p) eqn:E; try contradiction;
      simpl; unfold json.scan_literal, json.match_number, number_re,
               integer_part;
      simpl; rewrite read_digits_uint by assumption;
      rewrite number_end_fraction, number_end_exponent by assumption;
      simpl in *; congruence.
Qed.

(** *** Floats *)

(** **** The float nearest to the value of a float is that float *)

Local Open Scope Z_scope.

Lemma digits2_pos_size (p : positive) : SpecFloat.digits2_pos p = Pos.size p.
Proof. induction p; simpl; congruence. Qed.

Lemma digits2_pos_log2 (p : positive) :
  Z.pos (SpecFloat.digits2_pos p) = Z.log2 (Z.pos p) + 1.
Proof.
  destruct p; simpl; rewrite ?digits2_pos_size; lia.
Qed.

(** The mantissa and the exponent of a finite float are the canonical
    ones. *)
Lemma Prim2SF_canonical (f : float) (negative : bool) (m : positive) (e : Z) :
  FloatOps.Prim2SF f = SpecFloat.S754_finite negative m e ->
  Z.max (Z.log2 (Z.pos m) + e - 52) (-1074) = e.
Proof.
  intros H. pose proof (FloatAxioms.Prim2SF_valid f) as Hv.
  rewrite H in Hv. simpl in Hv. unfold SpecFloat.bounded in Hv.
  apply andb_true_iff in Hv as [Hc _].
  unfold SpecFloat.canonical_mantissa in Hc. apply Z.eqb_eq in Hc.
  unfold SpecFloat.fexp, SpecFloat.emin, FloatOps.prec, FloatOps.emax in Hc.
  rewrite digits2_pos_log2 in Hc. lia.
Qed.

Lemma above_scaled (t K num den : Z) :
  0 <= K -> 0 <= K + t ->
  (if 0 <=? t then den * 2 ^ t <=? num else den <=? num * 2 ^ (- t))
  = (den * 2 ^ (K + t) <=? num * 2 ^ K).
Proof.
  intros HK HKt. destruct (Z.leb_spec 0 t) as [Ht|Ht].
  - rewrite Z.pow_add_r by lia.
    assert (0 < 2 ^ K) by (apply Z.pow_pos_nonneg; lia).
    destruct (Z.leb_spec (den * 2 ^ t) num), (Z.leb_spec (den * (2 ^ K * 2 ^ t)) (num * 2 ^ K)); try reflexivity; nia.
  - replace K with ((K + t) + (- t)) at 2 by lia.
    rewrite (Z.pow_add_r 2 (K + t) (- t)) by lia.
    assert (0 < 2 ^ (K + t)) by (apply Z.pow_pos_nonneg; lia).
    destruct (Z.leb_spec den (num * 2 ^ (- t))),
      (Z.leb_spec (den * 2 ^ (K + t)) (num * (2 ^ (K + t) * 2 ^ (- t))));
      try reflexivity; nia.
Qed.

Lemma log2_bounds (n : Z) : 0 < n -> 2 ^ Z.log2 n <= n < 2 ^ (Z.log2 n + 1).
Proof. intros H. pose proof (Z.log2_spec n H). now rewrite <- Z.add_1_r in H0. Qed.

Lemma nearest_exact (negative : bool) (m : positive) (e num den : Z) :
  0 < num -> 0 < den ->
  Z.max (Z.log2 (Z.pos m) + e - 52) (-1074) = e ->
  (if 0 <=? e then num = Z.pos m * 2 ^ e * den
   else num * 2 ^ (- e) = Z.pos m * den) ->
  nearest negative num den
  = FloatOps.SF2Prim (SpecFloat.S754_finite negative m e).
Proof.
  intros Hn Hd Hc Hq. unfold nearest.
  set (a := Z.log2 num). set (b := Z.log2 den). set (lm := Z.log2 (Z.pos m)).
  pose proof (log2_bounds num Hn) as Ha. fold a in Ha.
  pose proof (log2_bounds den Hd) as Hb. fold b in Hb.
  pose proof (log2_bounds (Z.pos m) eq_refl) as Hm. fold lm in Hm.
  assert (Ha0 : 0 <= a) by apply Z.log2_nonneg.
  assert (Hb0 : 0 <= b) by apply Z.log2_nonneg.
  assert (Hm0 : 0 <= lm) by apply Z.log2_nonneg.
  fold lm in Hc.
  set (E := Z.abs e + a + b + lm + 2).
  assert (HE : num * 2 ^ E = Z.pos m * 2 ^ (E + e) * den).
  { destruct (Z.leb_spec 0 e) as [He|He].
    - rewrite Z.pow_add_r by lia. subst num. ring.
    - replace E with ((E + e) + (- e)) at 1 by lia.
      rewrite Z.pow_add_r by lia.
      transitivity (num * 2 ^ (- e) * 2 ^ (E + e)); [ring|].
      rewrite Hq. ring. }
  assert (Hl : a - b = lm + e \/ a - b = lm + e + 1).
  { assert (H1 : 2 ^ (a + E) <= num * 2 ^ E).
    { rewrite Z.pow_add_r by lia.
      apply Z.mul_le_mono_nonneg_r; [apply Z.pow_nonneg|]; lia. }
    assert (H2 : num * 2 ^ E < 2 ^ (a + 1 + E)).
    { rewrite (Z.pow_add_r 2 (a + 1)) by lia.
      apply Z.mul_lt_mono_pos_r; [apply Z.pow_pos_nonneg|]; lia. }
    assert (H3 : 2 ^ (lm + (E + e) + b) <= Z.pos m * 2 ^ (E + e) * den).
    { rewrite !Z.pow_add_r by lia.
      assert (0 < 2 ^ (E + e)) by (apply Z.pow_pos_nonneg; lia).
      assert (0 < 2 ^ lm) by (apply Z.pow_pos_nonneg; lia).
      assert (0 < 2 ^ b) by (apply Z.pow_pos_nonneg; lia).
      apply Z.mul_le_mono_nonneg; try nia. }
    assert (H4 : Z.pos m * 2 ^ (E + e) * den
                 < 2 ^ ((lm + 1) + (E + e) + (b + 1))).
    { rewrite (Z.pow_add_r 2 (lm + 1 + (E + e))) by lia.
      rewrite (Z.pow_add_r 2 (lm + 1)) by lia.
      assert (0 < 2 ^ (E + e)) by (apply Z.pow_pos_nonneg; lia).
      apply Z.mul_lt_mono_nonneg; try nia. }
    rewrite <- HE in H3, H4.
    assert (H5 : 2 ^ (a + E) < 2 ^ (lm + 1 + (E + e) + (b + 1))) by lia.
    assert (H6 : 2 ^ (lm + (E + e) + b) < 2 ^ (a + 1 + E)) by lia.
    apply Z.pow_lt_mono_r_iff in H5; [|lia|lia].
    apply Z.pow_lt_mono_r_iff in H6; [|lia|lia].
    lia. }
  set (l := a - b) in *.
  rewrite (above_scaled l E num den) by lia.
  assert (Hlq : (if den * 2 ^ (E + l) <=? num * 2 ^ E then l else l - 1)
                = lm + e).
  { rewrite HE.
    assert (0 < 2 ^ (E + e)) by (apply Z.pow_pos_nonneg; lia).
    destruct Hl as [Hl|Hl]; rewrite Hl.
    - replace (E + (lm + e)) with (lm + (E + e)) by lia.
      rewrite Z.pow_add_r by lia.
      destruct (Z.leb_spec (den * (2 ^ lm * 2 ^ (E + e)))
                  (Z.pos m * 2 ^ (E + e) * den)); [reflexivity|nia].
    - replace (E + (lm + e + 1)) with ((lm + 1) + (E + e)) by lia.
      rewrite Z.pow_add_r by lia.
      destruct (Z.leb_spec (den * (2 ^ (lm + 1) * 2 ^ (E + e)))
                  (Z.pos m * 2 ^ (E + e) * den)); [nia|lia]. }
  rewrite Hlq, Hc.
  assert (Hab : (if 0 <=? e then num else num * 2 ^ (- e))
                = Z.pos m * (if 0 <=? e then den * 2 ^ e else den)).
  { destruct (0 <=? e); [subst num; ring|assumption]. }
  assert (Hbp : 0 < (if 0 <=? e then den * 2 ^ e else den)).
  { destruct (Z.leb_spec 0 e); [|assumption].
    apply Z.mul_pos_pos; [assumption|apply Z.pow_pos_nonneg; lia]. }
  rewrite Hab. set (d := if 0 <=? e then den * 2 ^ e else den) in *.
  rewrite Z.div_mul, Z.mod_mul by lia.
  change (2 * 0) with 0. destruct (Z.ltb_spec 0 d); [reflexivity|lia].
Qed.

(** *** Decimal texts *)

Lemma read_digits_string_of_uint (d : Decimal.uint) (rest : string) :
  span_digits rest = ("", rest) ->
  read_digits (DecimalString.NilEmpty.string_of_uint d ++ rest) = (d, rest).
Proof.
  intros H. induction d; simpl; try (rewrite IHd; reflexivity).
  destruct rest as [|c rest]; [reflexivity|]. simpl in *.
  destruct (is_digit c); [|reflexivity].
  destruct (span_digits rest); discriminate.
Qed.

Lemma span_digits_string_of_uint (d : Decimal.uint) (rest : string) :
  span_digits rest = ("", rest) ->
  span_digits (DecimalString.NilEmpty.string_of_uint d ++ rest)
  = (DecimalString.NilEmpty.string_of_uint d, rest).
Proof.
  intros H. induction d; simpl; try (rewrite IHd; reflexivity). assumption.
Qed.

Lemma to_uint_nonnil (n : N) : N.to_uint n <> Decimal.Nil.
Proof.
  destruct n; [discriminate|]. apply DecimalPos.Unsigned.to_uint_nonnil.
Qed.

Lemma decimal_eq (n : Z) :
  decimal n = DecimalString.NilEmpty.string_of_uint (N.to_uint (Z.to_N n)).
Proof.
  unfold decimal, DecimalString.NilZero.string_of_uint.
  pose proof (to_uint_nonnil (Z.to_N n)).
  now destruct (N.to_uint (Z.to_N n)).
Qed.

Lemma decimal_head (n : Z) :
  exists c t, decimal n = String c t /\ is_digit c = true.
Proof.
  rewrite decimal_eq. pose proof (to_uint_nonnil (Z.to_N n)).
  destruct (N.to_uint (Z.to_N n)); [contradiction| | | | | | | | | |];
    simpl; eexists; eexists; (split; [reflexivity|reflexivity]).
Qed.

Lemma of_uint_to_uint (n : Z) : 0 <= n -> Z.of_uint (N.to_uint (Z.to_N n)) = n.
Proof.
  intros H. unfold Z.of_uint.
  change (Pos.of_uint (N.to_uint (Z.to_N n)))
    with (N.of_uint (N.to_uint (Z.to_N n))).
  rewrite DecimalN.Unsigned.of_to. lia.
Qed.

Lemma digits_value_decimal (n : Z) : 0 <= n -> digits_value (decimal n) = n.
Proof.
  intros H. unfold digits_value. rewrite decimal_eq.
  rewrite <- (append_nil_r (DecimalString.NilEmpty.string_of_uint _)).
  rewrite read_digits_string_of_uint by reflexivity.
  now apply of_uint_to_uint.
Qed.

Lemma span_digits_decimal (n : Z) : span_digits (decimal n) = (decimal n, "").
Proof.
  rewrite decimal_eq.
  rewrite <- (append_nil_r (DecimalString.NilEmpty.string_of_uint _))
    at 1.
  now rewrite span_digits_string_of_uint.
Qed.

Lemma integer_part_decimal (n : Z) (rest : string) :
  0 < n -> span_digits rest = ("", rest) ->
  integer_part (decimal n ++ rest) = Some (N.to_uint (Z.to_N n), rest).
Proof.
  intros Hn Hr. rewrite decimal_eq.
  destruct n as [|p|p]; try lia. simpl Z.to_N. simpl N.to_uint.
  pose proof (to_uint_head p) as Hh.
  pose proof (read_digits_string_of_uint (Pos.to_uint p) rest Hr) as Hd.
  destruct (Pos.to_uint p) eqn:E; try contradiction;
    simpl in *; unfold integer_part; simpl; rewrite Hd; reflexivity.
Qed.

Lemma sign_part_decimal (n : Z) (rest : string) :
  sign_part (decimal n ++ rest) = (false, decimal n ++ rest).
Proof.
  destruct (decimal_head n) as (c & t & -> & Hc).
  simpl. destruct c as [[] [] [] [] [] [] [] []]; try discriminate Hc;
    reflexivity.
Qed.

(** The text of the exact value is a number, with these parts. *)
Lemma number_re_exact (negative : bool) (D X : Z) :
  0 < D ->
  number_re ((if negative then "-" else "") ++ decimal D ++ "e-" ++ decimal X)
  = Some (negative, N.to_uint (Z.to_N D), "", "e-" ++ decimal X, "").
Proof.
  intros HD.
  assert (H : number_re (decimal D ++ "e-" ++ decimal X)
              = Some (false, N.to_uint (Z.to_N D), "", "e-" ++ decimal X, "")).
  { unfold number_re. rewrite sign_part_decimal.
    rewrite integer_part_decimal by (assumption || reflexivity).
    destruct (decimal_head X) as (c & t & E & Hc).
    pose proof (span_digits_decimal X) as Hs. rewrite E in *.
    change (fraction_part ("e-" ++ String c t)) with ("", "e-" ++ String c t).
    cbv beta iota.
    change (exponent_part ("e-" ++ String c t))
      with (if is_digit c
            then let (ds, rest) := span_digits (String c t) in
                 (String "e" (String "-" ds), rest)
            else ("", "e-" ++ String c t)).
    rewrite Hc, Hs. reflexivity. }
  destruct negative; [|exact H].
  unfold number_re in *. change (sign_part ("-" ++ decimal D ++ "e-" ++ decimal X)) with (true, decimal D ++ "e-" ++ decimal X).
  rewrite sign_part_decimal in H. cbv beta iota in *.
  destruct (integer_part (decimal D ++ "e-" ++ decimal X)) as [[d r]|];
    [|discriminate].
  destruct (fraction_part r) as [frac r1], (exponent_part r1) as [exp r2].
  congruence.
Qed.

Lemma pow10 (n : Z) : 0 <= n -> 10 ^ n = 2 ^ n * 5 ^ n.
Proof. intros H. now rewrite <- Z.pow_mul_l. Qed.

(** [float] reads the text of the exact value of a float as the
    float. *)
Lemma float_of_string_exact (f : float) (negative : bool) (m : positive)
    (e : Z) :
  FloatOps.Prim2SF f = SpecFloat.S754_finite negative m e ->
  float_of_string (exact_text negative m e) = Some f.
Proof.
  intros Hf. pose proof (Prim2SF_canonical _ _ _ _ Hf) as Hc.
  unfold exact_text, float_of_string.
  set (D := if 0 <=? e then Z.pos m * 2 ^ e else Z.pos m * 5 ^ (- e)).
  set (X := if 0 <=? e then 0 else - e).
  assert (HD : 0 < D).
  { unfold D. destruct (Z.leb_spec 0 e);
      (apply Z.mul_pos_pos; [lia|apply Z.pow_pos_nonneg; lia]). }
  assert (HX : 0 <= X) by (unfold X; destruct (Z.leb_spec 0 e); lia).
  rewrite number_re_exact by assumption.
  change ("" ++ "e-" ++ decimal X) with (String "e" (String "-" (decimal X))).
  cbv iota. f_equal.
  unfold float_of_parts.
  change (exponent_value ("e-" ++ decimal X)) with (- digits_value (decimal X)).
  rewrite digits_value_decimal by assumption.
  change (tail "") with "". change (String.length "") with 0%nat.
  change (digits_value "") with 0. change (Z.of_nat 0) with 0.
  rewrite of_uint_to_uint by lia.
  change (10 ^ 0) with 1. rewrite Z.mul_1_r, Z.add_0_r, Z.sub_0_r.
  unfold of_decimal.
  destruct (Z.eqb_spec D 0) as [|_]; [lia|].
  rewrite <- (FloatAxioms.SF2Prim_Prim2SF f), Hf.
  unfold D, X. destruct (Z.leb_spec 0 e) as [He|He].
  - change (0 <=? - 0) with true. cbv iota.
    change (10 ^ (- 0)) with 1. rewrite Z.mul_1_r.
    apply nearest_exact; [exact HD|lia|exact Hc|].
    destruct (Z.leb_spec 0 e); [ring|lia].
  - destruct (Z.leb_spec 0 (- - e)); [lia|].
    rewrite Z.opp_involutive.
    apply nearest_exact; [exact HD|apply Z.pow_pos_nonneg; lia|exact Hc|].
    destruct (Z.leb_spec 0 e); [lia|]. rewrite pow10 by lia. ring.
Qed.

(** *** [repr] of a float is read back as the float *)

Lemma reads_as_float_of_string (f : float) (s : string) :
  reads_as f s = true -> float_of_string s = Some f.
Proof.
  unfold reads_as. destruct (float_of_string s) as [g|]; [|discriminate].
  intros H. apply FloatAxioms.Leibniz.eqb_spec in H. now subst.
Qed.

Lemma digits_at_reads_as (f : float) (negative : bool) (num den x n : Z)
    (s : string) :
  digits_at f negative num den x n = Some s -> reads_as f s = true.
Proof.
  unfold digits_at.
  set (k := x - n + 1).
  set (a := if 0 <=? k then num else num * 10 ^ (- k)).
  set (b := if 0 <=? k then den * 10 ^ k else den).
  set (lo := repr_text negative (a / b) k).
  set (hi := repr_text negative (a / b + 1) k).
  destruct (a mod b =? 0).
  - destruct (reads_as f lo) eqn:E; [|discriminate]. now intros [= <-].
  - destruct (reads_as f lo) eqn:E1, (reads_as f hi) eqn:E2;
      try discriminate; intros [= <-]; try assumption.
    match goal with
    | |- reads_as f (if ?c then _ else _) = true => destruct c
    end; assumption.
Qed.

Lemma shortest_reads_as (fuel : nat) (f : float) (negative : bool)
    (num den x n : Z) (s : string) :
  shortest fuel f negative num den x n = Some s -> reads_as f s = true.
Proof.
  revert n. induction fuel as [|fuel IH]; intros n; simpl; [discriminate|].
  destruct (digits_at f negative num den x n) as [t|] eqn:E.
  - intros [= <-]. now apply digits_at_reads_as in E.
  - apply IH.
Qed.

Lemma float_of_string_repr (f : float) (negative : bool) (m : positive)
    (e : Z) :
  FloatOps.Prim2SF f = SpecFloat.S754_finite negative m e ->
  float_of_string (float_repr f) = Some f.
Proof.
  intros Hf. unfold float_repr. rewrite Hf.
  set (num := if 0 <=? e then Z.pos m * 2 ^ e else Z.pos m).
  set (den := if 0 <=? e then 1 else 2 ^ (- e)).
  destruct (shortest 17 f negative num den (log10_floor num den) 1)
    as [s|] eqn:E.
  - apply reads_as_float_of_string. now apply shortest_reads_as in E.
  - now apply float_of_string_exact.
Qed.

Lemma number_re_head (c : ascii) (s : string) :
  number_re (String c s) <> None ->
  Ascii.eqb c "n" = false /\ Ascii.eqb c "t" = false /\
  Ascii.eqb c "f" = false.
Proof.
  destruct c as [[] [] [] [] [] [] [] []]; intros H;
    try (repeat split; reflexivity); contradiction H; reflexivity.
Qed.

(** The scanner takes a text that [float] reads for that float. *)
Lemma scan_literal_float (s : string) (f : float) :
  float_of_string s = Some f ->
  json.scan_literal s = json.Parsed (VFloat f) "".
Proof.
  unfold float_of_string. intros H.
  destruct (number_re s) as [[[[[negative d] frac] exp] r]|] eqn:E;
    [|discriminate].
  destruct r; [|discriminate].
  destruct s as [|c s]; [discriminate|].
  destruct (number_re_head c s) as (H1 & H2 & H3); [now rewrite E|].
  unfold json.scan_literal. rewrite !startswith_head by assumption.
  unfold json.match_number. rewrite E.
  destruct (frac ++ exp); [discriminate|]. now injection H as <-.
Qed.

Lemma SFcompare_refl (negative : bool) (m : positive) (e : Z) :
  SpecFloat.SFcompare (SpecFloat.S754_finite negative m e)
    (SpecFloat.S754_finite negative m e) = Some Eq.
Proof.
  simpl. rewrite Z.compare_refl, Pos.compare_cont_refl.
  now destruct negative.
Qed.

(** The scanner reads the encoder's text of every float as that
    float. *)
Lemma scan_literal_floatstr (f : float) :
  json.scan_literal (json.floatstr f) = json.Parsed (VFloat f) "".
Proof.
  unfold json.floatstr.
  rewrite !FloatAxioms.eqb_spec.
  pose proof (FloatAxioms.SF2Prim_Prim2SF f) as Hf.
  change (FloatOps.Prim2SF infinity) with (SpecFloat.S754_infinity false).
  change (FloatOps.Prim2SF neg_infinity) with (SpecFloat.S754_infinity true).
  destruct (FloatOps.Prim2SF f) as [s|s| |s m e] eqn:E.
  - change (json.scan_literal (float_repr f) = json.Parsed (VFloat f) "").
    unfold float_repr. rewrite E. rewrite <- Hf. now destruct s.
  - rewrite <- Hf. now destruct s.
  - rewrite <- Hf. reflexivity.
  - unfold SpecFloat.SFeqb. rewrite SFcompare_refl.
    replace (negb true) with false by reflexivity. cbv iota.
    assert (H1 : forall b, SpecFloat.SFcompare
                     (SpecFloat.S754_finite s m e)
                     (SpecFloat.S754_infinity b) <> Some Eq)
      by (intros b; destruct s, b; discriminate).
    pose proof (H1 false) as Hp. pose proof (H1 true) as Hn.
    destruct (SpecFloat.SFcompare (SpecFloat.S754_finite s m e)
                (SpecFloat.S754_infinity false)) as [[]|];
      try contradiction;
      destruct (SpecFloat.SFcompare (SpecFloat.S754_finite s m e)
                  (SpecFloat.S754_infinity true)) as [[]|];
      try contradiction;
      apply scan_literal_float, (float_of_string_repr _ _ _ _ E).
Qed.

Local Close Scope Z_scope.

Lemma scan_once_floatstr (f : float) (fuel : nat) (rest : string) :
  number_end rest = true ->
  json.scan_once (S fuel) (json.floatstr f ++ rest)
  = json.Parsed (VFloat f) rest.
Proof.
  intros Hr. pose proof (scan_literal_floatstr f) as Hf.
  destruct (json.floatstr f) as [|c s] eqn:E; [discriminate|].
  destruct (scan_literal_head _ _ _ _ Hf) as (H1 & H2 & H3 & _).
  change (String c s ++ rest) with (String c (s ++ rest)).
  rewrite scan_once_literal by assumption.
  now apply (scan_literal_app (String c s)).
Qed.

Lemma floatstr_head (f : float) (rest : string) :
  value_head (json.floatstr f ++ rest).
Proof.
  pose proof (scan_literal_floatstr f) as Hf.
  destruct (json.floatstr f) as [|c s] eqn:E; [discriminate|].
  destruct (scan_literal_head _ _ _ _ Hf) as (_ & _ & _ & H4 & H5).
  split; assumption.
Qed.

(** *** White space and first characters *)

Lemma skip_ws_value_head (s : string) : value_head s -> json.skip_ws s = s.
Proof. destruct s as [|c s]; simpl; [tauto|]. now intros [-> _]. Qed.

Lemma skip_ws_spaces (n : nat) (s : string) :
  json.skip_ws (json.spaces n ++ s) = json.skip_ws s.
Proof. induction n; simpl; auto. Qed.

Lemma skip_ws_newline_indent (level : nat) (s : string) :
  json.skip_ws (json.newline_indent level ++ s) = json.skip_ws s.
Proof. unfold json.newline_indent. simpl. apply skip_ws_spaces. Qed.

Lemma number_end_newline_indent (level : nat) (s : string) :
  number_end (json.newline_indent level ++ s) = true.
Proof. reflexivity. Qed.

Lemma intstr_head (n : Z) (rest : string) : value_head (json.intstr n ++ rest).
Proof.
  unfold json.intstr. destruct n as [|p|p]; simpl; try (split; reflexivity).
  pose proof (to_uint_head p) as Hh.
  unfold DecimalString.NilZero.string_of_uint.
  destruct (Pos.to_uint p); try contradiction; simpl; split; reflexivity.
Qed.

(** The text of every value starts like a value. *)
Lemma encode_head (level : nat) (v : value) (rest : string) :
  value_head (json.encode level v ++ rest).
Proof.
  destruct v as [|[]|n|f|s|[|x l]|[|x l]|[|[k x] d]];
    try (simpl; split; reflexivity).
  - apply intstr_head.
  - apply floatstr_head.
Qed.

(** *** Lists and dicts *)

Lemma encode_more_nil level :
  encode_more level [] = json.newline_indent level ++ "]".
Proof. reflexivity. Qed.

Lemma encode_more_cons level y l :
  encode_more level (y :: l)
  = "," ++ json.newline_indent (S level) ++ json.encode (S level) y
    ++ encode_more level l.
Proof. reflexivity. Qed.

Lemma encode_more_items_nil level :
  encode_more_items level [] = json.newline_indent level ++ "}".
Proof. reflexivity. Qed.

Lemma encode_more_items_cons level k y d :
  encode_more_items level ((k, y) :: d)
  = "," ++ json.newline_indent (S level) ++
    json.encode_basestring_ascii k ++ ": " ++ json.encode (S level) y ++
    encode_more_items level d.
Proof. reflexivity. Qed.

Lemma encode_list_cons level x l :
  json.encode level (VList (x :: l))
  = "[" ++ json.newline_indent (S level) ++ json.encode (S level) x
    ++ encode_more level l.
Proof. reflexivity. Qed.

Lemma encode_dict_cons level k x d :
  json.encode level (VDict ((k, x) :: d))
  = "{" ++ json.newline_indent (S level) ++
    json.encode_basestring_ascii k ++ ": " ++ json.encode (S level) x ++
    encode_more_items level d.
Proof. reflexivity. Qed.

Lemma size_VList l : size (VList l) = S (size_list l).
Proof. reflexivity. Qed.

Lemma size_VDict d : size (VDict d) = S (size_items d).
Proof. reflexivity. Qed.

Lemma size_pos v : 1 <= size v.
Proof. destruct v; simpl; lia. Qed.

#[local] Arguments json.encode : simpl never.
#[local] Arguments json.newline_indent : simpl never.
#[local] Arguments json.scan_once : simpl never.
#[local] Arguments json.JSONArray : simpl never.
#[local] Arguments json.JSONObject : simpl never.
#[local] Arguments json.scanstring : simpl never.
#[local] Arguments json.escape : simpl never.
#[local] Arguments encode_more : simpl never.
#[local] Arguments encode_more_items : simpl never.

Lemma JSONArray_S fuel s values :
  json.JSONArray (S fuel) s values
  = match json.scan_once fuel s with
    | json.Parsed v r =>
        match json.skip_ws r with
        | "" => json.Malformed
        | String c r' =>
            if Ascii.eqb c "]" then json.Parsed (VList (values ++ [v])) r'
            else if Ascii.eqb c ","
            then json.JSONArray fuel (json.skip_ws r') (values ++ [v])
            else json.Malformed
        end
    | json.Malformed => json.Malformed
    | json.Unmodelled => json.Unmodelled
    end.
Proof. reflexivity. Qed.

Lemma JSONArray_more (level : nat) (l : list value) :
  Forall reads_back l ->
  forall (x : value) (fuel : nat) (values : list value) (rest : string),
    reads_back x ->
    S (size x) + size_list l <= fuel ->
    json.JSONArray fuel
      (json.encode (S level) x ++ encode_more level l ++ rest) values
    = json.Parsed (VList (values ++ x :: l)) rest.
Proof.
  induction 1 as [|y l Hy Hl IH]; intros x fuel values rest [_ Hx] Hfuel;
    (destruct fuel as [|fuel]; [simpl in Hfuel; lia|]);
    rewrite JSONArray_S.
  - rewrite Hx; [|simpl in Hfuel; lia|reflexivity].
    rewrite encode_more_nil, append_assoc, skip_ws_newline_indent.
    reflexivity.
  - rewrite Hx; [|simpl in Hfuel; lia|reflexivity].
    rewrite encode_more_cons. simpl.
    rewrite ?append_assoc, skip_ws_spaces.
    rewrite skip_ws_value_head by apply (proj1 Hy).
    rewrite IH; [|assumption|simpl in Hfuel |- *; lia].
    now rewrite <- app_assoc.
Qed.

Lemma JSONObject_S fuel s pairs :
  json.JSONObject (S fuel) s pairs
  = match json.scanstring s with
    | json.Parsed key r =>
        match json.skip_ws r with
        | "" => json.Malformed
        | String c r1 =>
            if Ascii.eqb c ":" then
              match json.scan_once fuel (json.skip_ws r1) with
              | json.Parsed v r2 =>
                  match json.skip_ws r2 with
                  | "" => json.Malformed
                  | String c2 r3 =>
                      if Ascii.eqb c2 "}"
                      then json.Parsed
                             (VDict (json.dict_of_pairs (pairs ++ [(key, v)])))
                             r3
                      else if Ascii.eqb c2 "," then
                        match json.skip_ws r3 with
                        | "" => json.Malformed
                        | String q r4 =>
                            if Ascii.eqb q json.dquote
                            then json.JSONObject fuel r4 (pairs ++ [(key, v)])
                            else json.Malformed
                        end
                      else json.Malformed
                  end
              | json.Malformed => json.Malformed
              | json.Unmodelled => json.Unmodelled
              end
            else json.Malformed
        end
    | json.Malformed => json.Malformed
    | json.Unmodelled => json.Unmodelled
    end.
Proof. reflexivity. Qed.

Lemma JSONObject_more (level : nat) (d : list (string * value)) :
  Forall (fun kv => key_reads_back (fst kv) /\ reads_back (snd kv)) d ->
  forall (k : string) (x : value) (fuel : nat) (pairs : list (string * value))
         (rest : string),
    key_reads_back k ->
    reads_back x ->
    S (size x) + size_items d <= fuel ->
    json.JSONObject fuel
      (item_text level k x ++ encode_more_items level d ++ rest) pairs
    = json.Parsed (VDict (json.dict_of_pairs (pairs ++ (k, x) :: d))) rest.
Proof.
  induction 1 as [|[k' y] d [Hk' Hy] Hd IH];
    intros k x fuel pairs rest Hk [Hhx Hx] Hfuel;
    (destruct fuel as [|fuel]; [simpl in Hfuel; lia|]);
    rewrite JSONObject_S; unfold item_text;
    rewrite append_assoc; simpl; rewrite Hk; simpl;
    rewrite ?append_assoc;
    rewrite skip_ws_value_head by apply Hhx.
  - rewrite Hx; [|simpl in Hfuel; lia|reflexivity].
    simpl. rewrite skip_ws_spaces. reflexivity.
  - rewrite Hx; [|simpl in Hfuel; lia|reflexivity].
    simpl. rewrite ?append_assoc, skip_ws_spaces. simpl.
    simpl in Hk', Hy.
    specialize (IH k' y fuel (pairs ++ [(k, x)])%list rest Hk' Hy).
    unfold item_text in IH. rewrite ?append_assoc in IH. simpl in IH.
    rewrite ?append_assoc. simpl.
    rewrite IH by (simpl in Hfuel |- *; lia).
    now rewrite <- app_assoc.
Qed.

(** [dict(pairs)] of pairs with distinct keys is the pairs, in order. *)
Lemma dict_set_fresh (d : dict) (k : string) (v : value) :
  existsb (String.eqb k) (map fst d) = false ->
  dict_set d k v = (d ++ [(k, v)])%list.
Proof.
  induction d as [|[k' v'] d IH]; simpl; [reflexivity|].
  intros H. apply orb_false_iff in H as [Hk H].
  rewrite String.eqb_sym, Hk, IH by assumption. reflexivity.
Qed.

Lemma existsb_app_false {A : Type} (f : A -> bool) (l l' : list A) :
  existsb f (l ++ l') = false <-> existsb f l = false /\ existsb f l' = false.
Proof. rewrite existsb_app. apply orb_false_iff. Qed.

Lemma distinct_app_cons (l l' : list string) (k : string) :
  distinct (l ++ k :: l') = true ->
  existsb (String.eqb k) l = false /\ distinct ((l ++ [k]) ++ l') = true.
Proof.
  induction l as [|a l IH]; simpl.
  - intros H. split; [reflexivity|exact H].
  - intros H. apply andb_true_iff in H as [Ha H].
    apply negb_true_iff in Ha.
    apply existsb_app_false in Ha as [Ha1 Ha2]. simpl in Ha2.
    apply orb_false_iff in Ha2 as [Hak Ha2].
    destruct (IH H) as [Hk Hd]. split.
    + rewrite String.eqb_sym, Hak. exact Hk.
    + rewrite Hd, andb_true_r. apply negb_true_iff.
      rewrite <- app_assoc. simpl. apply existsb_app_false. split; auto.
      simpl. now rewrite Hak.
Qed.

Lemma fold_dict_set_distinct (d acc : dict) :
  distinct (map fst (acc ++ d)) = true ->
  fold_left (fun d kv => dict_set d (fst kv) (snd kv)) d acc = (acc ++ d)%list.
Proof.
  revert acc. induction d as [|[k v] d IH]; intros acc H; simpl.
  - now rewrite app_nil_r.
  - rewrite map_app in H. simpl in H.
    apply distinct_app_cons in H as [Hk Hd].
    rewrite dict_set_fresh by assumption.
    rewrite IH.
    + now rewrite <- app_assoc.
    + rewrite !map_app. simpl. exact Hd.
Qed.

Lemma dict_of_pairs_distinct (d : dict) :
  distinct (map fst d) = true -> json.dict_of_pairs d = d.
Proof. intros H. exact (fold_dict_set_distinct d [] H). Qed.

(** The conditions of a list and of a dict are those of their
    members. *)
Lemma readable_list (l : list value) :
  readable (VList l) -> Forall readable l.
Proof.
  unfold readable. simpl. induction l as [|x l IH]; [constructor|].
  simpl. intros (Hu & Hw & Hp).
  apply andb_true_iff in Hu as [? ?]. apply andb_true_iff in Hw as [? ?].
  apply andb_true_iff in Hp as [? ?]. constructor; auto.
Qed.

Lemma readable_tuple (l : list value) :
  readable (VTuple l) -> Forall readable l.
Proof. exact (readable_list l). Qed.

Lemma readable_dict (d : dict) :
  readable (VDict d) ->
  distinct (map fst d) = true /\
  Forall (fun kv => key_reads_back (fst kv) /\ readable (snd kv)) d.
Proof.
  unfold readable. simpl. intros (Hu & Hw & Hp).
  apply andb_true_iff in Hu as [Hd Hu]. split; [assumption|]. clear Hd.
  induction d as [|[k x] d IH]; [constructor|].
  simpl in *.
  apply andb_true_iff in Hu as [? ?]. apply andb_true_iff in Hw as [Hkx ?].
  apply andb_true_iff in Hkx as [? ?].
  apply andb_true_iff in Hp as [Hpx ?]. apply andb_true_iff in Hpx as [? ?].
  constructor; auto. simpl. split; auto.
  intros rest. now apply scanstring_escape.
Qed.

(** The text of a value without tuples is scanned back to that value,
    whatever comes after it. *)
Lemma reads_back_native (v : value) :
  tuple_free v = true -> readable v -> reads_back v.
Proof.
  induction v as [|b|n|f|s|l IH|l IH|d IH] using value_ind;
    intros Ht Hr; split; intros level;
    try (intros rest; apply encode_head);
    intros fuel rest Hfuel Hrest;
    (destruct fuel as [|fuel]; [pose proof (size_pos); simpl in Hfuel; lia|]).
  - reflexivity.
  - destruct b; reflexivity.
  - now apply scan_once_intstr.
  - now apply scan_once_floatstr.
  - destruct Hr as (_ & Hw & Hp). simpl in Hw, Hp.
    unfold json.encode, json.encode_basestring_ascii. simpl.
    rewrite append_assoc. simpl.
    unfold json.scan_once. simpl. now rewrite scanstring_escape.
  - assert (Hall : Forall reads_back l).
    { apply readable_list in Hr. simpl in Ht. clear Hfuel.
      induction IH as [|x l Hx _ IHl]; constructor;
        simpl in Ht; apply andb_true_iff in Ht as [? ?];
        inversion Hr; subst; auto. }
    destruct l as [|x l]; [reflexivity|].
    rewrite encode_list_cons. simpl.
    rewrite ?append_assoc.
    unfold json.scan_once; fold json.scan_once; fold json.JSONArray. simpl.
    rewrite skip_ws_spaces.
    inversion Hall as [|? ? Hx Hl]; subst.
    rewrite skip_ws_value_head by apply (proj1 Hx).
    pose proof (proj1 Hx (S level) (encode_more level l ++ rest)) as Hh.
    destruct (json.encode (S level) x ++ encode_more level l ++ rest)
      as [|c r] eqn:E; [contradiction|].
    destruct Hh as [_ ->]. rewrite <- E.
    rewrite JSONArray_more; auto.
    rewrite size_VList in Hfuel. simpl in Hfuel. lia.
  - discriminate.
  - apply readable_dict in Hr as [Hd Hr].
    assert (Hall : Forall (fun kv => key_reads_back (fst kv)
                                     /\ reads_back (snd kv)) d).
    { simpl in Ht. clear Hfuel Hd.
      induction IH as [|[k x] d Hx _ IHd]; constructor;
        simpl in Ht; apply andb_true_iff in Ht as [? ?];
        inversion Hr as [|? ? [? ?] ?]; subst; auto. }
    destruct d as [|[k x] d]; [reflexivity|].
    rewrite encode_dict_cons. simpl.
    rewrite ?append_assoc.
    unfold json.scan_once; fold json.scan_once; fold json.JSONObject. simpl.
    rewrite skip_ws_spaces. unfold json.encode_basestring_ascii. simpl.
    inversion Hall as [|? ? [Hk Hx] Hl]; subst. simpl in Hk, Hx.
    pose proof (JSONObject_more level d Hl k x fuel [] rest Hk Hx) as Ho.
    unfold item_text in Ho. rewrite ?append_assoc in Ho. simpl in Ho.
    rewrite ?append_assoc. simpl. rewrite ?append_assoc.
    rewrite Ho by (rewrite size_VDict in Hfuel; simpl in Hfuel; lia). simpl.
    now rewrite dict_of_pairs_distinct.
Qed.

(** *** The length of the text bounds the nesting *)

Lemma length_append (a b : string) :
  String.length (a ++ b) = String.length a + String.length b.
Proof. induction a; simpl; auto. Qed.

Lemma value_head_length (s : string) : value_head s -> 1 <= String.length s.
Proof. destruct s; simpl; [tauto|lia]. Qed.

Lemma encode_more_fits level l :
  Forall fits l -> size_list l <= String.length (encode_more level l).
Proof.
  induction 1 as [|y l Hy _ IH]; [simpl; lia|].
  rewrite encode_more_cons. simpl size_list.
  rewrite !length_append. specialize (Hy (S level)). simpl. lia.
Qed.

Lemma encode_more_items_fits level d :
  Forall (fun kv => fits (snd kv)) d ->
  size_items d <= String.length (encode_more_items level d).
Proof.
  induction 1 as [|[k y] d Hy _ IH]; [simpl; lia|].
  rewrite encode_more_items_cons. simpl size_items.
  rewrite !length_append. specialize (Hy (S level)). simpl in *. lia.
Qed.

Lemma size_fits (v : value) : fits v.
Proof.
  induction v as [|b|n|f|s|l IH|l IH|d IH] using value_ind; intros level.
  - simpl. lia.
  - destruct b; simpl; lia.
  - pose proof (value_head_length _ (intstr_head n "")) as H.
    rewrite append_nil_r in H. exact H.
  - pose proof (value_head_length _ (floatstr_head f "")) as H.
    rewrite append_nil_r in H. exact H.
  - simpl. lia.
  - destruct l as [|x l]; [simpl; lia|].
    rewrite encode_list_cons, size_VList. inversion IH; subst.
    rewrite !length_append. simpl.
    pose proof (encode_more_fits level l H2). specialize (H1 (S level)). lia.
  - destruct l as [|x l]; [simpl; lia|].
    change (json.encode level (VTuple (x :: l)))
      with (json.encode level (VList (x :: l))).
    change (size (VTuple (x :: l))) with (size (VList (x :: l))).
    rewrite encode_list_cons, size_VList. inversion IH; subst.
    rewrite !length_append. simpl.
    pose proof (encode_more_fits level l H2). specialize (H1 (S level)). lia.
  - destruct d as [|[k x] d]; [simpl; lia|].
    rewrite encode_dict_cons, size_VDict. inversion IH; subst.
    rewrite !length_append. simpl in *.
    pose proof (encode_more_items_fits level d H2).
    specialize (H1 (S level)). lia.
Qed.

(** [loads] gives back what [dumps] was given, for a value that has no
    tuple. *)
Lemma loads_dumps (v : value) :
  tuple_free v = true -> readable v ->
  json.loads (json.dumps v) = Some (Ok v).
Proof.
  intros Ht Hr. unfold json.loads, json.dumps.
  pose proof (reads_back_native v Ht Hr) as [Hh H].
  specialize (Hh 0 ""). rewrite append_nil_r in Hh.
  rewrite skip_ws_value_head by assumption.
  specialize (H 0 (S (String.length (json.encode 0 v))) "").
  rewrite append_nil_r in H. rewrite H; [reflexivity| |reflexivity].
  pose proof (size_fits v 0). lia.
Qed.

(** *** Equality of values *)

Lemma dict_get_app_fresh (pre d : dict) (k : string) :
  existsb (String.eqb k) (map fst pre) = false ->
  dict_get (pre ++ d) k = dict_get d k.
Proof.
  induction pre as [|[k' v'] pre IH]; simpl; [reflexivity|].
  intros H. apply orb_false_iff in H as [Hk H].
  rewrite String.eqb_sym, Hk. auto.
Qed.

(** [v == v] holds for every value that holds no NaN. *)
Lemma py_eq_refl (v : value) :
  unique_keys v = true -> nan_free v = true -> py_eq v v = true.
Proof.
  induction v as [|b|n|f|s|l IH|l IH|d IH] using value_ind;
    intros Hu Hn; simpl.
  - reflexivity.
  - apply Bool.eqb_reflx.
  - apply Z.eqb_refl.
  - exact Hn.
  - apply String.eqb_refl.
  - simpl in Hu, Hn. induction IH as [|x l Hx _ IHl]; [reflexivity|].
    simpl in Hu, Hn. apply andb_true_iff in Hu as [Hx' Hl].
    apply andb_true_iff in Hn as [Hnx Hnl].
    rewrite Hx by assumption. simpl. auto.
  - simpl in Hu, Hn. induction IH as [|x l Hx _ IHl]; [reflexivity|].
    simpl in Hu, Hn. apply andb_true_iff in Hu as [Hx' Hl].
    apply andb_true_iff in Hn as [Hnx Hnl].
    rewrite Hx by assumption. simpl. auto.
  - rewrite Nat.eqb_refl. simpl.
    simpl in Hu, Hn. apply andb_true_iff in Hu as [Hd Hu].
    assert (Hgen : forall pre rest0 : dict,
               d = (pre ++ rest0)%list ->
               (fix items_eq (d0 : list (string * value)) : bool :=
                  match d0 with
                  | [] => true
                  | (k, v) :: d' =>
                      match dict_get d k with
                      | Some w => py_eq v w
                      | None => false
                      end && items_eq d'
                  end) rest0 = true).
    { intros pre rest0. revert pre.
      induction rest0 as [|[k x] rest0 IHr]; intros pre E; [reflexivity|].
      assert (Hin : In (k, x) d) by (rewrite E; apply in_elt).
      assert (Hk : existsb (String.eqb k) (map fst pre) = false).
      { rewrite E, map_app in Hd. simpl in Hd.
        now apply distinct_app_cons in Hd as [Hk _]. }
      rewrite E at 1. rewrite dict_get_app_fresh by assumption.
      simpl. rewrite String.eqb_refl.
      rewrite Forall_forall in IH. specialize (IH _ Hin). simpl in IH.
      rewrite forallb_forall in Hu. specialize (Hu _ Hin). simpl in Hu.
      rewrite forallb_forall in Hn. specialize (Hn _ Hin). simpl in Hn.
      rewrite IH by assumption. simpl.
      apply (IHr (pre ++ [(k, x)])%list). rewrite E, <- app_assoc.
      reflexivity. }
    exact (Hgen [] d eq_refl).
Qed.

(** *** The string form of a Prediction *)

(** A Prediction with a tuple among its fields: the text of its string
    form is read back with a list in place of the tuple, and a list is
    not equal to a tuple. *)
Lemma Prediction_str_tuple :
  let p := {| json_prediction :=
                [("box", VTuple [VInt 1; VInt 2]);
                 ("image_path", VStr "a.jpg");
                 ("prediction_type", VStr "ObjectDetectionModel")] |} in
  Prediction__init__ (VDict [("box", VTuple [VInt 1; VInt 2])])
    (VStr "a.jpg") (VStr "ObjectDetectionModel") = Ok p /\
  json.loads (Prediction__str__ p)
  = Some (Ok (VDict [("box", VList [VInt 1; VInt 2]);
                     ("image_path", VStr "a.jpg");
                     ("prediction_type", VStr "ObjectDetectionModel")])) /\
  py_eq (VDict [("box", VList [VInt 1; VInt 2]);
                ("image_path", VStr "a.jpg");
                ("prediction_type", VStr "ObjectDetectionModel")])
    (VDict (Prediction_json p)) = false.
Proof. repeat split; vm_compute; reflexivity. Qed.

(** A Prediction with a NaN among its fields: the text of its string
    form is read back with a NaN in the same place, and a NaN is not
    equal to a NaN. *)
Lemma Prediction_str_nan :
  let p := {| json_prediction :=
                [("confidence", VFloat nan);
                 ("image_path", VStr "a.jpg");
                 ("prediction_type", VStr "ClassificationModel")] |} in
  Prediction__init__ (VDict [("confidence", VFloat nan)])
    (VStr "a.jpg") (VStr "ClassificationModel") = Ok p /\
  json.loads (Prediction__str__ p)
  = Some (Ok (VDict [("confidence", VFloat nan);
                     ("image_path", VStr "a.jpg");
                     ("prediction_type", VStr "ClassificationModel")])) /\
  py_eq (VDict [("confidence", VFloat nan);
                ("image_path", VStr "a.jpg");
                ("prediction_type", VStr "ClassificationModel")])
    (VDict (Prediction_json p)) = false.
Proof. repeat split; vm_compute; reflexivity. Qed.

(** A Prediction with a str of two characters, a high surrogate and a
    low surrogate: the escapes of the two are read back as the one
    character that the pair stands for. *)
Lemma Prediction_str_surrogates :
  let p := {| json_prediction :=
                [("top", VStr (text [55357; 56832]%N));
                 ("image_path", VStr "a.jpg");
                 ("prediction_type", VStr "ClassificationModel")] |} in
  Prediction__init__ (VDict [("top", VStr (text [55357; 56832]%N))])
    (VStr "a.jpg") (VStr "ClassificationModel") = Ok p /\
  json.loads (Prediction__str__ p)
  = Some (Ok (VDict [("top", VStr (text [128512]%N));
                     ("image_path", VStr "a.jpg");
                     ("prediction_type", VStr "ClassificationModel")])) /\
  py_eq (VDict [("top", VStr (text [128512]%N));
                ("image_path", VStr "a.jpg");
                ("prediction_type", VStr "ClassificationModel")])
    (VDict (Prediction_json p)) = false.
Proof. repeat split; vm_compute; reflexivity. Qed.

(** C8. The three ways in which the text of a JSON-serializable
    Prediction is read back to a mapping that is not equal to
    [p.json()]: a tuple comes back as a list, a NaN comes back as a NaN,
    which equals nothing, and a high surrogate followed by a low one
    comes back as one character. *)
Lemma Prediction_str_unequal :
  let with_tuple :=
    {| json_prediction :=
         [("box", VTuple [VInt 1; VInt 2]); ("image_path", VStr "a.jpg");
          ("prediction_type", VStr "ObjectDetectionModel")] |} in
  let with_nan :=
    {| json_prediction :=
         [("confidence", VFloat nan); ("image_path", VStr "a.jpg");
          ("prediction_type", VStr "ClassificationModel")] |} in
  let with_pair :=
    {| json_prediction :=
         [("top", VStr (text [55357; 56832]%N)); ("image_path", VStr "a.jpg");
          ("prediction_type", VStr "ClassificationModel")] |} in
  (exists v,
      json.loads (Prediction__str__ with_tuple) = Some (Ok v) /\
      py_eq v (VDict (Prediction_json with_tuple)) = false) /\
  (exists v,
      json.loads (Prediction__str__ with_nan) = Some (Ok v) /\
      py_eq v (VDict (Prediction_json with_nan)) = false) /\
  (exists v,
      json.loads (Prediction__str__ with_pair) = Some (Ok v) /\
      py_eq v (VDict (Prediction_json with_pair)) = false).
Proof.
  intros with_tuple with_nan with_pair. split; [|split].
  - destruct Prediction_str_tuple as (_ & H1 & H2).
    eexists. split; [exact H1|exact H2].
  - destruct Prediction_str_nan as (_ & H1 & H2).
    eexists. split; [exact H1|exact H2].
  - destruct Prediction_str_surrogates as (_ & H1 & H2).
    eexists. split; [exact H1|exact H2].
Qed.

(** C8, as the code has it.  Take a Prediction whose field mapping
    holds None, booleans, integers, floats, strs, lists and dicts with
    str keys, at any depth (the two invariants of the representation
    say that a dict has a key once and that a str is a str), and which
    holds no tuple, no NaN, and no str with a high surrogate followed by
    a low one.  Then the text of its string form is JSON that
    [json.loads] reads back to a mapping equal to [p.json()]. *)
Theorem Prediction_str_roundtrip (p : Prediction) :
  unique_keys (VDict (Prediction_json p)) = true ->
  well_formed_strs (VDict (Prediction_json p)) = true ->
  tuple_free (VDict (Prediction_json p)) = true ->
  nan_free (VDict (Prediction_json p)) = true ->
  pair_free_strs (VDict (Prediction_json p)) = true ->
  exists v : value,
    json.loads (Prediction__str__ p) = Some (Ok v) /\
    py_eq v (VDict (Prediction_json p)) = true.
Proof.
  intros Hu Hw Ht Hn Hp. exists (VDict (Prediction_json p)). split.
  - unfold Prediction__str__. apply loads_dumps; [assumption|].
    repeat split; assumption.
  - now apply py_eq_refl.
Qed.

Lemma Prediction_str_roundtrip_witness :
  let p := {| json_prediction :=
                [("x", VFloat 10.5); ("y", VFloat (-3.25));
                 ("width", VFloat 0x1.999999999999ap-4);
                 ("height", VInt 6);
                 ("confidence", VFloat 0x1.bd70a3d70a3d7p-1);
                 ("class", VStr (text [99; 97; 102; 233; 32; 128512]%N));
                 ("points", VList [VDict [("x", VFloat 1e22)]; VNone;
                                   VBool true; VFloat infinity]);
                 ("image_path", VStr "img.jpg");
                 ("prediction_type", VStr "ObjectDetectionModel")] |} in
  exists v : value,
    json.loads (Prediction__str__ p) = Some (Ok v) /\
    py_eq v (VDict (Prediction_json p)) = true.
Proof.
  intros p. apply (Prediction_str_roundtrip p); reflexivity.
Defined.

(** * Further properties of the code *)

(** ** What __exception_check does to the state *)

Ltac break_match :=
  match goal with
  | |- context [match ?x with _ => _ end] =>
      lazymatch x with
      | context [match _ with _ => _ end] => fail
      | _ => destruct x eqn:?
      end
  end.

Ltac break_match_hyp H :=
  match type of H with
  | context [match ?x with _ => _ end] =>
      lazymatch x with
      | context [match _ with _ => _ end] => fail
      | _ => destruct x eqn:?
      end
  end.

(** [__exception_check] leaves the object alone and adds at most one
    warning per comparison it is asked for. *)
Lemma exception_check_effect o ip pt st :
  exists ws,
    snd (PredictionGroup__exception_check o ip pt st)
    = {| self := self st; warned := (warned st ++ ws)%list |} /\
    length ws <= (if is_None pt then 0 else 1) + (if is_None ip then 0 else 1).
Proof.
  unfold PredictionGroup__exception_check. run.
  destruct st as [g w]; simpl.
  destruct o as [[]|]; simpl;
    destruct (is_None pt); destruct (is_None ip); simpl;
    repeat match goal with
    | |- context [if ?b then _ else _] => destruct b; simpl
    | |- context [str_add ?s ?v] => destruct (str_add s v); simpl
    end;
    first [ exists []; rewrite app_nil_r; split; [reflexivity|simpl; lia]
          | eexists [_]; split; [reflexivity|simpl; lia]
          | eexists [_; _]; rewrite <- app_assoc; split;
            [reflexivity|simpl; lia] ].
Qed.

(** ** add_prediction, when it returns *)

Lemma add_prediction_effect (o : pyobj) (st st' : state) :
  PredictionGroup_add_prediction o st = (Ok tt, st') ->
  exists p : Prediction,
    o = OPrediction p /\
    predictions (self st') = (predictions (self st) ++ [o])%list /\
    base_prediction_type (self st') = base_prediction_type (self st) /\
    (predictions (self st) <> [] ->
     base_image_path (self st') = base_image_path (self st)) /\
    (predictions (self st) = [] ->
     Prediction__getitem__ p "image_path" = Ok (base_image_path (self st'))) /\
    exists ws, warned st' = (warned st ++ ws)%list /\ length ws <= 2.
Proof.
  unfold PredictionGroup_add_prediction, predictions_append,
    set_base_image_path.
  unfold bind at 1. unfold lift at 1.
  destruct (getitem_str o "prediction_type") as [t|e1] eqn:Et; [|discriminate].
  destruct o as [v|p].
  { (* a plain value: the type test raises *)
    destruct v; discriminate. }
  intros H. exists p. split; [reflexivity|].
  unfold bind at 1 in H.
  destruct (exception_check_effect (OPrediction p) VNone t st)
    as (ws1 & E1 & L1).
  destruct (PredictionGroup__exception_check (OPrediction p) VNone t st)
    as [[[]|e1] st1] eqn:Ec; simpl in E1; [|discriminate].
  assert (L1' : length ws1 <= 1) by (destruct (is_None t); simpl in L1; lia).
  subst st1. revert H. run. cbn [self warned].
  unfold PredictionGroup__len__.
  destruct (predictions (self st)) as [|o0 ps] eqn:Eps;
    cbn [length Nat.ltb Nat.leb Nat.eqb].
  - (* the group was empty *)
    simpl. unfold Prediction__getitem__.
    destruct (dict_get (json_prediction p) "image_path") as [ip|] eqn:Eip;
      simpl; [|discriminate].
    intros [= <-]. simpl. rewrite Eps. repeat split; try congruence.
    exists ws1. split; [reflexivity|lia].
  - simpl. unfold Prediction__getitem__.
    destruct (dict_get (json_prediction p) "image_path") as [ip|] eqn:Eip;
      simpl; [|discriminate].
    destruct (exception_check_effect (OVal VNone) ip VNone
                {| self := self st; warned := (warned st ++ ws1)%list |})
      as (ws2 & E2 & L2).
    destruct (PredictionGroup__exception_check (OVal VNone) ip VNone _)
      as [[[]|e1] st2] eqn:Ec2; simpl in E2; [|discriminate].
    assert (L2' : length ws2 <= 1)
      by (destruct (is_None ip); simpl in L2; lia).
    subst st2. intros [= <-]. simpl. rewrite Eps.
    repeat split; try congruence.
    exists (ws1 ++ ws2)%list. rewrite app_assoc. split; [reflexivity|].
    rewrite length_app. lia.
Qed.

(** X1. When [g.add_prediction(o)] returns, [o] is a Prediction and is
    the new last member; [base_prediction_type] is what it was; the
    [base_image_path] of a group that had members is what it was, and
    that of a group that had none is the image path of [o]; the warnings
    emitted before are still there, followed by at most two new ones. *)
Theorem add_prediction_returns (o : pyobj) (st st' : state) :
  PredictionGroup_add_prediction o st = (Ok tt, st') ->
  exists p : Prediction,
    o = OPrediction p /\
    predictions (self st') = (predictions (self st) ++ [o])%list /\
    base_prediction_type (self st') = base_prediction_type (self st) /\
    (predictions (self st) <> [] ->
     base_image_path (self st') = base_image_path (self st)) /\
    (predictions (self st) = [] ->
     Prediction__getitem__ p "image_path" = Ok (base_image_path (self st'))) /\
    exists ws, warned st' = (warned st ++ ws)%list /\ length ws <= 2.
Proof. exact (add_prediction_effect o st st'). Qed.

Lemma add_prediction_returns_witness :
  let p := {| json_prediction :=
                [("image_path", VStr "a.jpg");
                 ("prediction_type", VStr "ObjectDetectionModel")] |} in
  let st := {| self := empty_group; warned := [] |} in
  exists st',
    PredictionGroup_add_prediction (OPrediction p) st = (Ok tt, st') /\
    predictions (self st') = [OPrediction p].
Proof.
  intros p st. eexists. split; [reflexivity|].
  destruct (add_prediction_returns (OPrediction p) st _ eq_refl)
    as (_ & _ & H & _).
  exact H.
Defined.

(** ** The constructor, when it returns *)

Lemma init_step_returns index o st st' :
  PredictionGroup__init__step index o st = (Ok tt, st') ->
  is_prediction_or_None o = true /\
  warned st' = warned st /\
  predictions (self st') = (predictions (self st) ++ [o])%list /\
  (index = 0 ->
   exists p, o = OPrediction p /\
     Prediction__getitem__ p "image_path" = Ok (base_image_path (self st')) /\
     Prediction__getitem__ p "prediction_type"
     = Ok (base_prediction_type (self st'))) /\
  (index <> 0 ->
   base_image_path (self st') = base_image_path (self st) /\
   base_prediction_type (self st') = base_prediction_type (self st)).
Proof.
  unfold PredictionGroup__init__step, predictions_append,
    set_base_image_path, set_base_prediction_type.
  destruct st as [g w]. destruct index as [|index]; run; simpl.
  - destruct o as [v|p]; simpl.
    + destruct v; try discriminate.
      destruct (dict_get d "image_path"); simpl; [|discriminate].
      destruct (dict_get d "prediction_type"); simpl; discriminate.
    + unfold Prediction__getitem__.
      destruct (dict_get (json_prediction p) "image_path") as [ip|] eqn:Eip;
        simpl; [|discriminate].
      destruct (dict_get (json_prediction p) "prediction_type") as [t|] eqn:Et;
        simpl; [|discriminate].
      intros [= <-]. simpl. repeat split; try congruence.
      intros _. exists p. rewrite Eip, Et. auto.
  - destruct o as [[]|p]; simpl; try discriminate;
      intros [= <-]; simpl; repeat split; congruence.
Qed.

Lemma init_loop_returns args : forall index st st',
  PredictionGroup__init__loop (S index) args st = (Ok tt, st') ->
  forallb is_prediction_or_None args = true /\
  warned st' = warned st /\
  predictions (self st') = (predictions (self st) ++ args)%list /\
  base_image_path (self st') = base_image_path (self st) /\
  base_prediction_type (self st') = base_prediction_type (self st).
Proof.
  induction args as [|o args IH]; intros index st st'; simpl.
  - intros [= <-]. rewrite app_nil_r. auto.
  - unfold bind at 1.
    destruct (PredictionGroup__init__step (S index) o st)
      as [[[]|e] st1] eqn:Es; [|discriminate].
    intros Hl. apply init_step_returns in Es as (Ho & Hw & Hp & _ & Hb).
    destruct (Hb ltac:(discriminate)) as [Hb1 Hb2].
    apply IH in Hl as (Hall & Hw' & Hp' & Hb1' & Hb2').
    rewrite Ho, Hall, Hw', Hw, Hp', Hp, Hb1', Hb1, Hb2', Hb2, <- app_assoc.
    auto.
Qed.

(** X2. When the constructor returns, the members of the group are its
    arguments, in order; each is a Prediction or None and the first is a
    Prediction, whose [image_path] and [prediction_type] are the base
    attributes; without arguments these are the defaults; and nothing
    was warned. *)
Theorem PredictionGroup_new_returns (args : list pyobj) (w w' : list string)
    (g : PredictionGroup) :
  PredictionGroup_new args w = (Ok g, w') ->
  predictions g = args /\
  w' = w /\
  forallb is_prediction_or_None args = true /\
  match args with
  | [] => g = empty_group
  | a :: _ =>
      exists p, a = OPrediction p /\
        Prediction__getitem__ p "image_path" = Ok (base_image_path g) /\
        Prediction__getitem__ p "prediction_type"
        = Ok (base_prediction_type g)
  end.
Proof.
  unfold PredictionGroup_new, PredictionGroup__init__. unfold bind at 1.
  simpl.
  destruct args as [|a args]; simpl.
  - intros [= <- <-]. auto.
  - unfold bind at 1.
    destruct (PredictionGroup__init__step 0 a _) as [[[]|e] st1] eqn:Es.
    + apply init_step_returns in Es as (Ha & Hw & Hp & H0 & _).
      destruct (H0 eq_refl) as (p & -> & Hip & Ht).
      destruct (PredictionGroup__init__loop 1 args st1)
        as [[[]|e] st2] eqn:El; [|intros [=]].
      apply init_loop_returns in El as (Hall & Hw' & Hp' & Hb1 & Hb2).
      intros [= <- <-]. simpl in *.
      rewrite Hp', Hp, Hw', Hw, Hall, Hb1, Hb2. split; [reflexivity|]. split; [reflexivity|].
      split; [reflexivity|]. exists p. auto.
    + intros [=].
Qed.

Lemma PredictionGroup_new_returns_witness :
  let p := {| json_prediction :=
                [("image_path", VStr "a.jpg");
                 ("prediction_type", VStr "ObjectDetectionModel")] |} in
  exists g,
    PredictionGroup_new [OPrediction p; OPrediction p] [] = (Ok g, []) /\
    predictions g = [OPrediction p; OPrediction p].
Proof.
  intros p. eexists. split; [reflexivity|].
  exact (proj1 (PredictionGroup_new_returns [OPrediction p; OPrediction p]
                  [] [] _ eq_refl)).
Defined.

(** ** The warnings of add_prediction *)

Lemma add_prediction_differences (g : PredictionGroup) (p : Prediction)
    (t bt ip bp : string) (w : list string) :
  predictions g <> [] ->
  dict_get (json_prediction p) "prediction_type" = Some (VStr t) ->
  dict_get (json_prediction p) "image_path" = Some (VStr ip) ->
  base_prediction_type g = VStr bt ->
  base_image_path g = VStr bp ->
  PredictionGroup_add_prediction (OPrediction p) {| self := g; warned := w |}
  = (Ok tt,
     {| self := {| predictions := predictions g ++ [OPrediction p];
                   base_image_path := VStr bp;
                   base_prediction_type := VStr bt |};
        warned := w ++ (if String.eqb t bt then [] else [type_warning t bt])
                    ++ (if String.eqb bp ip then []
                        else [image_path_warning ip bp]) |})%list.
Proof.
  intros Hne Ht Hp Hbt Hbp.
  destruct g as [ps gp gt]; simpl in *. subst gp gt.
  destruct ps as [|o ps]; [congruence|].
  unfold PredictionGroup_add_prediction, PredictionGroup__exception_check,
    predictions_append.
  run. unfold getitem_str, Prediction__getitem__. rewrite Ht, Hp. simpl.
  unfold py_ne; simpl. unfold type_warning, image_path_warning.
  destruct (String.eqb t bt); simpl;
    destruct (String.eqb bp ip); simpl;
    rewrite <- ?app_assoc, ?app_nil_r; simpl; rewrite ?append_assoc;
    reflexivity.
Qed.

(** X3. A value that is not a Prediction is never added, and the group
    and the warnings stay as they were.  The message of the type check
    is only reached by a mapping that holds the key ['prediction_type']:
    a mapping without it ends in KeyError, and any other value in the
    TypeError of the subscript, before the type is looked at. *)
Theorem add_prediction_not_Prediction (v : value) (st : state) :
  PredictionGroup_add_prediction (OVal v) st
  = (Raise match v with
           | VDict d =>
               if dict_has d "prediction_type"
               then Exception_ "Cannot add type dict to PredictionGroup"
               else KeyError "prediction_type"
           | _ => TypeError
           end, st).
Proof.
  unfold PredictionGroup_add_prediction, dict_has. run.
  destruct v; simpl; try reflexivity.
  destruct (dict_get d "prediction_type"); reflexivity.
Qed.

(** X4. On a group that has members, with tags and base attributes that
    are strings, [add_prediction] appends the Prediction and warns
    exactly of what differs: of the type when it is not
    [base_prediction_type], then of the image path when it is not
    [base_image_path]; a Prediction that agrees on both is added
    silently. *)
Theorem add_prediction_warnings (g : PredictionGroup) (p : Prediction)
    (t bt ip bp : string) (w : list string) :
  predictions g <> [] ->
  dict_get (json_prediction p) "prediction_type" = Some (VStr t) ->
  dict_get (json_prediction p) "image_path" = Some (VStr ip) ->
  base_prediction_type g = VStr bt ->
  base_image_path g = VStr bp ->
  PredictionGroup_add_prediction (OPrediction p) {| self := g; warned := w |}
  = (Ok tt,
     {| self := {| predictions := predictions g ++ [OPrediction p];
                   base_image_path := VStr bp;
                   base_prediction_type := VStr bt |};
        warned := w ++ (if String.eqb t bt then [] else [type_warning t bt])
                    ++ (if String.eqb bp ip then []
                        else [image_path_warning ip bp]) |})%list.
Proof. exact (add_prediction_differences g p t bt ip bp w). Qed.

Lemma add_prediction_warnings_witness :
  let p := {| json_prediction :=
                [("image_path", VStr "a.jpg");
                 ("prediction_type", VStr "ObjectDetectionModel")] |} in
  let g := {| predictions := [OPrediction p];
              base_image_path := VStr "a.jpg";
              base_prediction_type := VStr "ObjectDetectionModel" |} in
  PredictionGroup_add_prediction (OPrediction p) {| self := g; warned := [] |}
  = (Ok tt,
     {| self := {| predictions := [OPrediction p; OPrediction p];
                   base_image_path := VStr "a.jpg";
                   base_prediction_type := VStr "ObjectDetectionModel" |};
        warned := [] |}).
Proof.
  intros p g.
  refine (add_prediction_warnings g p "ObjectDetectionModel"
            "ObjectDetectionModel" "a.jpg" "a.jpg" [] _ eq_refl eq_refl
            eq_refl eq_refl).
  discriminate.
Defined.

(** X5. A group that starts empty and is filled by [add_prediction]
    keeps [''] as its base type, so that the second Prediction added is
    warned about, even when it has the type and the image of the
    first. *)
Theorem add_prediction_twice_from_empty (p1 p2 : Prediction) (t ip : string)
    (w : list string) :
  dict_get (json_prediction p1) "prediction_type" = Some (VStr t) ->
  dict_get (json_prediction p1) "image_path" = Some (VStr ip) ->
  dict_get (json_prediction p2) "prediction_type" = Some (VStr t) ->
  dict_get (json_prediction p2) "image_path" = Some (VStr ip) ->
  t <> "" ->
  (PredictionGroup_add_prediction (OPrediction p1) ;;
   PredictionGroup_add_prediction (OPrediction p2))
    {| self := empty_group; warned := w |}
  = (Ok tt,
     {| self := {| predictions := [OPrediction p1; OPrediction p2];
                   base_image_path := VStr ip;
                   base_prediction_type := VStr "" |};
        warned := (w ++ [type_warning t ""])%list |}).
Proof.
  intros Ht1 Hp1 Ht2 Hp2 Hne. unfold bind.
  rewrite (add_prediction_empty p1 (VStr t) (VStr ip) empty_group w
             eq_refl Ht1 Hp1).
  rewrite (add_prediction_differences _ p2 t "" ip ip w) by
    (simpl; solve [discriminate | assumption | reflexivity]).
  simpl. destruct (String.eqb_spec t "") as [|_]; [contradiction|].
  rewrite String.eqb_refl. simpl. rewrite ?app_nil_r. reflexivity.
Qed.

Lemma add_prediction_twice_from_empty_witness :
  let p := {| json_prediction :=
                [("image_path", VStr "a.jpg");
                 ("prediction_type", VStr "ObjectDetectionModel")] |} in
  warned (snd ((PredictionGroup_add_prediction (OPrediction p) ;;
                PredictionGroup_add_prediction (OPrediction p))
                 {| self := empty_group; warned := [] |}))
  = [type_warning "ObjectDetectionModel" ""].
Proof.
  intros p.
  rewrite (add_prediction_twice_from_empty p p "ObjectDetectionModel" "a.jpg"
             [] eq_refl eq_refl eq_refl eq_refl ltac:(discriminate)).
  reflexivity.
Defined.

(** X6. None as a tag is taken for a check that was not asked for: on a
    group that has members, whatever its base attributes, a Prediction
    whose [prediction_type] and [image_path] are both None is appended
    without any warning. *)
Theorem add_prediction_None_tags (g : PredictionGroup) (p : Prediction)
    (w : list string) :
  predictions g <> [] ->
  dict_get (json_prediction p) "prediction_type" = Some VNone ->
  dict_get (json_prediction p) "image_path" = Some VNone ->
  PredictionGroup_add_prediction (OPrediction p) {| self := g; warned := w |}
  = (Ok tt,
     {| self := {| predictions := predictions g ++ [OPrediction p];
                   base_image_path := base_image_path g;
                   base_prediction_type := base_prediction_type g |};
        warned := w |})%list.
Proof.
  intros Hne Ht Hp.
  destruct g as [ps gp gt]; simpl in *.
  destruct ps as [|o ps]; [congruence|].
  unfold PredictionGroup_add_prediction, PredictionGroup__exception_check,
    predictions_append.
  run. unfold getitem_str, Prediction__getitem__. rewrite Ht, Hp.
  reflexivity.
Qed.

Lemma add_prediction_None_tags_witness :
  let p0 := {| json_prediction :=
                 [("image_path", VStr "a.jpg");
                  ("prediction_type", VStr "ObjectDetectionModel")] |} in
  let p := {| json_prediction :=
                [("image_path", VNone); ("prediction_type", VNone)] |} in
  let g := {| predictions := [OPrediction p0];
              base_image_path := VStr "a.jpg";
              base_prediction_type := VStr "ObjectDetectionModel" |} in
  warned (snd (PredictionGroup_add_prediction (OPrediction p)
                 {| self := g; warned := [] |})) = [].
Proof.
  intros p0 p g.
  rewrite (add_prediction_None_tags g p [] ltac:(discriminate)
             eq_refl eq_refl).
  reflexivity.
Defined.

(** X7. On a group that has members, a Prediction whose
    [prediction_type] is neither None nor a string and differs from
    [base_prediction_type] cannot be added: building the warning raises
    TypeError, and the group and the warnings are as before. *)
Theorem add_prediction_type_not_str (g : PredictionGroup) (p : Prediction)
    (t : value) (w : list string) :
  predictions g <> [] ->
  dict_get (json_prediction p) "prediction_type" = Some t ->
  is_None t = false ->
  (forall s, t <> VStr s) ->
  py_ne t (base_prediction_type g) = true ->
  PredictionGroup_add_prediction (OPrediction p) {| self := g; warned := w |}
  = (Raise TypeError, {| self := g; warned := w |}).
Proof.
  intros Hne Ht Hn Hs Hd.
  destruct g as [ps gp gt]; simpl in *.
  destruct ps as [|o ps]; [congruence|].
  unfold PredictionGroup_add_prediction, PredictionGroup__exception_check.
  run. unfold getitem_str, Prediction__getitem__. rewrite Ht. simpl.
  rewrite Hn. simpl. rewrite Hd.
  destruct t; try reflexivity. now destruct (Hs s).
Qed.

Lemma add_prediction_type_not_str_witness :
  let p0 := {| json_prediction :=
                 [("image_path", VStr "a.jpg");
                  ("prediction_type", VStr "ObjectDetectionModel")] |} in
  let p := {| json_prediction :=
                [("image_path", VStr "a.jpg"); ("prediction_type", VInt 1)] |} in
  let g := {| predictions := [OPrediction p0];
              base_image_path := VStr "a.jpg";
              base_prediction_type := VStr "ObjectDetectionModel" |} in
  PredictionGroup_add_prediction (OPrediction p) {| self := g; warned := [] |}
  = (Raise TypeError, {| self := g; warned := [] |}).
Proof.
  intros p0 p g.
  refine (add_prediction_type_not_str g p (VInt 1) [] _ eq_refl eq_refl _
            eq_refl); discriminate.
Defined.

(** ** Indexing and iterating *)

Lemma list_getitem_out {A : Type} (l : list A) :
  list_getitem l (VInt (Z.of_nat (length l))) = Raise IndexError.
Proof.
  unfold list_getitem.
  destruct (Z.ltb_spec (Z.of_nat (length l)) 0); [lia|].
  destruct (Z.ltb_spec (Z.of_nat (length l)) 0); [lia|].
  destruct (Z.leb_spec (Z.of_nat (length l)) (Z.of_nat (length l))); [|lia].
  reflexivity.
Qed.

Lemma list_getitem_last {A : Type} (l : list A) (x : A) :
  list_getitem (l ++ [x]) (VInt (-1)) = Ok x.
Proof.
  unfold list_getitem. rewrite length_app. cbv zeta.
  change (-1 <? 0)%Z with true. cbv iota.
  change (length [x]) with 1.
  remember (-1 + Z.of_nat (length l + 1))%Z as j eqn:Ej.
  assert (Hj : j = Z.of_nat (length l)) by lia.
  destruct (Z.ltb_spec j 0); [lia|].
  destruct (Z.leb_spec (Z.of_nat (length l + 1)) j); [lia|]. cbv [orb].
  rewrite Hj, Nat2Z.id, nth_error_app2, Nat.sub_diag by lia. reflexivity.
Qed.

Lemma list_getitem_app {A : Type} (l : list A) (x y : A) (i : Z) :
  (0 <= i)%Z ->
  list_getitem l (VInt i) = Ok y ->
  list_getitem (l ++ [x]) (VInt i) = Ok y.
Proof.
  unfold list_getitem. intros Hi. rewrite length_app.
  change (length [x]) with 1. cbv zeta.
  rewrite !(proj2 (Z.ltb_ge i 0) Hi). cbv [orb].
  destruct (Z.leb_spec (Z.of_nat (length l)) i); [discriminate|].
  destruct (Z.leb_spec (Z.of_nat (length l + 1)) i); [lia|].
  rewrite nth_error_app1 by lia. auto.
Qed.

(** X8. After [g.add_prediction(o)] has returned, the length is one
    more, [o] is the member at the old length and at index [-1], and
    every index from 0 on that gave a member before gives the same
    member. *)
Theorem add_prediction_getitem (o : pyobj) (st st' : state) :
  PredictionGroup_add_prediction o st = (Ok tt, st') ->
  PredictionGroup__len__ (self st') = S (PredictionGroup__len__ (self st)) /\
  PredictionGroup__getitem__ (self st')
    (VInt (Z.of_nat (PredictionGroup__len__ (self st)))) = Ok o /\
  PredictionGroup__getitem__ (self st') (VInt (-1)) = Ok o /\
  forall (i : Z) (x : pyobj),
    (0 <= i)%Z ->
    PredictionGroup__getitem__ (self st) (VInt i) = Ok x ->
    PredictionGroup__getitem__ (self st') (VInt i) = Ok x.
Proof.
  intros H. apply add_prediction_effect in H as (p & -> & Hp & _).
  unfold PredictionGroup__len__, PredictionGroup__getitem__. rewrite Hp.
  split; [rewrite length_app; simpl; lia|]. split; [|split].
  - apply list_getitem_nth. rewrite nth_error_app2, Nat.sub_diag by lia.
    reflexivity.
  - apply list_getitem_last.
  - intros i x Hi Hx. now apply list_getitem_app.
Qed.

Lemma add_prediction_getitem_witness :
  let p := {| json_prediction :=
                [("image_path", VStr "a.jpg");
                 ("prediction_type", VStr "ObjectDetectionModel")] |} in
  let st := {| self := empty_group; warned := [] |} in
  PredictionGroup__getitem__
    (self (snd (PredictionGroup_add_prediction (OPrediction p) st)))
    (VInt (-1)) = Ok (OPrediction p).
Proof.
  intros p st.
  exact (proj1 (proj2 (proj2
           (add_prediction_getitem (OPrediction p) st _ eq_refl)))).
Defined.

Lemma iter_getitem_skipn (g : PredictionGroup) (n : nat) :
  forall (i fuel : nat),
    i + n = length (predictions g) -> n < fuel ->
    iter_getitem fuel g i = Some (Ok (skipn i (predictions g))).
Proof.
  induction n as [|n IH]; intros i fuel Hi Hf;
    (destruct fuel as [|fuel]; [lia|]); cbn [iter_getitem];
    unfold PredictionGroup__getitem__.
  - assert (Hi' : i = length (predictions g)) by lia. subst i.
    rewrite list_getitem_out, skipn_all. reflexivity.
  - destruct (nth_error (predictions g) i) as [x|] eqn:E.
    + rewrite (list_getitem_nth _ _ _ E), IH by lia.
      f_equal. f_equal.
      rewrite <- (firstn_skipn i (predictions g)) in E.
      rewrite nth_error_app2 in E by (rewrite length_firstn; lia).
      rewrite length_firstn, Nat.min_l, Nat.sub_diag in E by lia.
      destruct (skipn i (predictions g)) as [|y l] eqn:Es; [discriminate|].
      simpl in E. injection E as ->.
      change (S i) with (1 + i). rewrite <- skipn_skipn, Es. reflexivity.
    + apply nth_error_None in E. lia.
Qed.

(** X9. Iterating a group, which goes by indexing from 0 until
    IndexError, yields its members, all of them and in order. *)
Theorem PredictionGroup_iter_members (g : PredictionGroup) :
  PredictionGroup_iter g = Some (Ok (predictions g)).
Proof.
  unfold PredictionGroup_iter, PredictionGroup__len__.
  now rewrite (iter_getitem_skipn g (length (predictions g)) 0) by lia.
Qed.

(** ** The string form of any Prediction *)













(** ** What the constructor of Prediction leaves alone *)

Lemma dict_set_keys {A : Type} (d : list (string * A)) (k : string) (v : A) :
  map fst (dict_set d k v)
  = (map fst d ++ (if dict_has d k then [] else [k]))%list.
Proof.
  unfold dict_has. induction d as [|[k' v'] d IH]; simpl; [reflexivity|].
  destruct (String.eqb k' k); simpl.
  - now rewrite app_nil_r.
  - now rewrite IH.
Qed.

(** X12. The constructor of Prediction changes nothing but the two tags:
    any other key reads as in the mapping given (KeyError when it is not
    there), the keys keep their order, and a tag that the mapping did
    not have is added after them, [image_path] before
    [prediction_type]. *)
Theorem Prediction_init_frame (fields : dict)
    (image_path prediction_type : value) :
  exists p : Prediction,
    Prediction__init__ (VDict fields) image_path prediction_type = Ok p /\
    (forall k, k <> "image_path" -> k <> "prediction_type" ->
       Prediction__getitem__ p k
       = match dict_get fields k with
         | Some v => Ok v
         | None => Raise (KeyError k)
         end) /\
    map fst (Prediction_json p)
    = (map fst fields
       ++ (if dict_has fields "image_path" then [] else ["image_path"])
       ++ (if dict_has fields "prediction_type" then []
           else ["prediction_type"]))%list.
Proof.
  eexists. split; [reflexivity|]. split.
  - intros k H1 H2. unfold Prediction__getitem__; simpl.
    rewrite !dict_get_set_other by congruence. reflexivity.
  - unfold Prediction_json; simpl. rewrite !dict_set_keys, <- app_assoc.
    f_equal. f_equal. unfold dict_has.
    rewrite dict_get_set_other by discriminate. reflexivity.
Qed.

(** X13. [save] on a Prediction made by the constructor returns, whatever
    the mapping, the tags and the two discriminants are. *)
Theorem Prediction_save_after_init (OD CLS : string) (fields : dict)
    (image_path prediction_type path : value) :
  exists p : Prediction,
    Prediction__init__ (VDict fields) image_path prediction_type = Ok p /\
    Prediction_save OD CLS p path = Ok tt.
Proof.
  eexists. split; [reflexivity|].
  apply Prediction_save_returns with (t := prediction_type).
  simpl. apply dict_get_set_same.
Qed.

(** ** plot_annotation: what it adds and how it fails *)

Lemma plot_annotation_appends (OD CLS : string) (number : Type)
    (truediv : value -> value -> result number)
    (sub : value -> number -> result number)
    (axes : Axes number) (prediction : pyobj) (stroke : value) :
  plot_annotation OD CLS number truediv sub axes prediction stroke
  = match plot_annotation OD CLS number truediv sub [] prediction stroke with
    | Ok new => Ok (axes ++ new)%list
    | Raise e => Raise e
    end /\
  forall new,
    plot_annotation OD CLS number truediv sub [] prediction stroke = Ok new ->
    length new <= 1.
Proof.
  unfold plot_annotation, rbind. split.
  - repeat (break_match; try reflexivity; try congruence);
      rewrite ?app_nil_r; try reflexivity.
  - intros new.
    repeat (break_match; try discriminate);
      intros [= <-]; simpl; lia.
Qed.


(** X15. An object-detection prediction that lacks one of the fields
    [height], [width], [x], [y] gets no rectangle: [plot_annotation]
    raises KeyError for the first that is missing, in this order. *)
Theorem plot_annotation_missing_field (OD CLS : string) (number : Type)
    (truediv : value -> value -> result number)
    (sub : value -> number -> result number)
    (axes : Axes number) (p : Prediction) (stroke : value) (k : string) :
  dict_get (json_prediction p) "prediction_type" = Some (VStr OD) ->
  find (fun k => negb (dict_has (json_prediction p) k))
    ["height"; "width"; "x"; "y"] = Some k ->
  plot_annotation OD CLS number truediv sub axes (OPrediction p) stroke
  = Raise (KeyError k).
Proof.
  intros Ht Hk. unfold plot_annotation, rbind, getitem_str,
    Prediction__getitem__.
  rewrite Ht. cbn [py_eq]. rewrite String.eqb_refl.
  revert Hk. unfold dict_has. simpl.
  destruct (dict_get (json_prediction p) "height"); simpl;
    [|intros [= <-]; reflexivity].
  destruct (dict_get (json_prediction p) "width"); simpl;
    [|intros [= <-]; reflexivity].
  destruct (dict_get (json_prediction p) "x"); simpl;
    [|intros [= <-]; reflexivity].
  destruct (dict_get (json_prediction p) "y"); simpl;
    [discriminate|intros [= <-]; reflexivity].
Qed.

Lemma plot_annotation_missing_field_witness :
  let p := {| json_prediction :=
                [("x", VInt 10); ("height", VInt 6);
                 ("image_path", VStr "img.jpg");
                 ("prediction_type", VStr "ObjectDetectionModel")] |} in
  plot_annotation "ObjectDetectionModel" "ClassificationModel"
    Z halves_truediv halves_sub [] (OPrediction p) (VInt 1)
  = Raise (KeyError "width").
Proof.
  intros p.
  exact (plot_annotation_missing_field "ObjectDetectionModel"
           "ClassificationModel" Z halves_truediv halves_sub [] p (VInt 1)
           "width" eq_refl eq_refl).
Defined.

(** X16. For a classification prediction the title is built from left to
    right, and the first field that is missing or is not a string ends
    it: a missing [top] is a KeyError, a [top] that is not a string a
    TypeError whatever [confidence] is, and then the same for
    [confidence]; in each case no title is set. *)
Theorem plot_annotation_title_errors (OD CLS : string) (number : Type)
    (truediv : value -> value -> result number)
    (sub : value -> number -> result number)
    (axes : Axes number) (p : Prediction) (stroke : value) :
  dict_get (json_prediction p) "prediction_type" = Some (VStr CLS) ->
  OD <> CLS ->
  let plot := plot_annotation OD CLS number truediv sub axes (OPrediction p)
                stroke in
  let top := dict_get (json_prediction p) "top" in
  let confidence := dict_get (json_prediction p) "confidence" in
  (top = None -> plot = Raise (KeyError "top")) /\
  (forall v, top = Some v -> (forall s, v <> VStr s) ->
             plot = Raise TypeError) /\
  (forall s, top = Some (VStr s) -> confidence = None ->
             plot = Raise (KeyError "confidence")) /\
  (forall s v, top = Some (VStr s) -> confidence = Some v ->
               (forall s', v <> VStr s') -> plot = Raise TypeError).
Proof.
  intros Ht Hd plot top confidence. subst plot top confidence.
  unfold plot_annotation, rbind, getitem_str, Prediction__getitem__.
  rewrite Ht. cbn [py_eq].
  destruct (String.eqb_spec CLS OD) as [E|_]; [congruence|].
  rewrite String.eqb_refl.
  split; [|split; [|split]].
  - intros ->. reflexivity.
  - intros v -> Hv. destruct v; try reflexivity. now destruct (Hv s).
  - intros s -> ->. reflexivity.
  - intros s v -> -> Hv. simpl. destruct v; try reflexivity.
    now destruct (Hv s0).
Qed.

Lemma plot_annotation_title_errors_witness :
  let p := {| json_prediction :=
                [("top", VStr "cat"); ("image_path", VStr "img.jpg");
                 ("prediction_type", VStr "ClassificationModel")] |} in
  plot_annotation "ObjectDetectionModel" "ClassificationModel"
    Z halves_truediv halves_sub [] (OPrediction p) (VInt 1)
  = Raise (KeyError "confidence").
Proof.
  intros p.
  refine (proj1 (proj2 (proj2
            (plot_annotation_title_errors "ObjectDetectionModel"
               "ClassificationModel" Z halves_truediv halves_sub []
               p (VInt 1) eq_refl _))) "cat" eq_refl eq_refl).
  discriminate.
Defined.

(** ** create_prediction_group: failures, and what comes after *)

Lemma create_prediction_list_not_dict image_path prediction_type entries :
  forall acc,
    forallb is_dict entries = false ->
    create_prediction_list entries image_path prediction_type acc
    = Raise TypeError.
Proof.
  induction entries as [|e entries IH]; intros acc; simpl; [discriminate|].
  destruct e; simpl; try reflexivity. intros H. now apply IH.
Qed.

(** The group that the factory makes of entries that are mappings. *)
Lemma create_prediction_group_value (json_response : dict)
    (entries : list dict) (image_path prediction_type : value)
    (w : list string) :
  dict_get json_response "predictions" = Some (VList (map VDict entries)) ->
  create_prediction_group (VDict json_response) image_path prediction_type w
  = (Ok match entries with
        | [] => empty_group
        | _ :: _ =>
            {| predictions :=
                 map OPrediction
                   (map (tagged image_path prediction_type) entries);
               base_image_path := image_path;
               base_prediction_type := prediction_type |}
        end, w).
Proof.
  intros H. unfold create_prediction_group. simpl. rewrite H. simpl.
  rewrite create_prediction_list_dicts. simpl.
  destruct entries as [|e entries]; simpl; [reflexivity|].
  apply PredictionGroup_new_members.
  - simpl. apply dict_get_set_same.
  - simpl. rewrite dict_get_set_other by discriminate.
    apply dict_get_set_same.
  - apply forallb_is_prediction.
Qed.

(** X17. The factory never warns, whatever it is given and whether it
    returns or raises.  A response without the key ['predictions']
    makes it raise KeyError, and a list of entries one of which is not a
    mapping makes it raise TypeError; in both cases no group is made. *)
Theorem create_prediction_group_failures :
  (forall json_response image_path prediction_type w,
      snd (create_prediction_group json_response image_path prediction_type w)
      = w) /\
  (forall (json_response : dict) image_path prediction_type w,
      dict_get json_response "predictions" = None ->
      create_prediction_group (VDict json_response) image_path
        prediction_type w
      = (Raise (KeyError "predictions"), w)) /\
  (forall (json_response : dict) (entries : list value) image_path
          prediction_type w,
      dict_get json_response "predictions" = Some (VList entries) ->
      forallb is_dict entries = false ->
      create_prediction_group (VDict json_response) image_path
        prediction_type w
      = (Raise TypeError, w)).
Proof.
  split; [|split].
  - intros j ip pt w. unfold create_prediction_group.
    destruct (rbind _ _); [apply PredictionGroup_new_warned|reflexivity].
  - intros j ip pt w H. unfold create_prediction_group. simpl.
    now rewrite H.
  - intros j entries ip pt w H Hd. unfold create_prediction_group. simpl.
    rewrite H. simpl. now rewrite create_prediction_list_not_dict.
Qed.

Lemma create_prediction_group_failures_witness :
  create_prediction_group (VDict [("time", VInt 3)]) (VStr "img.jpg")
    (VStr "ClassificationModel") []
  = (Raise (KeyError "predictions"), []) /\
  create_prediction_group
    (VDict [("predictions", VList [VDict []; VStr "cat"])]) (VStr "img.jpg")
    (VStr "ClassificationModel") []
  = (Raise TypeError, []).
Proof.
  split.
  - exact (proj1 (proj2 create_prediction_group_failures)
             [("time", VInt 3)] _ _ [] eq_refl).
  - exact (proj2 (proj2 create_prediction_group_failures)
             [("predictions", VList [VDict []; VStr "cat"])]
             [VDict []; VStr "cat"] _ _ [] eq_refl eq_refl).
Defined.

(** X18. A Prediction made with the image path and the type that were
    given to the factory (two strings) is added to the group of the
    factory without any warning; the group then has one member more
    than the response had entries, and the image path given is its
    [base_image_path]. *)
Theorem create_prediction_group_then_add (json_response : dict)
    (entries : list dict) (image_path prediction_type : string)
    (fields : dict) (w : list string) :
  dict_get json_response "predictions" = Some (VList (map VDict entries)) ->
  exists (g g' : PredictionGroup) (p : Prediction),
    create_prediction_group (VDict json_response) (VStr image_path)
      (VStr prediction_type) w = (Ok g, w) /\
    Prediction__init__ (VDict fields) (VStr image_path) (VStr prediction_type)
    = Ok p /\
    PredictionGroup_add_prediction (OPrediction p) {| self := g; warned := w |}
    = (Ok tt, {| self := g'; warned := w |}) /\
    PredictionGroup__len__ g' = S (length entries) /\
    base_image_path g' = VStr image_path.
Proof.
  intros H.
  pose proof (create_prediction_group_value json_response entries
                (VStr image_path) (VStr prediction_type) w H) as Hg.
  set (p := tagged (VStr image_path) (VStr prediction_type) fields).
  assert (Ht : dict_get (json_prediction p) "prediction_type"
               = Some (VStr prediction_type))
    by (simpl; apply dict_get_set_same).
  assert (Hp : dict_get (json_prediction p) "image_path"
               = Some (VStr image_path)).
  { simpl. rewrite dict_get_set_other by discriminate.
    apply dict_get_set_same. }
  destruct entries as [|e entries].
  - exists empty_group. eexists. exists p.
    split; [exact Hg|]. split; [reflexivity|]. split; [|split].
    + exact (add_prediction_empty p _ _ empty_group w eq_refl Ht Hp).
    + reflexivity.
    + reflexivity.
  - eexists. eexists. exists p.
    split; [exact Hg|]. split; [reflexivity|]. split; [|split].
    + rewrite (add_prediction_differences _ p prediction_type prediction_type
                 image_path image_path w) by
        (simpl; solve [discriminate | assumption | reflexivity]).
      rewrite !String.eqb_refl. simpl. rewrite app_nil_r. reflexivity.
    + unfold PredictionGroup__len__. simpl.
      rewrite length_app, !length_map. simpl. lia.
    + reflexivity.
Qed.

Lemma create_prediction_group_then_add_witness :
  let response :=
    [("predictions", VList (map VDict [[("top", VStr "cat")]]))] in
  exists (g g' : PredictionGroup) (p : Prediction),
    create_prediction_group (VDict response) (VStr "img.jpg")
      (VStr "ClassificationModel") [] = (Ok g, []) /\
    Prediction__init__ (VDict [("top", VStr "dog")]) (VStr "img.jpg")
      (VStr "ClassificationModel") = Ok p /\
    PredictionGroup_add_prediction (OPrediction p) {| self := g; warned := [] |}
    = (Ok tt, {| self := g'; warned := [] |}) /\
    PredictionGroup__len__ g' = 2 /\
    base_image_path g' = VStr "img.jpg".
Proof.
  intros response.
  exact (create_prediction_group_then_add response [[("top", VStr "cat")]]
           "img.jpg" "ClassificationModel" [("top", VStr "dog")] [] eq_refl).
Defined.

(** ** Plotting *)

Section PlotFacts.

Variables OD CLS : string.
Variable number : Type.
Variable truediv : value -> value -> result number.
Variable sub : value -> number -> result number.
Variables image response lib_exn : Type.
Variable is_OSError : lib_exn -> bool.
Variables os_path_exists check_image_url : value -> bool + lib_exn.
Variable Image_open : value -> image + lib_exn.
Variable requests_get : value -> response + lib_exn.
Variable Image_open_content : response -> image + lib_exn.

Local Abbreviation exception_check' :=
  (exception_check number image response lib_exn os_path_exists
     check_image_url).
Local Abbreviation plot_image' :=
  (plot_image number image response lib_exn is_OSError os_path_exists
     check_image_url Image_open requests_get Image_open_content).
Local Abbreviation annotate' :=
  (annotate OD CLS number truediv sub image response lib_exn).
Local Abbreviation plot_members' :=
  (plot_members OD CLS number truediv sub image response lib_exn).
Local Abbreviation Prediction_plot' :=
  (Prediction_plot OD CLS number truediv sub image response lib_exn
     is_OSError os_path_exists check_image_url Image_open requests_get
     Image_open_content).
Local Abbreviation PredictionGroup_plot' :=
  (PredictionGroup_plot OD CLS number truediv sub image response lib_exn
     is_OSError os_path_exists check_image_url Image_open requests_get
     Image_open_content).
Local Abbreviation annotations' := (annotations OD CLS number truediv sub).
Local Abbreviation event' := (event number image response).
Local Abbreviation IO' := (IO number image response lib_exn).

Local Abbreviation quiet' := (quiet number image response lib_exn).
Local Abbreviation shows_last' :=
  (shows_last number image response lib_exn).

Lemma quiet_bind {A B : Type} (m : IO' A) (f : A -> IO' B) :
  quiet' m -> (forall a, quiet' (f a)) -> quiet' (io_bind _ _ _ _ m f).
Proof.
  unfold quiet, io_bind. destruct m as [[a|e|] evs]; simpl; auto.
  intros Hm Hf. specialize (Hf a). destruct (f a) as [r evs']. simpl in *.
  rewrite in_app_iff. tauto.
Qed.

Lemma quiet_exception_check p : quiet' (exception_check' p).
Proof.
  unfold exception_check, quiet, io_bind, call, io_lift, io_ret, io_raise.
  repeat (break_match; simpl in * ); try tauto;
    repeat match goal with
    | H : (_, _) = (_, _) |- _ => injection H as <- <-
    end; simpl; intuition discriminate.
Qed.

Ltac io := unfold io_bind, call, io_lift, io_ret, io_raise,
  try_except_OSError.

Lemma quiet_plot_image p : quiet' (plot_image' p).
Proof.
  unfold plot_image. apply quiet_bind; [apply quiet_exception_check|].
  intros _. unfold quiet. io.
  repeat (break_match; simpl in * ); try tauto;
    repeat match goal with
    | H : (_, _) = (_, _) |- _ => injection H as <- <-
    end; simpl; intuition discriminate.
Qed.

Lemma quiet_annotate x stroke : quiet' (annotate' x stroke).
Proof.
  unfold quiet, annotate. break_match; simpl; [|tauto].
  rewrite in_map_iff. intros (art & [=] & _).
Qed.

Lemma quiet_plot_members g stroke fuel : forall i,
  quiet' (plot_members' fuel g i stroke).
Proof.
  induction fuel as [|fuel IH]; intros i; cbn [plot_members];
    [unfold quiet; simpl; tauto|].
  destruct (PredictionGroup__getitem__ g (VInt (Z.of_nat i))) as [x|e].
  - apply quiet_bind; [apply quiet_annotate|auto].
  - destruct e; unfold quiet; simpl; tauto.
Qed.

Lemma quiet_lift {A : Type} (r : result A) :
  quiet' (io_lift _ _ _ _ r).
Proof. unfold quiet; simpl; tauto. Qed.

Lemma shows_last_bind {A B : Type} (m : IO' A) (f : A -> IO' B) :
  quiet' m -> (forall a, shows_last' (f a)) ->
  shows_last' (io_bind _ _ _ _ m f).
Proof.
  unfold quiet, shows_last, io_bind. destruct m as [[a|e|] evs]; simpl; auto.
  intros Hm Hf. specialize (Hf a). destruct (f a) as [[b|e|] evs'].
  - destruct Hf as (evs'' & -> & Hn). exists (evs ++ evs'')%list.
    rewrite app_assoc, in_app_iff. tauto.
  - rewrite in_app_iff. tauto.
  - rewrite in_app_iff. tauto.
Qed.

Lemma shows_last_show :
  shows_last' (call _ _ _ _ plt_show_ (inl tt)).
Proof. exists []. simpl. tauto. Qed.

(** X19. Both [plot] methods call [plt.show] last and once when they
    return, and not at all when they raise. *)
Theorem plot_show_last (p : Prediction) (g : PredictionGroup)
    (stroke : value) :
  shows_last' (Prediction_plot' p stroke) /\
  shows_last' (PredictionGroup_plot' g stroke).
Proof.
  split.
  - unfold Prediction_plot.
    apply shows_last_bind; [apply quiet_lift|]. intros ip.
    apply shows_last_bind; [apply quiet_exception_check|]. intros _.
    apply shows_last_bind; [apply quiet_lift|]. intros ip'.
    apply shows_last_bind; [apply quiet_plot_image|]. intros _.
    apply shows_last_bind; [apply quiet_annotate|]. intros _.
    apply shows_last_show.
  - unfold PredictionGroup_plot.
    apply shows_last_bind; [|intros _; apply shows_last_show].
    destruct (Nat.ltb 0 (PredictionGroup__len__ g)).
    + apply quiet_bind; [apply quiet_exception_check|]. intros _.
      apply quiet_bind; [apply quiet_plot_image|]. intros _.
      apply quiet_plot_members.
    + unfold quiet; simpl; tauto.
Qed.

(** X20. When neither a file nor a reachable URL is at the image path (a
    string), [plot] raises the exception of [exception_check] after
    these two checks and nothing else: no image is opened, no figure is
    made, nothing is shown.  This holds for a Prediction and for a
    group that has members, with its [base_image_path]. *)
Theorem plot_missing_image (path : string) (stroke : value) :
  os_path_exists (VStr path) = inl false ->
  check_image_url (VStr path) = inl false ->
  let failure : IO' unit :=
    (Raises (Py (Exception_ ("Image does not exist at " ++ path ++ "!"))),
     [os_path_exists_ (VStr path); check_image_url_ (VStr path)]) in
  (forall p : Prediction,
      dict_get (json_prediction p) "image_path" = Some (VStr path) ->
      Prediction_plot' p stroke = failure) /\
  (forall g : PredictionGroup,
      predictions g <> [] ->
      base_image_path g = VStr path ->
      PredictionGroup_plot' g stroke = failure).
Proof.
  intros He Hu failure. subst failure. split.
  - intros p Hp. unfold Prediction_plot, Prediction__getitem__.
    rewrite Hp. unfold exception_check. io. simpl. rewrite He, Hu.
    reflexivity.
  - intros g Hne Hp. unfold PredictionGroup_plot, PredictionGroup__len__.
    destruct (predictions g); [congruence|]. simpl.
    rewrite Hp. unfold exception_check. io. simpl. rewrite He, Hu.
    reflexivity.
Qed.

(** X21. [plot_image] opens no image unless the existence check let it
    through (the path is None, or a file is there, or the URL is
    reachable), and it asks the network for the image only after
    [Image.open] of the path has raised OSError. *)
Theorem plot_image_calls (p u : value) :
  (In (Image_open_ u) (snd (plot_image' p)) ->
   u = p /\
   (p = VNone \/ os_path_exists p = inl true
    \/ check_image_url p = inl true)) /\
  (In (requests_get_ u) (snd (plot_image' p)) ->
   u = p /\ exists x, Image_open p = inr x /\ is_OSError x = true).
Proof.
  unfold plot_image, exception_check. io. split.
  - repeat (break_match; simpl in * );
      repeat match goal with
      | H : (_, _) = (_, _) |- _ => injection H as <- <-
      | H : (_, _) = (_, _) |- _ => discriminate H
      end; simpl; rewrite ?in_app_iff; simpl;
      intuition (try discriminate; try congruence);
      repeat match goal with
      | H : Image_open_ _ = Image_open_ _ |- _ => injection H as <-
      | b : bool |- _ => destruct b
      | v : value |- _ => destruct v
      end; simpl in *; auto; try discriminate.
  - repeat (break_match; simpl in * );
      repeat match goal with
      | H : (_, _) = (_, _) |- _ => injection H as <- <-
      | H : (_, _) = (_, _) |- _ => discriminate H
      end; simpl; rewrite ?in_app_iff; simpl;
      intuition (try discriminate; try congruence);
      repeat match goal with
      | H : requests_get_ _ = requests_get_ _ |- _ => injection H as <-
      end; eauto.
Qed.

Lemma skipn_nth {A : Type} (l : list A) (i : nat) (x : A) :
  nth_error l i = Some x -> skipn i l = x :: skipn (S i) l.
Proof.
  revert i. induction l as [|y l IH]; intros [|i]; simpl;
    try discriminate.
  - now intros [= ->].
  - intros H. now rewrite (IH i H).
Qed.

(** The loop over the members makes the calls of [plot_annotation] for
    each member in turn, on the same axes. *)
Lemma plot_members_annotations (g : PredictionGroup) (stroke : value)
    (n : nat) :
  forall (i fuel : nat) (axes : Axes number),
    i + n = length (predictions g) -> n < fuel ->
    match annotations' axes (skipn i (predictions g)) stroke with
    | Ok axes' =>
        exists new, axes' = (axes ++ new)%list /\
          plot_members' fuel g i stroke = (Returns tt, map draw_ new)
    | Raise e => fst (plot_members' fuel g i stroke) = Raises (Py e)
    end.
Proof.
  induction n as [|n IH]; intros i fuel axes Hi Hf;
    (destruct fuel as [|fuel]; [lia|]); cbn [plot_members];
    unfold PredictionGroup__getitem__.
  - assert (Hi' : i = length (predictions g)) by lia. subst i.
    rewrite list_getitem_out, skipn_all. simpl.
    exists []. now rewrite app_nil_r.
  - destruct (nth_error (predictions g) i) as [x|] eqn:E;
      [|apply nth_error_None in E; lia].
    rewrite (list_getitem_nth _ _ _ E), (skipn_nth _ _ _ E).
    cbn [annotations]. unfold rbind, annotate.
    destruct (plot_annotation_appends OD CLS number truediv sub axes x stroke)
      as [Hf1 _]. rewrite Hf1.
    destruct (plot_annotation OD CLS number truediv sub [] x stroke)
      as [new1|e]; [|reflexivity].
    specialize (IH (S i) fuel (axes ++ new1)%list ltac:(lia) ltac:(lia)).
    destruct (annotations' (axes ++ new1)%list (skipn (S i) (predictions g))
                stroke) as [axes'|e].
    + destruct IH as (new2 & -> & Hm). exists (new1 ++ new2)%list.
      split; [now rewrite app_assoc|].
      unfold io_bind. rewrite Hm, map_app. reflexivity.
    + unfold io_bind.
      destruct (plot_members' fuel g (S i) stroke) as [r evs].
      simpl in IH. now subst r.
Qed.

(** X22. [PredictionGroup.plot] of a group without members only calls
    [plt.show].  Of a group with members whose base image path is a
    file that [Image.open] opens, it checks that the file exists (twice),
    opens it once, makes one figure with the image, draws what
    [plot_annotation] draws for each member in turn on the same axes,
    and shows the figure; if [plot_annotation] raises for a member,
    [plot] raises the same exception. *)
Theorem PredictionGroup_plot_calls (g : PredictionGroup) (stroke : value) :
  (predictions g = [] ->
   PredictionGroup_plot' g stroke = (Returns tt, [plt_show_])) /\
  (forall (path : string) (img : image),
      predictions g <> [] ->
      base_image_path g = VStr path ->
      os_path_exists (VStr path) = inl true ->
      Image_open (VStr path) = inl img ->
      (forall arts,
          annotations' [] (predictions g) stroke = Ok arts ->
          PredictionGroup_plot' g stroke
          = (Returns tt,
             [os_path_exists_ (VStr path); os_path_exists_ (VStr path);
              Image_open_ (VStr path); plt_subplots_; imshow_ img]
             ++ map draw_ arts ++ [plt_show_])%list) /\
      (forall e,
          annotations' [] (predictions g) stroke = Raise e ->
          fst (PredictionGroup_plot' g stroke) = Raises (Py e))).
Proof.
  split.
  - intros Hg. unfold PredictionGroup_plot, PredictionGroup__len__.
    rewrite Hg. reflexivity.
  - intros path img Hne Hp He Ho.
    pose proof (plot_members_annotations g stroke (length (predictions g)) 0
                  (S (length (predictions g))) [] eq_refl ltac:(lia)) as Hm.
    simpl skipn in Hm.
    unfold PredictionGroup_plot, PredictionGroup__len__.
    remember (annotations' [] (predictions g) stroke) as drawn eqn:Ed.
    remember (plot_members' (S (length (predictions g))) g 0 stroke)
      as loop eqn:El.
    clear Ed El.
    destruct (predictions g) as [|x l]; [congruence|].
    cbn [length Nat.ltb Nat.leb]. rewrite Hp.
    unfold plot_image, exception_check. io. simpl. rewrite He, Ho. simpl.
    split.
    + intros arts ->. destruct Hm as (new & -> & ->). reflexivity.
    + intros e ->. destruct loop as [r evs]. simpl in Hm. now subst r.
Qed.

(** X23. [Prediction.plot] of a Prediction whose image path is a file
    that [Image.open] opens: the existence of the file is checked
    (twice), the file is opened once, one figure is made with the
    image, the annotation of the Prediction is drawn and the figure is
    shown; if [plot_annotation] raises, [plot] raises the same
    exception after the image was put on the figure, and shows
    nothing. *)
Theorem Prediction_plot_calls (p : Prediction) (stroke : value)
    (path : string) (img : image) :
  dict_get (json_prediction p) "image_path" = Some (VStr path) ->
  os_path_exists (VStr path) = inl true ->
  Image_open (VStr path) = inl img ->
  let before : list event' :=
    [os_path_exists_ (VStr path); os_path_exists_ (VStr path);
     Image_open_ (VStr path); plt_subplots_; imshow_ img] in
  Prediction_plot' p stroke
  = match plot_annotation OD CLS number truediv sub [] (OPrediction p)
            stroke with
    | Ok arts => (Returns tt, before ++ map draw_ arts ++ [plt_show_])%list
    | Raise e => (Raises (Py e), before)
    end.
Proof.
  intros Hp He Ho before. subst before.
  unfold Prediction_plot, Prediction__getitem__. rewrite Hp.
  unfold plot_image, exception_check, annotate. io. simpl.
  rewrite He, Ho. simpl.
  destruct (plot_annotation OD CLS number truediv sub [] (OPrediction p)
              stroke); reflexivity.
Qed.

(** X24. [Prediction.plot] of a Prediction whose image path is not a
    file but a reachable URL: both existence checks go to the URL
    check, [Image.open] of the path raises OSError, the image is then
    fetched with [requests.get] and opened from the content of the
    response, and plotting goes on as for a file. *)
Theorem Prediction_plot_hosted (p : Prediction) (stroke : value)
    (url : string) (x : lib_exn) (r : response) (img : image) :
  dict_get (json_prediction p) "image_path" = Some (VStr url) ->
  os_path_exists (VStr url) = inl false ->
  check_image_url (VStr url) = inl true ->
  Image_open (VStr url) = inr x ->
  is_OSError x = true ->
  requests_get (VStr url) = inl r ->
  Image_open_content r = inl img ->
  let before : list event' :=
    [os_path_exists_ (VStr url); check_image_url_ (VStr url);
     os_path_exists_ (VStr url); check_image_url_ (VStr url);
     Image_open_ (VStr url); requests_get_ (VStr url);
     Image_open_content_ r; plt_subplots_; imshow_ img] in
  Prediction_plot' p stroke
  = match plot_annotation OD CLS number truediv sub [] (OPrediction p)
            stroke with
    | Ok arts => (Returns tt, before ++ map draw_ arts ++ [plt_show_])%list
    | Raise e => (Raises (Py e), before)
    end.
Proof.
  intros Hp He Hu Ho Hx Hg Hc before. subst before.
  unfold Prediction_plot, Prediction__getitem__. rewrite Hp.
  unfold plot_image, exception_check, annotate. io. simpl.
  rewrite He, Hu. simpl. rewrite Ho, Hx, Hg. simpl. rewrite Hc. simpl.
  destruct (plot_annotation OD CLS number truediv sub [] (OPrediction p)
              stroke); reflexivity.
Qed.

End PlotFacts.

Lemma plot_missing_image_witness :
  let p := {| json_prediction :=
                [("x", VInt 10); ("y", VInt 10); ("width", VInt 4);
                 ("height", VInt 6); ("image_path", VStr "gone.jpg");
                 ("prediction_type", VStr "ObjectDetectionModel")] |} in
  Prediction_plot "ObjectDetectionModel" "ClassificationModel" Z
    halves_truediv halves_sub string string string sample_is_OSError
    sample_exists sample_url sample_open sample_get sample_open_content
    p (VInt 1)
  = (Raises (Py (Exception_ "Image does not exist at gone.jpg!")),
     [os_path_exists_ (VStr "gone.jpg"); check_image_url_ (VStr "gone.jpg")]).
Proof.
  intros p.
  exact (proj1 (plot_missing_image "ObjectDetectionModel"
                  "ClassificationModel" Z halves_truediv halves_sub
                  string string string sample_is_OSError sample_exists
                  sample_url sample_open sample_get sample_open_content
                  "gone.jpg" (VInt 1) eq_refl eq_refl) p eq_refl).
Defined.

Lemma plot_image_calls_witness :
  let url := VStr "http://host/img.jpg" in
  (url = url /\
   (url = VNone \/ sample_exists url = inl true
    \/ sample_url url = inl true)) /\
  (url = url /\
   exists x, sample_open url = inr x /\ sample_is_OSError x = true).
Proof.
  intros url.
  pose proof (plot_image_calls Z halves_truediv halves_sub string string
                string sample_is_OSError sample_exists sample_url sample_open
                sample_get sample_open_content url url) as [H1 H2].
  split.
  - apply H1. vm_compute. tauto.
  - apply H2. vm_compute. tauto.
Defined.

Lemma PredictionGroup_plot_calls_witness :
  let box := {| json_prediction :=
                  [("x", VInt 10); ("y", VInt 10); ("width", VInt 4);
                   ("height", VInt 6); ("image_path", VStr "img.jpg");
                   ("prediction_type", VStr "ObjectDetectionModel")] |} in
  let g := {| predictions := [OPrediction box; OPrediction box];
              base_image_path := VStr "img.jpg";
              base_prediction_type := VStr "ObjectDetectionModel" |} in
  let rect := {| xy := (16, 14)%Z; width := VInt 4; height := VInt 6;
                 linewidth := VInt 1; edgecolor := "r";
                 facecolor := "none" |} in
  PredictionGroup_plot "ObjectDetectionModel" "ClassificationModel" Z
    halves_truediv halves_sub string string string sample_is_OSError
    sample_exists sample_url sample_open sample_get sample_open_content
    g (VInt 1)
  = (Returns tt,
     [os_path_exists_ (VStr "img.jpg"); os_path_exists_ (VStr "img.jpg");
      Image_open_ (VStr "img.jpg"); plt_subplots_; imshow_ "img.jpg";
      draw_ (add_patch rect); draw_ (add_patch rect); plt_show_]).
Proof.
  intros box g rect.
  exact (proj1 (proj2 (PredictionGroup_plot_calls "ObjectDetectionModel"
                  "ClassificationModel" Z halves_truediv halves_sub
                  string string string sample_is_OSError sample_exists
                  sample_url sample_open sample_get sample_open_content
                  g (VInt 1)) "img.jpg" "img.jpg" ltac:(discriminate)
                  eq_refl eq_refl eq_refl)
           [add_patch rect; add_patch rect] eq_refl).
Defined.

Lemma Prediction_plot_calls_witness :
  let cls := {| json_prediction :=
                  [("top", VStr "cat"); ("confidence", VStr "0.9");
                   ("image_path", VStr "img.jpg");
                   ("prediction_type", VStr "ClassificationModel")] |} in
  Prediction_plot "ObjectDetectionModel" "ClassificationModel" Z
    halves_truediv halves_sub string string string sample_is_OSError
    sample_exists sample_url sample_open sample_get sample_open_content
    cls (VInt 1)
  = (Returns tt,
     [os_path_exists_ (VStr "img.jpg"); os_path_exists_ (VStr "img.jpg");
      Image_open_ (VStr "img.jpg"); plt_subplots_; imshow_ "img.jpg";
      draw_ (set_title "Class: cat | Confidence: 0.9"); plt_show_]).
Proof.
  intros cls.
  exact (Prediction_plot_calls "ObjectDetectionModel" "ClassificationModel" Z
           halves_truediv halves_sub string string string sample_is_OSError
           sample_exists sample_url sample_open sample_get sample_open_content
           cls (VInt 1) "img.jpg" "img.jpg" eq_refl eq_refl eq_refl).
Defined.


Lemma Prediction_init_frame_witness :
  exists p : Prediction,
    Prediction__init__ (VDict [("x", VInt 1); ("image_path", VStr "old.jpg")])
      (VStr "a.jpg") (VStr "ObjectDetectionModel") = Ok p /\
    Prediction__getitem__ p "x" = Ok (VInt 1) /\
    Prediction__getitem__ p "y" = Raise (KeyError "y") /\
    map fst (Prediction_json p) = ["x"; "image_path"; "prediction_type"].
Proof.
  destruct (Prediction_init_frame [("x", VInt 1); ("image_path", VStr "old.jpg")]
              (VStr "a.jpg") (VStr "ObjectDetectionModel"))
    as (p & Hp & Hk & Ho).
  exists p. split; [exact Hp|]. split; [|split].
  - exact (Hk "x" ltac:(discriminate) ltac:(discriminate)).
  - exact (Hk "y" ltac:(discriminate) ltac:(discriminate)).
  - exact Ho.
Defined.

Lemma Prediction_plot_hosted_witness :
  let cls := {| json_prediction :=
                  [("top", VStr "cat"); ("confidence", VStr "0.9");
                   ("image_path", VStr "http://host/img.jpg");
                   ("prediction_type", VStr "ClassificationModel")] |} in
  let url := VStr "http://host/img.jpg" in
  Prediction_plot "ObjectDetectionModel" "ClassificationModel" Z
    halves_truediv halves_sub string string string sample_is_OSError
    sample_exists sample_url sample_open sample_get sample_open_content
    cls (VInt 1)
  = (Returns tt,
     [os_path_exists_ url; check_image_url_ url;
      os_path_exists_ url; check_image_url_ url;
      Image_open_ url; requests_get_ url; Image_open_content_ "content";
      plt_subplots_; imshow_ "content";
      draw_ (set_title "Class: cat | Confidence: 0.9"); plt_show_]).
Proof.
  intros cls url.
  exact (Prediction_plot_hosted "ObjectDetectionModel" "ClassificationModel"
           Z halves_truediv halves_sub string string string
           sample_is_OSError sample_exists sample_url sample_open sample_get
           sample_open_content cls (VInt 1) "http://host/img.jpg" "OSError"
           "content" "content" eq_refl eq_refl eq_refl eq_refl eq_refl
           eq_refl eq_refl).
Defined.

(** ** The string form of a group *)

Lemma str_loop_app (l : list pyobj) (o : pyobj) : forall acc,
  PredictionGroup__str__loop (l ++ [o]) acc
  = match PredictionGroup__str__loop l acc, py_str o with
    | Some s, Some t =>
        Some (s ++ t ++ String json.newline (String json.newline ""))
    | _, _ => None
    end.
Proof.
  induction l as [|x l IH]; intros acc; simpl.
  - destruct (py_str o); reflexivity.
  - destruct (py_str x); [apply IH|reflexivity].
Qed.

(** X25. When [g.add_prediction(o)] returns, the string form of the group
    is what it was before, followed by the string form of the
    Prediction added and an empty line. *)
Theorem PredictionGroup_str_add (o : pyobj) (st st' : state) (s : string) :
  PredictionGroup_add_prediction o st = (Ok tt, st') ->
  PredictionGroup__str__ (self st) = Some s ->
  exists p : Prediction,
    o = OPrediction p /\
    PredictionGroup__str__ (self st')
    = Some (s ++ Prediction__str__ p
            ++ String json.newline (String json.newline "")).
Proof.
  intros H Hs. apply add_prediction_effect in H as (p & -> & Hp & _).
  exists p. split; [reflexivity|].
  unfold PredictionGroup__str__ in *. rewrite Hp, str_loop_app, Hs.
  reflexivity.
Qed.

Lemma PredictionGroup_str_add_witness :
  let p := {| json_prediction := [("image_path", VStr "a.jpg")] |} in
  let q := {| json_prediction :=
                [("image_path", VStr "a.jpg"); ("prediction_type", VNone)] |} in
  let g := {| predictions := [OPrediction p];
              base_image_path := VStr "a.jpg";
              base_prediction_type := VStr "" |} in
  exists p' : Prediction,
    OPrediction q = OPrediction p' /\
    PredictionGroup__str__
      (self (snd (PredictionGroup_add_prediction (OPrediction q)
                    {| self := g; warned := [] |})))
    = Some ((Prediction__str__ p
             ++ String json.newline (String json.newline ""))
            ++ Prediction__str__ p'
            ++ String json.newline (String json.newline "")).
Proof.
  intros p q g.
  exact (PredictionGroup_str_add (OPrediction q)
           {| self := g; warned := [] |}
           (snd (PredictionGroup_add_prediction (OPrediction q)
                   {| self := g; warned := [] |}))
           (Prediction__str__ p
            ++ String json.newline (String json.newline ""))
           eq_refl eq_refl).
Defined.
